(** * The MMT engine builder: checkpointed training pipeline

  A shallow embedding of [cli/engine.py]: the checkpoint manager, the
  baseline domain database, the builder's logger, the engine's directory
  helpers and the builder itself ([__init__], [_build], [_run_step], the
  step functions and [_check_constraints]), followed by the properties of
  the orchestration core.

  The program is Python 2.  Its effects are the directory tree, the
  standard output, the training log stream and the fields the builder
  assigns while it runs; they are threaded through a state-and-exception
  monad.  The values handed from step to step are dynamically typed and are
  kept so: a list of corpora, a tuple, [None].

  The spec calls the exceptions by role: [ResumeStateError] is
  [cli.IllegalStateException]; [InvalidArgument] and [NoTrainingDataError]
  are [cli.IllegalArgumentException]. *)

From stdpp Require Import gmap strings list fin_maps pretty.
From Stdlib Require Import ZArith Ascii.
From Stdlib Require QArith Qround.

Open Scope string_scope.
Open Scope list_scope.

(** ** Python runtime: exceptions, results, values *)

Inductive exn :=
| IOError
| OSError
| ValueError
| TypeError
| AttributeError
| KeyError
| IllegalArgumentException (msg : string)
| IllegalStateException (msg : string)
| ExternalError (tag : string).

Inductive result (A : Type) :=
| Return (a : A)
| Raise (e : exn).
Arguments Return {A} a.
Arguments Raise {A} e.

Definition is_return {A} (r : result A) : bool :=
match r with Return _ => true | Raise _ => false end.

(** A path is the list of its components below the root; [[]] is the root. *)
Abbreviation path := (list string).

Definition join (p : path) (name : string) : path := p ++ [name].

Definition path_str (p : path) : string :=
foldr (fun c s => "/" +:+ c +:+ s) "" p.

(** A corpus (cli.mt.BilingualCorpus): its logical name, its language tags
  and the folder it lives in. *)
Record corpus := Corpus {
corpus_name : string;
corpus_langs : list string;
corpus_root : path
}.

(** The values the pipeline passes around. *)
#[warnings="-register-all"]
Inductive value :=
| VCorpus (c : corpus)
| VList (l : list value)
| VTuple (l : list value)
| VNone.

Definition corpora (cs : list corpus) : value := VList (VCorpus <$> cs).

(** Iteration, [len()] and indexing work on lists and tuples only. *)
Definition py_items (v : value) : result (list value) :=
match v with
| VList l | VTuple l => Return l
| _ => Raise TypeError
end.

(** [a, b = v] and [a, b, c = v]. *)
Definition unpack2 (v : value) : result (value * value) :=
match py_items v with
| Return [a; b] => Return (a, b)
| Return _ => Raise ValueError
| Raise e => Raise e
end.

Definition unpack3 (v : value) : result (value * value * value) :=
match py_items v with
| Return [a; b; c] => Return (a, b, c)
| Return _ => Raise ValueError
| Raise e => Raise e
end.

(** [a + b]: concatenation of two lists or of two tuples. *)
Definition py_add (a b : value) : result value :=
match a, b with
| VList x, VList y => Return (VList (x ++ y))
| VTuple x, VTuple y => Return (VTuple (x ++ y))
| _, _ => Raise TypeError
end.

(** [v.name] *)
Definition py_name (v : value) : result string :=
match v with
| VCorpus c => Return (corpus_name c)
| _ => Raise AttributeError
end.

(** ** The directory tree *)

Inductive node :=
| Dir
| File (data : string).

Abbreviation filesystem := (gmap (list string) node).

Module os.

Definition lookup (fs : filesystem) (p : path) : option node :=
  match p with
  | [] => Some Dir
  | _ => fs !! p
  end.

Definition isdir (fs : filesystem) (p : path) : bool :=
  match lookup fs p with Some Dir => true | _ => false end.

Definition isfile (fs : filesystem) (p : path) : bool :=
  match lookup fs p with Some (File _) => true | _ => false end.

Definition dirname (p : path) : path := take (length p - 1) p.

(** The directories on the way to [p], outermost first, [p] included. *)
Definition chain (p : path) : list path :=
  (fun n => take (S n) p) <$> seq 0 (length p).

(** [os.makedirs(p)]: [p] must not exist and no component on the way may
    be a file; the missing directories are created. *)
Definition makedirs (fs : filesystem) (p : path) : result filesystem :=
  match lookup fs p with
  | Some _ => Raise OSError
  | None =>
      if forallb (fun q => negb (isfile fs q)) (chain p)
      then Return (foldr (fun q m => <[q := Dir]> m) fs (chain p))
      else Raise OSError
  end.

(** [os.remove(p)] *)
Definition remove (fs : filesystem) (p : path) : result filesystem :=
  if isfile fs p then Return (delete p fs) else Raise OSError.

(** [open(p, 'w')] followed by the write and the close of the [with]. *)
Definition write (fs : filesystem) (p : path) (data : string)
  : result filesystem :=
  match p with
  | [] => Raise IOError
  | _ => if isdir fs (dirname p) && negb (isdir fs p)
         then Return (<[p := File data]> fs)
         else Raise IOError
  end.

(** [open(p).read()] *)
Definition read (fs : filesystem) (p : path) : result string :=
  match lookup fs p with
  | Some (File data) => Return data
  | _ => Raise IOError
  end.

End os.

Module shutil.

(** [shutil.rmtree(p, ignore_errors=True)]: a directory goes with all it
    holds; on anything else the call fails inside and the failure is
    ignored.  Deletion of a directory is taken to succeed. *)
Definition rmtree (fs : filesystem) (p : path) : filesystem :=
  if os.isdir fs p
  then filter (fun kv => ¬ p `prefix_of` kv.1) fs
  else fs.

End shutil.

Module fileutils.

(** Modelled from the spec: [cli.libs.fileutils.makedirs] is not part of
    the sources; it is the Workspace Manager's ensure-exists, i.e.
    [os.makedirs] that accepts an existing directory when [exist_ok]. *)
Definition makedirs (fs : filesystem) (p : path) (exist_ok : bool)
  : result filesystem :=
  if exist_ok && os.isdir fs p then Return fs else os.makedirs fs p.

End fileutils.

(** ** JSON, as far as the builder uses it

    [json.dump] writes a list of step names (the checkpoint file) and a list
    of [{id, name}] objects (the domain map); [json.load] reads the
    checkpoint file back. *)

Module json.

#[warnings="-register-all"]
Inductive t :=
| Str (s : string)
| Arr (l : list t)
| Obj (fields : list (string * t)).

Definition dquote : ascii := "034"%char.
Definition backslash : ascii := "\"%char.

Definition hex_digit (n : N) : ascii :=
  ascii_of_N (if (n <? 10)%N then 48 + n else 87 + n).

(** Python's [encode_basestring_ascii], on one character.  Names are taken
    to be ASCII; for a byte above 0x7e the escape of the byte is written. *)
Definition escape (c : ascii) : string :=
  let n := N_of_ascii c in
  if Ascii.eqb c dquote then String backslash (String dquote "")
  else if Ascii.eqb c backslash then String backslash (String backslash "")
  else if (n =? 10)%N then "\n"
  else if (n =? 13)%N then "\r"
  else if (n =? 9)%N then "\t"
  else if (n =? 8)%N then "\b"
  else if (n =? 12)%N then "\f"
  else if ((32 <=? n) && (n <=? 126))%N then String c ""
  else "\u00" +:+ String (hex_digit (n / 16)) (String (hex_digit (n mod 16)) "").

Fixpoint escape_all (s : string) : string :=
  match s with
  | EmptyString => ""
  | String c r => escape c +:+ escape_all r
  end.

Definition dumps_string (s : string) : string :=
  String dquote (escape_all s) +:+ String dquote "".

Definition sep_by (sep : string) (items : list string) : string :=
  match items with
  | [] => ""
  | x :: r => foldl (fun acc y => acc +:+ sep +:+ y) x r
  end.

(** [json.dumps] with the default separators. *)
Fixpoint dumps (j : t) : string :=
  match j with
  | Str s => dumps_string s
  | Arr l => "[" +:+ sep_by ", " (map dumps l) +:+ "]"
  | Obj fields =>
      "{" +:+ sep_by ", "
        (map (fun kv => dumps_string (fst kv) +:+ ": " +:+ dumps (snd kv)) fields)
      +:+ "}"
  end.

(** The decoder, for the documents the checkpoint manager writes: an array
    of strings, with the white space and the escapes JSON allows.  Text that
    is not JSON makes [json.load] raise [ValueError].  (A well-formed
    document of another shape, which Python would decode to a value that is
    no list of steps, has no counterpart as a checkpoint record; the decoder
    rejects it alike.) *)

Definition is_ws (c : ascii) : bool :=
  let n := N_of_ascii c in
  ((n =? 32) || (n =? 9) || (n =? 10) || (n =? 13))%N.

Fixpoint skip_ws (s : string) : string :=
  match s with
  | String c r => if is_ws c then skip_ws r else s
  | EmptyString => s
  end.

Definition hex_value (c : ascii) : option N :=
  let n := N_of_ascii c in
  if ((48 <=? n) && (n <=? 57))%N then Some (n - 48)%N
  else if ((97 <=? n) && (n <=? 102))%N then Some (n - 87)%N
  else if ((65 <=? n) && (n <=? 70))%N then Some (n - 55)%N
  else None.

Definition unescape (c : ascii) : option ascii :=
  let n := N_of_ascii c in
  if Ascii.eqb c dquote then Some dquote
  else if Ascii.eqb c backslash then Some backslash
  else if (n =? 47)%N then Some "/"%char
  else if (n =? 110)%N then Some (ascii_of_N 10)
  else if (n =? 114)%N then Some (ascii_of_N 13)
  else if (n =? 116)%N then Some (ascii_of_N 9)
  else if (n =? 98)%N then Some (ascii_of_N 8)
  else if (n =? 102)%N then Some (ascii_of_N 12)
  else None.

Definition cons_to (c : ascii) (r : option (string * string))
  : option (string * string) :=
  match r with
  | Some (s, rest) => Some (String c s, rest)
  | None => None
  end.

(** The characters of a string literal after its opening quote, up to and
    including the closing quote; the decoded string and what follows. *)
Fixpoint loads_string (s : string) : option (string * string) :=
  match s with
  | EmptyString => None
  | String c r =>
      if Ascii.eqb c dquote then Some ("", r)
      else if Ascii.eqb c backslash then
        match r with
        | String e r1 =>
            if Ascii.eqb e "u"%char then
              match r1 with
              | String a (String b (String h (String l r2))) =>
                  match hex_value a, hex_value b, hex_value h, hex_value l with
                  | Some 0%N, Some 0%N, Some x, Some y =>
                      cons_to (ascii_of_N (16 * x + y)) (loads_string r2)
                  | _, _, _, _ => None
                  end
              | _ => None
              end
            else
              match unescape e with
              | Some d => cons_to d (loads_string r1)
              | None => None
              end
        | EmptyString => None
        end
      else if (N_of_ascii c <? 32)%N then None
      else cons_to c (loads_string r)
  end.

(** The elements of an array after its opening bracket and a first
    non-blank character that is not the closing bracket. *)
Fixpoint loads_items (fuel : nat) (s : string) : option (list string * string) :=
  match fuel with
  | O => None
  | S fuel' =>
      match s with
      | String c r =>
          if Ascii.eqb c dquote then
            match loads_string r with
            | Some (item, rest) =>
                match skip_ws rest with
                | String d rest' =>
                    if Ascii.eqb d ","%char then
                      match loads_items fuel' (skip_ws rest') with
                      | Some (items, tail) => Some (item :: items, tail)
                      | None => None
                      end
                    else if Ascii.eqb d "]"%char then Some ([item], rest')
                    else None
                | EmptyString => None
                end
            | None => None
            end
          else None
      | EmptyString => None
      end
  end.

Definition loads (text : string) : result (list string) :=
  match skip_ws text with
  | String c r =>
      if Ascii.eqb c "["%char then
        match skip_ws r with
        | String d r' =>
            if Ascii.eqb d "]"%char
            then (if String.eqb (skip_ws r') "" then Return [] else Raise ValueError)
            else match loads_items (String.length text) (String d r') with
                 | Some (items, tail) =>
                     if String.eqb (skip_ws tail) "" then Return items
                     else Raise ValueError
                 | None => Raise ValueError
                 end
        | EmptyString => Raise ValueError
        end
      else Raise ValueError
  | EmptyString => Raise ValueError
  end.

End json.

(** ** Python strings and text files, as far as the engine uses them *)

Module str.

Definition newline : ascii := ascii_of_N 10.
Definition tab : ascii := ascii_of_N 9.

(** [for line in open(...)]: the lines of a text, each with its
    terminator; the last one has none when the text does not end in one. *)
Fixpoint readlines (text : string) : list string :=
  match text with
  | EmptyString => []
  | String c r =>
      if Ascii.eqb c newline then String c "" :: readlines r
      else match readlines r with
           | [] => [String c ""]
           | line :: rest => String c line :: rest
           end
  end.

(** [s.rstrip(c)] for a single character: every trailing [c] goes. *)
Fixpoint rstrip (c : ascii) (s : string) : string :=
  match s with
  | EmptyString => ""
  | String a r =>
      match rstrip c r with
      | EmptyString => if Ascii.eqb a c then "" else String a ""
      | r' => String a r'
      end
  end.

(** [s.split(sep, maxsplit)] for a single character: at most [maxsplit]
    cuts, from the left; empty pieces are kept. *)
Fixpoint split (sep : ascii) (maxsplit : nat) (s : string) : list string :=
  match s with
  | EmptyString => [""]
  | String a r =>
      if Ascii.eqb a sep then
        match maxsplit with
        | O => [s]
        | S n => "" :: split sep n r
        end
      else
        match split sep maxsplit r with
        | [] => [String a ""]
        | piece :: rest => String a piece :: rest
        end
  end.

(** [sep.join(items)] *)
Definition join (sep : string) (items : list string) : string :=
  json.sep_by sep items.

End str.

(** ** What the builder prints and what it logs

    Elapsed times are left out of the records: they come from the clock. *)

Inductive output :=
| OutTrainingStarted (engine : string) (bilingual monolingual : nat)
                     (source target : string)
| OutStepStarted (num count : nat) (step : option string)
| OutStepDone
| OutTrainingSuccess (engine : option string)
| OutWarnMemory (recommended_G available_G : Z)
| OutWarnStorage (recommended_G available_G : Z)
| OutBlank.

Inductive log_record :=
| LogTrainingStarted (engine : string) (bilingual monolingual : nat)
                     (source target : string)
| LogStepStarted (step : option string) (num count : nat)
| LogStepCompleted (step : option string)
| LogTrainingCompleted
| LogException (e : exn).

(** The fields of a [_builder_logger]; [stream_closed] is the state of the
    stream it opened on the log file. *)
Record builder_logger := BuilderLogger {
  _steps_count : nat;
  _current_step_num : nat;
  _current_step_name : option string;
  _engine_name : option string;
  stream_closed : bool
}.

(** A reference to the logger of the running build, where Python passes the
    object or [None]. *)
Inductive logger_ref := TheLogger.

(** The fields of a [_CheckpointManager]. *)
Record manager := Manager {
  _file_path : path;
  _passed_steps : list string
}.

(** ** The state the builder runs in

    [fs] is the directory tree, [stdout] what has been printed and
    [training_log] what the logger has written to its stream (the stream
    is open on the log file; what goes through it is kept here and not in
    the tree).  [logger_obj] is the logger of the build once it is made;
    [_temp_dir] and [_checkpoint_manager] are the two fields the builder
    assigns in [_build].  [calls] is a ghost field: the step functions
    invoked so far, each with the [skip] flag it was given, latest last. *)
Record state := State {
  fs : filesystem;
  stdout : list output;
  training_log : list log_record;
  logger_obj : option builder_logger;
  _temp_dir : option path;
  _checkpoint_manager : option manager;
  calls : list (string * bool)
}.

Definition set_fs (f : filesystem) (st : state) : state :=
  State f (stdout st) (training_log st) (logger_obj st) (_temp_dir st)
        (_checkpoint_manager st) (calls st).

Definition set_stdout (o : list output) (st : state) : state :=
  State (fs st) o (training_log st) (logger_obj st) (_temp_dir st)
        (_checkpoint_manager st) (calls st).

Definition set_training_log (l : list log_record) (st : state) : state :=
  State (fs st) (stdout st) l (logger_obj st) (_temp_dir st)
        (_checkpoint_manager st) (calls st).

Definition set_logger_obj (l : option builder_logger) (st : state) : state :=
  State (fs st) (stdout st) (training_log st) l (_temp_dir st)
        (_checkpoint_manager st) (calls st).

Definition set_temp_dir (d : option path) (st : state) : state :=
  State (fs st) (stdout st) (training_log st) (logger_obj st) d
        (_checkpoint_manager st) (calls st).

Definition set_checkpoint_manager (m : option manager) (st : state) : state :=
  State (fs st) (stdout st) (training_log st) (logger_obj st) (_temp_dir st)
        m (calls st).

Definition set_calls (c : list (string * bool)) (st : state) : state :=
  State (fs st) (stdout st) (training_log st) (logger_obj st) (_temp_dir st)
        (_checkpoint_manager st) c.

(** ** The monad: state, and a result that may be an exception *)

Definition M (A : Type) : Type := state -> result A * state.

Definition ret {A} (a : A) : M A := fun st => (Return a, st).

Definition raise {A} (e : exn) : M A := fun st => (Raise e, st).

Definition bind {A B} (c : M A) (k : A -> M B) : M B :=
  fun st =>
    match c st with
    | (Return a, st') => k a st'
    | (Raise e, st') => (Raise e, st')
    end.

Notation "'let*' x ':=' c 'in' k" := (bind c (fun x => k))
  (at level 10, x pattern, c at level 100, k at level 200).
Notation "c ';;' k" := (bind c (fun _ => k))
  (at level 100, k at level 200, right associativity).

Definition of_result {A} (r : result A) : M A := fun st => (r, st).

(** An operation on the directory tree that fails without changing it. *)
Definition on_fs (f : filesystem -> result filesystem) : M unit :=
  fun st =>
    match f (fs st) with
    | Return fs' => (Return tt, set_fs fs' st)
    | Raise e => (Raise e, st)
    end.

(** A read of the directory tree. *)
Definition read_fs {A} (f : filesystem -> result A) : M A :=
  fun st => (f (fs st), st).

(** A collaborator: it may change the tree and fail all the same. *)
Definition external {A} (f : filesystem -> result A * filesystem) : M A :=
  fun st => let (r, fs') := f (fs st) in (r, set_fs fs' st).

(** An assignment to a field of the state. *)
Definition modify (f : state -> state) : M unit :=
  fun st => (Return tt, f st).

Definition print (o : output) : M unit :=
  modify (fun st => set_stdout (stdout st ++ [o]) st).

(** [try: body / except: handler; raise / finally: final] *)
Definition try_except_reraise_finally {A}
  (body : M A) (handler : exn -> M unit) (final : M unit) : M A :=
  fun st =>
    match body st with
    | (Return a, st1) =>
        match final st1 with
        | (Return _, st2) => (Return a, st2)
        | (Raise e, st2) => (Raise e, st2)
        end
    | (Raise e, st1) =>
        match handler e st1 with
        | (Return _, st2) =>
            match final st2 with
            | (Return _, st3) => (Raise e, st3)
            | (Raise e', st3) => (Raise e', st3)
            end
        | (Raise e', st2) =>
            match final st2 with
            | (Return _, st3) => (Raise e', st3)
            | (Raise e'', st3) => (Raise e'', st3)
            end
        end
    end.

(** [with mgr: body], for a manager whose [__exit__] lets exceptions pass. *)
Definition with_ {A} (enter exit : M unit) (body : M A) : M A :=
  enter ;;
  fun st =>
    match body st with
    | (r, st1) =>
        match exit st1 with
        | (Return _, st2) => (r, st2)
        | (Raise e, st2) => (Raise e, st2)
        end
    end.

(** ** The collaborators and constants that are not in [engine.py]

    [ENGINES_DIR] and [RUNTIME_DIR] are constants of the [cli] package.
    [splitlist] and [list_corpora] are [BilingualCorpus.splitlist] and
    [BilingualCorpus.list], which read the tree (where the builder gives
    [splitlist] one folder for its roots, it is the list of that folder);
    [symlink] is [corpus.symlink].  The others are the engine's components, each free to
    change the tree, to return what it likes and to fail; what they write
    to the log stream they are handed is not recorded.  [df_free], [du]
    and [free] are [fileutils.df(...)[2]], [fileutils.du] and
    [fileutils.free], integers read off the machine. *)
Class External := {
  ENGINES_DIR : path;
  RUNTIME_DIR : path;
  splitlist : string -> string -> list path -> filesystem
              -> result (list corpus * list corpus);
  list_corpora : path -> filesystem -> result (list corpus);
  symlink : corpus -> path -> option string -> filesystem
            -> result corpus * filesystem;
  cleaner_clean : value -> path -> filesystem -> result value * filesystem;
  preprocessor_process : value -> path -> option path -> filesystem
                         -> result value * filesystem;
  preprocessor_clean : value -> path -> filesystem -> result value * filesystem;
  analyzer_create_index : value -> filesystem -> result unit * filesystem;
  aligner_build : value -> path -> filesystem -> result unit * filesystem;
  pt_train : value -> path -> filesystem -> result unit * filesystem;
  lm_train : value -> string -> path -> filesystem -> result unit * filesystem;
  moses_create_configs : filesystem -> result unit * filesystem;
  df_free : filesystem -> path -> Z;
  du : filesystem -> path -> Z;
  free : filesystem -> Z
}.

(** ** [_CheckpointManager] *)

Module _CheckpointManager.

(** [load_from_file]: only [IOError] is caught and turned into
    [IllegalStateException]; what [json.load] raises passes through. *)
Definition load_from_file (file_path : path) : M manager :=
  fun st =>
    match
      (let* text := read_fs (fun f => os.read f file_path) in
       of_result (json.loads text)) st
    with
    | (Return passed_steps, st') => (Return (Manager file_path passed_steps), st')
    | (Raise IOError, st') =>
        (Raise (IllegalStateException
                  ("Engine creation can not be resumed. Checkpoint file "
                   +:+ path_str file_path +:+ " not found")), st')
    | (Raise e, st') => (Raise e, st')
    end.

(** [save]: the whole file is rewritten with the list as it is. *)
Definition save (m : manager) : M unit :=
  on_fs (fun f =>
    os.write f (_file_path m) (json.dumps (json.Arr (json.Str <$> _passed_steps m)))).

Definition create_for_engine (file_path : path) : M manager :=
  let manager := Manager file_path [] in
  save manager ;;
  ret manager.

(** [completed]: the step is appended to the list. *)
Definition completed (m : manager) (step : string) : manager :=
  Manager (_file_path m) (_passed_steps m ++ [step]).

(** [to_be_run]: [step_name not in self._passed_steps] *)
Definition to_be_run (m : manager) (step_name : string) : bool :=
  negb (bool_decide (step_name ∈ _passed_steps m)).

End _CheckpointManager.

(** ** [BaselineDatabase] *)

Module BaselineDatabase.

Record t := Make { path : list string }.

Definition file_name : string := "baseline_domains.json".

Definition _json_path (db : t) : list string := join (path db) file_name.

(** A domain is the dictionary [{"id": ..., "name": ...}]. *)
Record domain := Domain { id : string; name : string }.

Definition domain_json (d : domain) : json.t :=
  json.Obj [("id", json.Str (id d)); ("name", json.Str (name d))].

(** The loop of [generate] from index [i] on: the domains in order, and the
    inverted dictionary, in which a later corpus of the same name wins. *)
Fixpoint domains_from (i : nat) (bilingual_corpora : list value)
  (inverted_domains : gmap string string)
  : result (list domain * gmap string string) :=
  match bilingual_corpora with
  | [] => Return ([], inverted_domains)
  | v :: rest =>
      let domain_id := pretty (i + 1)%nat in
      match py_name v with
      | Raise e => Raise e
      | Return domain_name =>
          match domains_from (S i) rest (<[domain_name := domain_id]> inverted_domains) with
          | Raise e => Raise e
          | Return (domains, inverted) =>
              Return (Domain domain_id domain_name :: domains, inverted)
          end
      end
  end.

(** [corpus.symlink(output, name=...)] over a list, in order. *)
Fixpoint symlink_all `{External} (output : list string)
  (name_of : corpus -> result (option string)) (items : list value)
  : M (list value) :=
  match items with
  | [] => ret []
  | VCorpus c :: rest =>
      let* name := of_result (name_of c) in
      let* c' := external (symlink c output name) in
      let* rest' := symlink_all output name_of rest in
      ret (VCorpus c' :: rest')
  | _ :: _ => raise AttributeError
  end.

(** [inverted_domains[corpus.name]] *)
Definition domain_id_of (inverted_domains : gmap string string) (c : corpus)
  : result (option string) :=
  match inverted_domains !! corpus_name c with
  | Some domain_id => Return (Some domain_id)
  | None => Raise KeyError
  end.

Definition generate `{External} (db : t)
  (bilingual_corpora monolingual_corpora : value) (output : list string)
  : M value :=
  let* items := of_result (py_items bilingual_corpora) in
  let* built := of_result (domains_from 0 items ∅) in
  let domains := fst built in
  let inverted_domains := snd built in
  (let* is_dir := read_fs (fun f => Return (os.isdir f (path db))) in
   if is_dir then ret tt else on_fs (fun f => os.makedirs f (path db))) ;;
  on_fs (fun f => os.write f (_json_path db)
                    (json.dumps (json.Arr (domain_json <$> domains)))) ;;
  let* bilingual' :=
    symlink_all output (domain_id_of inverted_domains) items in
  let* mono_items := of_result (py_items monolingual_corpora) in
  let* monolingual' := symlink_all output (fun _ => Return None) mono_items in
  ret (VTuple [VList bilingual'; VList monolingual']).

(** The loop of [_load_map] over the split lines: each of them has to
    unpack into the two of [domain, name]; a later line of the same name
    wins. *)
Fixpoint load_rows (rows : list (list string)) (domains : gmap string string)
  : result (gmap string string) :=
  match rows with
  | [] => Return domains
  | [domain; name] :: rest => load_rows rest (<[name := domain]> domains)
  | _ :: _ => Raise ValueError
  end.

(** [_load_map]: the map from domain name to domain id, read from a file
    of lines [id<TAB>name]. *)
Definition _load_map (filepath : list string) : M (gmap string string) :=
  let* text := read_fs (fun f => os.read f filepath) in
  let rows :=
    (fun line => str.split str.tab 2 (str.rstrip str.newline line))
      <$> str.readlines text in
  of_result (load_rows rows ∅).

End BaselineDatabase.

(** ** [_builder_logger] *)

Module _builder_logger.

Definition the_logger : M builder_logger :=
  fun st =>
    match logger_obj st with
    | Some l => (Return l, st)
    | None => (Raise AttributeError, st)
    end.

Definition update (f : builder_logger -> builder_logger) : M unit :=
  let* l := the_logger in
  modify (set_logger_obj (Some (f l))).

Definition log (r : log_record) : M unit :=
  modify (fun st => set_training_log (training_log st ++ [r]) st).

(** [__init__]: the log file is opened for writing, which empties it. *)
Definition __init__ (steps_count : nat) (log_file : path) : M logger_ref :=
  on_fs (fun f => os.write f log_file "") ;;
  modify (set_logger_obj (Some (BuilderLogger steps_count 0 None None false))) ;;
  ret TheLogger.

Definition start (engine_name source_lang target_lang : string)
  (bilingual_corpora monolingual_corpora : list corpus) : M unit :=
  update (fun l =>
    BuilderLogger (_steps_count l) (_current_step_num l) (_current_step_name l)
      (if String.eqb engine_name "default" then None else Some engine_name)
      (stream_closed l)) ;;
  log (LogTrainingStarted engine_name (length bilingual_corpora)
         (length monolingual_corpora) source_lang target_lang) ;;
  print (OutTrainingStarted engine_name (length bilingual_corpora)
           (length monolingual_corpora) source_lang target_lang) ;;
  print OutBlank.

Definition step (step : option string) : M unit :=
  update (fun l =>
    BuilderLogger (_steps_count l) (_current_step_num l + 1) step
      (_engine_name l) (stream_closed l)).

Definition completed : M unit :=
  let* l := the_logger in
  log LogTrainingCompleted ;;
  print (OutTrainingSuccess (_engine_name l)) ;;
  print OutBlank.

Definition error (e : exn) : M unit := log (LogException e).

Definition close : M unit :=
  update (fun l =>
    BuilderLogger (_steps_count l) (_current_step_num l) (_current_step_name l)
      (_engine_name l) true).

Definition __enter__ : M unit :=
  let* l := the_logger in
  log (LogStepStarted (_current_step_name l) (_current_step_num l) (_steps_count l)) ;;
  print (OutStepStarted (_current_step_num l) (_steps_count l) (_current_step_name l)).

Definition __exit__ : M unit :=
  let* l := the_logger in
  log (LogStepCompleted (_current_step_name l)) ;;
  print OutStepDone.

(** [with logger.step(description) as _: body] *)
Definition with_step {A} (description : option string) (body : M A) : M A :=
  step description ;;
  with_ __enter__ __exit__ body.

(** [logger.stream], as an argument: it needs a logger. *)
Definition stream (logger : option logger_ref) : M unit :=
  match logger with
  | Some _ => ret tt
  | None => raise AttributeError
  end.

(** [int(x)] on a finite float, taken as the rational it is: the
    fractional part is cut off. *)
Definition int (x : QArith_base.Q) : Z :=
  if QArith_base.Qle_bool (QArith_base.inject_Z 0) x
  then Qround.Qfloor x else Qround.Qceiling x.

(** The [parts] of [_pretty_print_time] before they are formatted: the
    numbers, each with its unit.  [/] on Python 2 integers is the floor
    division. *)
Definition time_parts (elapsed : Z) : list (Z * string) :=
  let parts := [] in
  let st :=
    if bool_decide (elapsed > 86400)%Z
    then let d := (elapsed / 86400)%Z in
         ((elapsed - d * 86400)%Z, parts ++ [(d, "d")])
    else (elapsed, parts) in
  let st :=
    if bool_decide (fst st > 3600)%Z
    then let h := (fst st / 3600)%Z in
         ((fst st - h * 3600)%Z, snd st ++ [(h, "h")])
    else st in
  let st :=
    if bool_decide (fst st > 60)%Z
    then let m := (fst st / 60)%Z in
         ((fst st - m * 60)%Z, snd st ++ [(m, "m")])
    else st in
  snd st ++ [(fst st, "s")].

(** ['%d' + unit] for a part. *)
Definition format_part (p : Z * string) : string := pretty (fst p) +:+ snd p.

Definition _pretty_print_time (elapsed : QArith_base.Q) : string :=
  let elapsed := int elapsed in
  str.join " " (format_part <$> time_parts elapsed).

End _builder_logger.

(** ** [MMTEngine] *)

Module MMTEngine.

Definition training_steps : gmap string string :=
  list_to_map [
    ("tm_cleanup", "TMs clean-up");
    ("preprocess", "Corpora pre-processing");
    ("context_analyzer", "Context Analyzer training");
    ("aligner", "Aligner training");
    ("tm", "Translation Model training");
    ("lm", "Language Model training")
  ].

Record t := Make {
  name : string;
  source_lang : string;
  target_lang : string
}.

Definition __init__ (name : option string) (source_lang target_lang : string) : t :=
  Make (default "default" name) source_lang target_lang.

Section paths.
Context `{External}.

Definition _config_file (e : t) : path := join (join ENGINES_DIR (name e)) "engine.xconf".
Definition path (e : t) : list string := join ENGINES_DIR (name e).
Definition data_path (e : t) : list string := join (path e) "data".
Definition models_path (e : t) : list string := join (path e) "models".
Definition runtime_path (e : t) : list string := join RUNTIME_DIR (name e).
Definition _logs_path (e : t) : list string := join (runtime_path e) "logs".
Definition _temp_path (e : t) : list string := join (runtime_path e) "tmp".
Definition _db_model (e : t) : list string := join (models_path e) "db".

Definition db (e : t) : BaselineDatabase.t := BaselineDatabase.Make (_db_model e).

(** [EngineConfig.store]: the configuration document with the two languages. *)
Definition xconf (e : t) : string :=
  let q := String json.dquote "" in
  let nl := String (ascii_of_N 10) "" in
  "<node xsi:schemaLocation=" +:+ q
  +:+ "http://www.modernmt.eu/schema/config mmt-config-1.0.xsd" +:+ q +:+ nl
  +:+ "      xmlns=" +:+ q +:+ "http://www.modernmt.eu/schema/config" +:+ q +:+ nl
  +:+ "      xmlns:xsi=" +:+ q +:+ "http://www.w3.org/2001/XMLSchema-instance" +:+ q
  +:+ ">" +:+ nl
  +:+ "          <engine source-language=" +:+ q +:+ source_lang e +:+ q
  +:+ " target-language=" +:+ q +:+ target_lang e +:+ q +:+ " />" +:+ nl
  +:+ "</node>".

Definition write_configs (e : t) : M unit :=
  external moses_create_configs ;;
  on_fs (fun f => os.write f (_config_file e) (xconf e)).

Definition get_logfile (e : t) (name : string) (ensure : bool) : M (list string) :=
  (let* is_dir := read_fs (fun f => Return (os.isdir f (_logs_path e))) in
   if ensure && negb is_dir
   then on_fs (fun f => fileutils.makedirs f (_logs_path e) true)
   else ret tt) ;;
  let logfile := join (_logs_path e) (name +:+ ".log") in
  (let* is_file := read_fs (fun f => Return (os.isfile f logfile)) in
   if ensure && is_file
   then on_fs (fun f => os.remove f logfile)
   else ret tt) ;;
  ret logfile.

Definition get_tempdir (e : t) (name : string) (ensure : bool) : M (list string) :=
  (let* is_dir := read_fs (fun f => Return (os.isdir f (_temp_path e))) in
   if ensure && negb is_dir
   then on_fs (fun f => fileutils.makedirs f (_temp_path e) true)
   else ret tt) ;;
  let folder := join (_temp_path e) name in
  (if ensure
   then on_fs (fun f => Return (shutil.rmtree f folder)) ;;
        on_fs (fun f => os.makedirs f folder)
   else ret tt) ;;
  ret folder.

Definition clear_tempdir (e : t) (subdir : option string) : M unit :=
  let path :=
    match subdir with
    | Some d => join (_temp_path e) d
    | None => _temp_path e
    end in
  on_fs (fun f => Return (shutil.rmtree f path)).

(** [exists]: the engine is there when its configuration file is. *)
Definition exists_ (e : t) : M bool :=
  read_fs (fun f => Return (os.isfile f (_config_file e))).

End paths.

End MMTEngine.

(** ** [_MMTEngineBuilder] *)

Module _MMTEngineBuilder.

Definition __MB : Z := 1024 * 1024.
Definition __GB : Z := 1024 * 1024 * 1024.

(** [self._steps] is the engine's dictionary of steps or the operator's
    list; the builder asks it for membership and length only. *)
Inductive steps :=
| StepsDict (d : gmap string string)
| StepsList (l : list string).

Definition contains (s : steps) (step_name : string) : bool :=
  match s with
  | StepsDict d => bool_decide (is_Some (d !! step_name))
  | StepsList l => bool_decide (step_name ∈ l)
  end.

Definition len (s : steps) : nat :=
  match s with
  | StepsDict d => size d
  | StepsList l => length l
  end.

Record t := Make {
  _engine : MMTEngine.t;
  _roots : list path;
  _debug : bool;
  _steps : steps;
  _split_trainingset : bool
}.

(** [str(unknown_steps)] for plain names. *)
Definition str_list (l : list string) : string :=
  "[" +:+ json.sep_by ", " ((fun s => "'" +:+ s +:+ "'") <$> l) +:+ "]".

(** The step functions take the values positionally, then [skip] and
    [logger]. *)
Definition step_function := list value -> bool -> option logger_ref -> M value.

Section builder.
Context `{External}.

Definition __init__ (engine : MMTEngine.t) (roots : list path) (debug : bool)
  (steps : option (list string)) (split_trainingset : bool) : M t :=
  let* _steps :=
    match steps with
    | None => ret (StepsDict MMTEngine.training_steps)
    | Some steps =>
        let unknown_steps :=
          filter (fun step => ¬ is_Some (MMTEngine.training_steps !! step)) steps in
        if bool_decide (0 < length unknown_steps)%nat
        then raise (IllegalArgumentException
                      ("Unknown training steps: " +:+ str_list unknown_steps))
        else ret (StepsList steps)
    end in
  modify (set_temp_dir None) ;;
  modify (set_checkpoint_manager None) ;;
  ret (Make engine roots debug _steps split_trainingset).

Definition temp_dir : M path :=
  fun st =>
    match _temp_dir st with
    | Some d => (Return d, st)
    | None => (Raise AttributeError, st)
    end.

Definition checkpoint_manager : M manager :=
  fun st =>
    match _checkpoint_manager st with
    | Some m => (Return m, st)
    | None => (Raise AttributeError, st)
    end.

Definition _get_tempdir (name : string) (delete_if_exists : bool) : M path :=
  let* d := temp_dir in
  let path := join d name in
  (if delete_if_exists
   then on_fs (fun f => Return (shutil.rmtree f path))
   else ret tt) ;;
  (let* is_dir := read_fs (fun f => Return (os.isdir f path)) in
   if is_dir then ret tt else on_fs (fun f => fileutils.makedirs f path true)) ;;
  ret path.

Definition _init_checkpoint_manager (resume : bool) : M unit :=
  let* d := temp_dir in
  let checkpoint_file := join d "checkpoint.json" in
  let* m :=
    if resume
    then _CheckpointManager.load_from_file checkpoint_file
    else _CheckpointManager.create_for_engine checkpoint_file in
  modify (set_checkpoint_manager (Some m)).

(** The two recommendations of [_check_constraints]; [/] on Python 2
    integers is the floor division. *)
Definition recommended_mem (corpus_size_on_disk : Z) : Z :=
  __GB * corpus_size_on_disk / (350 * __MB).

Definition recommended_disk (corpus_size_on_disk : Z) : Z :=
  10 * corpus_size_on_disk.

(** [corpus_size_on_disk] after the loop over the roots. *)
Definition corpus_size `{External} (f : filesystem) (roots : list path) : Z :=
  foldl (fun size root => size + du f root)%Z 0%Z roots.

Definition _check_constraints (b : t) : M unit :=
  let* free_space_on_disk :=
    read_fs (fun f => Return (df_free f (MMTEngine.path (_engine b)))) in
  let* corpus_size_on_disk :=
    read_fs (fun f => Return (corpus_size f (_roots b))) in
  let* free_memory := read_fs (fun f => Return (free f)) in
  let recommended_mem := recommended_mem corpus_size_on_disk in
  let recommended_disk := recommended_disk corpus_size_on_disk in
  if bool_decide (free_memory < recommended_mem)%Z
     || bool_decide (free_space_on_disk < recommended_disk)%Z
  then
    (if bool_decide (free_memory < recommended_mem)%Z
     then print (OutWarnMemory (recommended_mem / __GB) (free_memory / __GB))
     else ret tt) ;;
    (if bool_decide (free_space_on_disk < recommended_disk)%Z
     then print (OutWarnStorage (recommended_disk / __GB) (free_space_on_disk / __GB))
     else ret tt) ;;
    print OutBlank
  else ret tt.

(** The call of a step function; the call is noted in [calls]. *)
Definition call (step_name : string) (step_function : step_function)
  (values : list value) (skip : bool) (logger : option logger_ref) : M value :=
  modify (fun st => set_calls (calls st ++ [(step_name, skip)]) st) ;;
  step_function values skip logger.

(** [self._checkpoint_manager.completed(step_name).save()] *)
Definition mark_completed (step_name : string) : M unit :=
  let* m := checkpoint_manager in
  let m' := _CheckpointManager.completed m step_name in
  modify (set_checkpoint_manager (Some m')) ;;
  _CheckpointManager.save m'.

Definition _run_step (b : t) (step_name : string) (step_function : step_function)
  (values : list value) (logger : option logger_ref) (forced : bool) : M value :=
  let step_description := MMTEngine.training_steps !! step_name in
  if negb forced && negb (contains (_steps b) step_name)
  then ret (VList values)
  else
    let* m := checkpoint_manager in
    let skip := negb (_CheckpointManager.to_be_run m step_name) in
    let* result :=
      match logger with
      | None => call step_name step_function values skip logger
      | Some _ =>
          _builder_logger.with_step step_description
            (call step_name step_function values skip logger)
      end in
    (if negb skip then mark_completed step_name else ret tt) ;;
    ret result.

(** *** The step functions *)

Definition tuple2 (p : list corpus * list corpus) : value :=
  VTuple [corpora (fst p); corpora (snd p)].

Definition _step_tm_cleanup (b : t) : step_function :=
  fun values skip logger =>
    match values with
    | [corpora_] =>
        let* folder := _get_tempdir "clean_tms" false in
        if skip
        then let* l := read_fs (list_corpora folder) in ret (corpora l)
        else _builder_logger.stream logger ;;
             external (cleaner_clean corpora_ folder)
    | _ => raise TypeError
    end.

Definition _step_init (b : t) : step_function :=
  fun values skip logger =>
    match values with
    | [bilingual_corpora; monolingual_corpora] =>
        let* training_folder := _get_tempdir "training_corpora" false in
        if skip
        then
          let* p := read_fs (splitlist (MMTEngine.source_lang (_engine b))
                               (MMTEngine.target_lang (_engine b)) [training_folder]) in
          ret (tuple2 p)
        else
          BaselineDatabase.generate (MMTEngine.db (_engine b))
            bilingual_corpora monolingual_corpora training_folder
    | _ => raise TypeError
    end.

Definition _step_preprocess (b : t) : step_function :=
  fun values skip logger =>
    match values with
    | [bilingual_corpora; monolingual_corpora; _] =>
        let* preprocessed_folder := _get_tempdir "preprocessed" false in
        let* cleaned_folder := _get_tempdir "clean_corpora" false in
        if skip
        then
          let* p := read_fs (splitlist (MMTEngine.source_lang (_engine b))
                               (MMTEngine.target_lang (_engine b)) [preprocessed_folder]) in
          let* cleaned_bicorpora := read_fs (list_corpora cleaned_folder) in
          ret (VTuple [corpora (fst p); corpora (snd p); corpora cleaned_bicorpora])
        else
          let* all := of_result (py_add bilingual_corpora monolingual_corpora) in
          _builder_logger.stream logger ;;
          let* processed :=
            external (preprocessor_process all preprocessed_folder
                        (if _split_trainingset b
                         then Some (MMTEngine.data_path (_engine b)) else None)) in
          let* p := of_result (unpack2 processed) in
          let* cleaned_bicorpora :=
            external (preprocessor_clean (fst p) cleaned_folder) in
          ret (VTuple [fst p; snd p; cleaned_bicorpora])
    | _ => raise TypeError
    end.

Definition _step_context_analyzer (b : t) : step_function :=
  fun values skip logger =>
    match values with
    | [corpora_] =>
        (if negb skip
         then _builder_logger.stream logger ;;
              external (analyzer_create_index corpora_)
         else ret tt) ;;
        ret VNone
    | _ => raise TypeError
    end.

Definition _step_aligner (b : t) : step_function :=
  fun values skip logger =>
    match values with
    | [corpora_] =>
        (if negb skip
         then let* working_dir := _get_tempdir "aligner" true in
              _builder_logger.stream logger ;;
              external (aligner_build corpora_ working_dir)
         else ret tt) ;;
        ret VNone
    | _ => raise TypeError
    end.

Definition _step_tm (b : t) : step_function :=
  fun values skip logger =>
    match values with
    | [corpora_] =>
        (if negb skip
         then let* working_dir := _get_tempdir "tm" true in
              _builder_logger.stream logger ;;
              external (pt_train corpora_ working_dir)
         else ret tt) ;;
        ret VNone
    | _ => raise TypeError
    end.

Definition _step_lm (b : t) : step_function :=
  fun values skip logger =>
    match values with
    | [corpora_] =>
        (if negb skip
         then let* working_dir := _get_tempdir "lm" true in
              _builder_logger.stream logger ;;
              external (lm_train corpora_ (MMTEngine.target_lang (_engine b)) working_dir)
         else ret tt) ;;
        ret VNone
    | _ => raise TypeError
    end.

(** *** The build *)

Fixpoint upper (s : string) : string :=
  match s with
  | EmptyString => ""
  | String c r =>
      let n := N_of_ascii c in
      String (if ((97 <=? n) && (n <=? 122))%N then ascii_of_N (n - 32) else c)
             (upper r)
  end.

(** The body of the [try] of [_build] up to [logger.completed()]: the steps
    in pipeline order, each fed from the one before, then the final
    configuration. *)
Definition _run_all_steps (b : t) (logger : logger_ref)
  (bilingual_corpora monolingual_corpora : list corpus) : M unit :=
  let e := _engine b in
  _builder_logger.start (MMTEngine.name e) (MMTEngine.source_lang e)
    (MMTEngine.target_lang e) bilingual_corpora monolingual_corpora ;;
  let* cleaned_bicorpora :=
    _run_step b "tm_cleanup" (_step_tm_cleanup b)
      [corpora bilingual_corpora] (Some logger) false in
  let* base :=
    _run_step b "__db_map" (_step_init b)
      [cleaned_bicorpora; corpora monolingual_corpora] None true in
  let* base := of_result (unpack2 base) in
  let base_bicorpora := fst base in
  let base_monocorpora := snd base in
  let* processed :=
    _run_step b "preprocess" (_step_preprocess b)
      [base_bicorpora; base_monocorpora; base_bicorpora] (Some logger) false in
  let* processed := of_result (unpack3 processed) in
  let processed_bicorpora := fst (fst processed) in
  let processed_monocorpora := snd (fst processed) in
  let cleaned_bicorpora := snd processed in
  _run_step b "context_analyzer" (_step_context_analyzer b)
    [base_bicorpora] (Some logger) false ;;
  _run_step b "aligner" (_step_aligner b) [cleaned_bicorpora] (Some logger) false ;;
  _run_step b "tm" (_step_tm b) [cleaned_bicorpora] (Some logger) false ;;
  let* all := of_result (py_add processed_bicorpora processed_monocorpora) in
  _run_step b "lm" (_step_lm b) [all] (Some logger) false ;;
  _builder_logger.with_step (Some "Writing config files")
    (MMTEngine.write_configs e) ;;
  _builder_logger.completed.

(** The first two statements of [_build]: the temporary directory of the
    attempt and its checkpoint manager. *)
Definition _build_workspace (b : t) (resume : bool) : M unit :=
  let* d := MMTEngine.get_tempdir (_engine b) "training" (negb resume) in
  modify (set_temp_dir (Some d)) ;;
  _init_checkpoint_manager resume.

(** [_build] before its [try]: the workspace, the corpora, the engine's
    directory, the resource check and the logger. *)
Definition _build_setup (b : t) (resume : bool)
  : M (logger_ref * list corpus * list corpus) :=
  let e := _engine b in
  _build_workspace b resume ;;
  let source_lang := MMTEngine.source_lang e in
  let target_lang := MMTEngine.target_lang e in
  let* found := read_fs (splitlist source_lang target_lang (_roots b)) in
  let bilingual_corpora := fst found in
  let monolingual_corpora := snd found in
  (if bool_decide (length bilingual_corpora = 0)%nat
   then raise (IllegalArgumentException
                 ("you project does not include " +:+ upper source_lang +:+ "-"
                  +:+ upper target_lang +:+ " data."))
   else ret tt) ;;
  (let* is_dir := read_fs (fun f => Return (os.isdir f (MMTEngine.path e))) in
   if negb is_dir || negb resume
   then on_fs (fun f => Return (shutil.rmtree f (MMTEngine.path e))) ;;
        on_fs (fun f => os.makedirs f (MMTEngine.path e))
   else ret tt) ;;
  _check_constraints b ;;
  let* log_file := MMTEngine.get_logfile e "training" true in
  let* logger := _builder_logger.__init__ (len (_steps b) + 1) log_file in
  ret (logger, bilingual_corpora, monolingual_corpora).

Definition _build (b : t) (resume : bool) : M unit :=
  let* ready := _build_setup b resume in
  let logger := fst (fst ready) in
  let bilingual_corpora := snd (fst ready) in
  let monolingual_corpora := snd ready in
  try_except_reraise_finally
    (_run_all_steps b logger bilingual_corpora monolingual_corpora ;;
     if negb (_debug b)
     then MMTEngine.clear_tempdir (_engine b) (Some "training")
     else ret tt)
    _builder_logger.error
    _builder_logger.close.

Definition build (b : t) : M unit := _build b false.

Definition resume (b : t) : M unit := _build b true.

End builder.

End _MMTEngineBuilder.

(** ** A small installation to run the builder on

    One corpus root, [/data/corpora]; every directory under a root is a
    bilingual corpus.  The collaborators hand their input on and leave the
    tree alone; [failing_cleaner] is the same installation with a cleaner
    that fails. *)

Module Demo.

Definition found (roots : list path) (f : filesystem) : list corpus :=
  (fun r => Corpus (default "" (last r)) ["en"; "it"] r)
    <$> filter (fun r => os.isdir f r = true) roots.

Definition env : External := {|
  ENGINES_DIR := ["engines"];
  RUNTIME_DIR := ["runtime"];
  splitlist := fun _ _ roots f => Return (found roots f, []);
  list_corpora := fun folder f => Return (found [folder] f);
  symlink := fun c output name f =>
    (Return (Corpus (default (corpus_name c) name) (corpus_langs c) output), f);
  cleaner_clean := fun v _ f => (Return v, f);
  preprocessor_process := fun v _ _ f => (Return (VTuple [v; VList []]), f);
  preprocessor_clean := fun v _ f => (Return v, f);
  analyzer_create_index := fun _ f => (Return tt, f);
  aligner_build := fun _ _ f => (Return tt, f);
  pt_train := fun _ _ f => (Return tt, f);
  lm_train := fun _ _ _ f => (Return tt, f);
  moses_create_configs := fun f => (Return tt, f);
  df_free := fun _ _ => 1000000%Z;
  du := fun _ _ => 350%Z;
  free := fun _ => 500%Z
|}.

Definition failing_cleaner : External := {|
  ENGINES_DIR := @ENGINES_DIR env;
  RUNTIME_DIR := @RUNTIME_DIR env;
  splitlist := @splitlist env;
  list_corpora := @list_corpora env;
  symlink := @symlink env;
  cleaner_clean := fun _ _ f => (Raise (ExternalError "cleaner"), f);
  preprocessor_process := @preprocessor_process env;
  preprocessor_clean := @preprocessor_clean env;
  analyzer_create_index := @analyzer_create_index env;
  aligner_build := @aligner_build env;
  pt_train := @pt_train env;
  lm_train := @lm_train env;
  moses_create_configs := @moses_create_configs env;
  df_free := @df_free env;
  du := @du env;
  free := @free env
|}.

Definition tree : filesystem :=
  <[ ["data"; "corpora"] := Dir ]> (<[ ["data"] := Dir ]> ∅).

Definition start : state := State tree [] [] None None None [].

Definition engine : MMTEngine.t := MMTEngine.__init__ (Some "demo") "en" "it".

(** The builder for the whole pipeline, and the one for the operator who
    asked for [preprocess] alone. *)
Definition all_steps : _MMTEngineBuilder.t :=
  _MMTEngineBuilder.Make engine [["data"; "corpora"]] false
    (_MMTEngineBuilder.StepsDict MMTEngine.training_steps) true.

Definition preprocess_only : _MMTEngineBuilder.t :=
  _MMTEngineBuilder.Make engine [["data"; "corpora"]] false
    (_MMTEngineBuilder.StepsList ["preprocess"]) true.

(** A builder whose roots hold no corpus. *)
Definition no_data : _MMTEngineBuilder.t :=
  _MMTEngineBuilder.Make engine [["data"; "nothing"]] false
    (_MMTEngineBuilder.StepsDict MMTEngine.training_steps) true.

(** What the roots of [all_steps] resolve to: the one corpus. *)
Definition bilingual_corpora : list corpus := found [["data"; "corpora"]] tree.

(** The state of a fresh attempt once its workspace is there. *)
Definition ready : state :=
  snd (@_MMTEngineBuilder._build_workspace env all_steps false start).

Definition checkpoint_file : path :=
  ["runtime"; "demo"; "tmp"; "training"; "checkpoint.json"].

(** A state to resume from whose checkpoint file was cut short. *)
Definition corrupt : state :=
  State (<[ checkpoint_file := File "[" ]> tree) [] [] None None None [].

(** A state to resume from: the workspace of an attempt that got through
    [tm_cleanup] and the domain mapping. *)
Definition interrupted : state :=
  State (<[ checkpoint_file :=
              File (json.dumps (json.Arr [json.Str "tm_cleanup"; json.Str "__db_map"])) ]>
           (foldr (fun q m => <[q := Dir]> m) tree
              (os.chain ["runtime"; "demo"; "tmp"; "training"])))
        [] [] None None None [].

(** The state of the attempt with the failing cleaner when its steps begin. *)
Definition failing_ready : state :=
  snd (@_MMTEngineBuilder._build_setup failing_cleaner all_steps false start).

End Demo.

(** ** Notions used in the statements *)

(** Two paths lie apart when neither is within the other. *)
Definition apart (p q : path) : Prop :=
  ~ p `prefix_of` q /\ ~ q `prefix_of` p.

(** The calls of the domain-mapping step in a list of calls. *)
Definition db_map_calls (l : list (string * bool)) : list (string * bool) :=
  filter (fun c => c.1 = "__db_map") l.

(** [keeps R c]: whatever its outcome, [c] leaves a state that [R] relates
    to the state it started in. *)
Definition keeps {A} (R : state -> state -> Prop) (c : M A) : Prop :=
  forall st, R st (snd (c st)).

(** The relations that hold across every change of the tree, of the
    output, of the log, of the logger's fields and of [_temp_dir]. *)
Class Frame (R : state -> state -> Prop) : Prop := {
  frame_refl : forall st, R st st;
  frame_trans : forall st1 st2 st3, R st1 st2 -> R st2 st3 -> R st1 st3;
  frame_fs : forall f st, R st (set_fs f st);
  frame_stdout : forall o st, R st (set_stdout o st);
  frame_log : forall l st, R st (set_training_log l st);
  frame_logger : forall l st, R st (set_logger_obj (Some l) st);
  frame_temp_dir : forall d st, R st (set_temp_dir d st)
}.

(** No step function was called. *)
Definition same_calls (st st' : state) : Prop := calls st' = calls st.

(** The domain-mapping step was not called. *)
Definition quiet (st st' : state) : Prop :=
  exists new, calls st' = calls st ++ new /\ db_map_calls new = [].

(** The manager is the same. *)
Definition same_manager (st st' : state) : Prop :=
  _checkpoint_manager st' = _checkpoint_manager st.

(** A property of the state that is not lost. *)
Definition preserves (I : state -> Prop) (st st' : state) : Prop := I st -> I st'.

Definition logger_alive (st : state) : Prop := is_Some (logger_obj st).

(** There is a manager and its record does not hold [step]. *)
Definition record_without (step : string) (st : state) : Prop :=
  exists m, _checkpoint_manager st = Some m /\ step ∉ _passed_steps m.

(** Nothing at or below [p] differs between two trees. *)
Definition untouched_under (p : path) (f f' : filesystem) : Prop :=
  forall q, p `prefix_of` q -> f' !! q = f !! q.

(** The steps of the pipeline, in the order [_build] runs them. *)
Definition pipeline : list string :=
  ["tm_cleanup"; "__db_map"; "preprocess"; "context_analyzer"; "aligner"; "tm"; "lm"].

(** The steps a builder runs: the forced one and those of its step set. *)
Definition runs (b : _MMTEngineBuilder.t) (step : string) : bool :=
  bool_decide (step = "__db_map")
  || _MMTEngineBuilder.contains (_MMTEngineBuilder._steps b) step.

(** The calls that running the steps [done] makes, for an attempt that
    started from the record [passed]: one call for each step the builder
    runs, in skip mode when the record held the step. *)
Definition trace (b : _MMTEngineBuilder.t) (passed done : list string)
  : list (string * bool) :=
  (fun s => (s, bool_decide (s ∈ passed))) <$> filter (fun s => runs b s = true) done.

(** The steps among [done] that are executed and marked. *)
Definition executed (b : _MMTEngineBuilder.t) (passed done : list string)
  : list string :=
  filter (fun s => runs b s = true /\ s ∉ passed) done.

(** How far an attempt has got since the state [st0], in which the manager
    was [m0]: the steps called and the steps marked. *)
Definition progress (b : _MMTEngineBuilder.t) (m0 : manager) (st0 : state)
  (called marked : list string) (st : state) : Prop :=
  calls st = calls st0 ++ trace b (_passed_steps m0) called
  /\ _checkpoint_manager st
     = Some (Manager (_file_path m0)
               (_passed_steps m0 ++ executed b (_passed_steps m0) marked)).

(** The attempt is through the first [n] steps of the pipeline. *)
Definition stage (b : _MMTEngineBuilder.t) (m0 : manager) (st0 : state) (n : nat)
  : state -> Prop :=
  progress b m0 st0 (take n pipeline) (take n pipeline).

(** The attempt has stopped somewhere along the pipeline. *)
Definition aborted (b : _MMTEngineBuilder.t) (m0 : manager) (st0 : state) (st : state)
  : Prop :=
  exists called marked,
    marked `prefix_of` called /\ called `prefix_of` pipeline
    /\ progress b m0 st0 called marked st.

(** From a state in [P], the computation returns in a state in [Q] or
    raises in a state in [E]. *)
Definition triple {A} (P : state -> Prop) (c : M A) (Q E : state -> Prop) : Prop :=
  forall st, P st ->
    match c st with
    | (Return _, st') => Q st'
    | (Raise _, st') => E st'
    end.

(** The number of times a character occurs in a string. *)
Fixpoint occurrences (c : ascii) (s : string) : nat :=
  match s with
  | EmptyString => 0
  | String a r => (if Ascii.eqb a c then 1 else 0) + occurrences c r
  end.

(** The line of a domain file for an identifier and a name. *)
Definition domain_line (row : string * string) : string :=
  fst row +:+ String str.tab (snd row) +:+ String str.newline "".

(** A dictionary filled from rows [(id, name)], a later row winning. *)
Definition domains_of (rows : list (string * string)) : gmap string string :=
  foldl (fun domains row => <[snd row := fst row]> domains) ∅ rows.

(** Every entry of the tree lies in a directory of the tree. *)
Definition closed_tree (f : filesystem) : Prop :=
  forall p x n, f !! (p ++ [x]) = Some n -> os.isdir f p = true.

(** [p] is a directory of the tree and holds nothing. *)
Definition empty_dir (f : filesystem) (p : path) : Prop :=
  os.isdir f p = true /\ forall q, p `prefix_of` q -> q <> p -> f !! q = None.

(** A part of a printed duration, left out when it is zero. *)
Definition part (n : Z) (unit : string) : list (Z * string) :=
  if bool_decide (0 < n)%Z then [(n, unit)] else [].

(** The tree only grows: what was there is there still. *)
Definition grows (f f' : filesystem) : Prop :=
  forall q n, f !! q = Some n -> f' !! q = Some n.

(** * Properties *)

(** ** The monad *)

Lemma bind_inv {A B} (c : M A) (k : A -> M B) st r st' :
  bind c k st = (r, st') ->
  (exists a st1, c st = (Return a, st1) /\ k a st1 = (r, st'))
  \/ (exists e, c st = (Raise e, st') /\ r = Raise e).
Proof.
  unfold bind. destruct (c st) as [[a|e] st1]; intros Hk.
  - left. eauto.
  - right. exists e. by simplify_eq.
Qed.

Lemma bind_return {A B} (c : M A) (k : A -> M B) st a st1 :
  c st = (Return a, st1) -> bind c k st = k a st1.
Proof. unfold bind. by intros ->. Qed.

Lemma bind_raise {A B} (c : M A) (k : A -> M B) st e st1 :
  c st = (Raise e, st1) -> bind c k st = (Raise e, st1).
Proof. unfold bind. by intros ->. Qed.

(** A run that is known by its result. *)
Lemma run_eq {A} (c : M A) st (r : result A) :
  fst (c st) = r -> c st = (r, snd (c st)).
Proof. intros <-. apply surjective_pairing. Qed.

(** ** The checkpoint manager *)

Lemma load_from_file_state file_path st :
  snd (_CheckpointManager.load_from_file file_path st) = st.
Proof.
  unfold _CheckpointManager.load_from_file, bind, read_fs, of_result.
  destruct (os.read (fs st) file_path) as [text|[]]; simpl; try done.
  by destruct (json.loads text) as [l|[]].
Qed.

Lemma loads_raises_ValueError text e :
  json.loads text = Raise e -> e = ValueError.
Proof.
  unfold json.loads. intros Hl.
  repeat case_match; by simplify_eq.
Qed.

(** C1, as the code has it: resuming fails with [IllegalStateException]
    when the checkpoint file cannot be opened; when the file is there and
    its text does not decode, it fails with the decoder's [ValueError],
    which is not caught.  Either way no manager is returned and the state is
    as before. *)
Theorem load_from_file_failure (file_path : path) (st : state) :
  os.read (fs st) file_path = Raise IOError
  \/ (exists text, os.read (fs st) file_path = Return text
                   /\ json.loads text = Raise ValueError) ->
  exists e, _CheckpointManager.load_from_file file_path st = (Raise e, st)
            /\ if is_return (os.read (fs st) file_path)
               then e = ValueError
               else exists msg, e = IllegalStateException msg.
Proof.
  unfold _CheckpointManager.load_from_file, bind, read_fs, of_result.
  intros [Hmissing | (text & Hread & Hbad)].
  - rewrite Hmissing. simpl. eauto.
  - rewrite Hread, Hbad. simpl. eauto.
Qed.

Lemma load_from_file_failure_witness :
  (exists e, _CheckpointManager.load_from_file Demo.checkpoint_file Demo.start
             = (Raise e, Demo.start)
             /\ exists msg, e = IllegalStateException msg)
  /\ (exists e, _CheckpointManager.load_from_file Demo.checkpoint_file Demo.corrupt
                = (Raise e, Demo.corrupt)
                /\ e = ValueError).
Proof.
  split.
  - apply (load_from_file_failure Demo.checkpoint_file Demo.start).
    left. vm_compute. reflexivity.
  - apply (load_from_file_failure Demo.checkpoint_file Demo.corrupt).
    right. exists "[". split; vm_compute; reflexivity.
Defined.

(** C1 as stated fails: a checkpoint file that is there but was cut short
    makes [load_from_file] raise [ValueError], not [IllegalStateException]. *)
Lemma load_from_file_corrupt_counterexample :
  os.read (fs Demo.corrupt) Demo.checkpoint_file = Return "["
  /\ json.loads "[" = Raise ValueError
  /\ _CheckpointManager.load_from_file Demo.checkpoint_file Demo.corrupt
     = (Raise ValueError, Demo.corrupt)
  /\ forall msg,
       fst (_CheckpointManager.load_from_file Demo.checkpoint_file Demo.corrupt)
       <> Raise (IllegalStateException msg).
Proof.
  assert (Hrun : _CheckpointManager.load_from_file Demo.checkpoint_file Demo.corrupt
                 = (Raise ValueError, Demo.corrupt)).
  { rewrite <- (load_from_file_state Demo.checkpoint_file Demo.corrupt) at 2.
    apply run_eq. vm_compute. reflexivity. }
  repeat split; try (vm_compute; reflexivity); try exact Hrun.
  intros msg. rewrite Hrun. discriminate.
Qed.

Lemma write_Return f p data f' :
  os.write f p data = Return f' -> f' = <[p := File data]> f.
Proof.
  unfold os.write. destruct p; [done|].
  destruct (_ && _); [|done]. by intros [= <-].
Qed.

Lemma on_fs_Return g st u st' :
  on_fs g st = (Return u, st') ->
  exists f', g (fs st) = Return f' /\ st' = set_fs f' st.
Proof.
  unfold on_fs. destruct (g (fs st)) as [f'|e]; [|done].
  intros [= <- <-]. eauto.
Qed.


(** ** The checkpoint file is read back as it was written *)

Lemma string_app_cons a s1 s2 : String a s1 +:+ s2 = String a (s1 +:+ s2).
Proof. reflexivity. Qed.

Lemma string_app_nil_l s : "" +:+ s = s.
Proof. reflexivity. Qed.

Lemma string_app_assoc s1 s2 s3 : (s1 +:+ s2) +:+ s3 = s1 +:+ (s2 +:+ s3).
Proof.
  induction s1 as [|a s1 IH]; [reflexivity|].
  by rewrite !string_app_cons, IH.
Qed.

Lemma string_length_app s1 s2 :
  String.length (s1 +:+ s2) = String.length s1 + String.length s2.
Proof.
  induction s1 as [|a s1 IH]; [reflexivity|].
  rewrite string_app_cons. simpl. by rewrite IH.
Qed.

Lemma loads_string_escape c r :
  json.loads_string (json.escape c +:+ r) = json.cons_to c (json.loads_string r).
Proof. destruct c as [[] [] [] [] [] [] [] []]; reflexivity. Qed.

Lemma loads_string_escape_all s rest :
  json.loads_string (json.escape_all s +:+ String json.dquote rest) = Some (s, rest).
Proof.
  induction s as [|c s IH]; [reflexivity|].
  change (json.escape_all (String c s)) with (json.escape c +:+ json.escape_all s).
  by rewrite string_app_assoc, loads_string_escape, IH.
Qed.

Lemma sep_by_foldl sep a b l :
  foldl (fun acc y => acc +:+ sep +:+ y) (a +:+ b) l
  = a +:+ foldl (fun acc y => acc +:+ sep +:+ y) b l.
Proof.
  revert b. induction l as [|x l IH]; intros b; [reflexivity|].
  simpl. by rewrite string_app_assoc, IH.
Qed.

Lemma sep_by_cons sep a b l :
  json.sep_by sep (a :: b :: l) = a +:+ sep +:+ json.sep_by sep (b :: l).
Proof. unfold json.sep_by. simpl. by rewrite !sep_by_foldl. Qed.

Lemma dumps_string_app s rest :
  json.dumps_string s +:+ rest
  = String json.dquote (json.escape_all s +:+ String json.dquote rest).
Proof.
  unfold json.dumps_string. by rewrite string_app_assoc, string_app_cons.
Qed.

Lemma loads_items_more fuel r item rest :
  json.loads_string r = Some (item, String "," rest) ->
  json.loads_items (S fuel) (String json.dquote r)
  = match json.loads_items fuel (json.skip_ws rest) with
    | Some (items, tail) => Some (item :: items, tail)
    | None => None
    end.
Proof. intros Hr. cbn [json.loads_items]. rewrite Hr. reflexivity. Qed.

Lemma loads_items_last fuel r item tail :
  json.loads_string r = Some (item, String "]" tail) ->
  json.loads_items (S fuel) (String json.dquote r) = Some ([item], tail).
Proof. intros Hr. cbn [json.loads_items]. rewrite Hr. reflexivity. Qed.

Lemma skip_ws_dumps x (texts : list string) rest :
  json.skip_ws (String " " (json.sep_by ", " (json.dumps_string x :: texts) +:+ rest))
  = json.sep_by ", " (json.dumps_string x :: texts) +:+ rest.
Proof.
  destruct texts as [|y texts].
  - cbn [json.sep_by foldl]. by rewrite dumps_string_app.
  - by rewrite sep_by_cons, !string_app_assoc, dumps_string_app.
Qed.

Lemma loads_items_dumps fuel x l tail :
  length l < fuel ->
  json.loads_items fuel
    (json.sep_by ", " (json.dumps_string <$> x :: l) +:+ "]" +:+ tail)
  = Some (x :: l, tail).
Proof.
  revert x fuel. induction l as [|y l IH]; intros x fuel Hfuel;
    (destruct fuel as [|fuel]; [simpl in Hfuel; lia|]).
  - rewrite fmap_cons, fmap_nil. cbn [json.sep_by foldl].
    rewrite dumps_string_app. apply loads_items_last.
    apply loads_string_escape_all.
  - rewrite fmap_cons, fmap_cons, sep_by_cons, <- fmap_cons.
    rewrite !string_app_assoc, dumps_string_app.
    match goal with
    | |- context [", " +:+ ?rest] =>
        change (", " +:+ rest) with (String "," (String " " rest))
    end.
    erewrite loads_items_more; [|apply loads_string_escape_all].
    rewrite fmap_cons, skip_ws_dumps, <- fmap_cons.
    rewrite IH by (simpl in Hfuel; lia). reflexivity.
Qed.

Lemma sep_by_length (texts : list string) :
  length texts <= S (String.length (json.sep_by ", " texts)).
Proof.
  induction texts as [|a texts IH]; [simpl; lia|].
  destruct texts as [|b texts]; [simpl; lia|].
  rewrite sep_by_cons, !string_length_app.
  change (String.length ", ") with 2. simpl length in *. lia.
Qed.

Lemma loads_array r :
  json.loads (String "[" (String json.dquote r))
  = match json.loads_items (S (S (String.length r))) (String json.dquote r) with
    | Some (items, tail) =>
        if String.eqb (json.skip_ws tail) "" then Return items else Raise ValueError
    | None => Raise ValueError
    end.
Proof. reflexivity. Qed.

(** What [json.dumps] writes for a list of steps, [json.loads] reads back. *)
Lemma loads_dumps (steps : list string) :
  json.loads (json.dumps (json.Arr (json.Str <$> steps))) = Return steps.
Proof.
  cbn [json.dumps].
  replace (map json.dumps (json.Str <$> steps)) with (json.dumps_string <$> steps)
    by (induction steps; [done | simpl; by f_equal]).
  destruct steps as [|x l]; [reflexivity|].
  assert (exists r, json.sep_by ", " (json.dumps_string <$> x :: l) +:+ "]"
                    = String json.dquote r) as [r Hr].
  { destruct l as [|y l].
    - rewrite fmap_cons, fmap_nil. cbn [json.sep_by foldl].
      rewrite dumps_string_app. eauto.
    - rewrite !fmap_cons, sep_by_cons, !string_app_assoc, dumps_string_app. eauto. }
  pose proof (sep_by_length (json.dumps_string <$> x :: l)) as Hlen.
  rewrite length_fmap in Hlen.
  assert (String.length (json.sep_by ", " (json.dumps_string <$> x :: l)) + 1
          = S (String.length r)) as Hsize.
  { change 1 with (String.length "]"). rewrite <- string_length_app, Hr. reflexivity. }
  pose proof (loads_items_dumps (S (S (String.length r))) x l "") as Hitems.
  change ("]" +:+ "") with "]" in Hitems.
  rewrite string_app_cons, string_app_nil_l, Hr, loads_array.
  rewrite Hr in Hitems. rewrite Hitems; [reflexivity|].
  simpl length in Hlen. lia.
Qed.

Lemma read_after_write f p data f' :
  os.write f p data = Return f' -> os.read f' p = Return data.
Proof.
  intros Hw. pose proof Hw as ->%write_Return.
  unfold os.read, os.lookup. destruct p; [done|]. by rewrite lookup_insert_eq.
Qed.

(** A resumed attempt reads the record the last successful [save] wrote. *)
Lemma resume_reads_saved_record (m : manager) (st st' : state) :
  _CheckpointManager.save m st = (Return tt, st') ->
  _CheckpointManager.load_from_file (_file_path m) st' = (Return m, st').
Proof.
  unfold _CheckpointManager.save. intros (f' & Hwrite & ->)%on_fs_Return.
  apply read_after_write in Hwrite.
  unfold _CheckpointManager.load_from_file, bind, read_fs, of_result.
  cbn [fs set_fs]. rewrite Hwrite, loads_dumps. by destruct m.
Qed.

Example dumps_steps :
  json.dumps (json.Arr [json.Str "tm_cleanup"; json.Str "__db_map"])
  = "[" +:+ json.dumps_string "tm_cleanup" +:+ ", "
        +:+ json.dumps_string "__db_map" +:+ "]".
Proof. reflexivity. Qed.

Example loads_blank_array : json.loads " [ ] " = Return [].
Proof. reflexivity. Qed.

Example loads_empty_text : json.loads "" = Raise ValueError.
Proof. reflexivity. Qed.

(** C10: the record is a list.  Marking a step that is already in it adds a
    second copy, which [save] writes out with the rest and a later resume
    reads back; [to_be_run] is false before and after; marking is not
    idempotent. *)
Theorem completed_again_duplicates (m : manager) (s : string) (st : state) :
  s ∈ _passed_steps m ->
  _passed_steps (_CheckpointManager.completed m s) = _passed_steps m ++ [s]
  /\ length (filter (eq s) (_passed_steps (_CheckpointManager.completed m s)))
     = S (length (filter (eq s) (_passed_steps m)))
  /\ 2 <= length (filter (eq s) (_passed_steps (_CheckpointManager.completed m s)))
  /\ _CheckpointManager.completed m s <> m
  /\ _CheckpointManager.to_be_run m s = false
  /\ _CheckpointManager.to_be_run (_CheckpointManager.completed m s) s = false
  /\ forall st',
       _CheckpointManager.save (_CheckpointManager.completed m s) st = (Return tt, st') ->
       fs st' !! _file_path m
       = Some (File (json.dumps (json.Arr (json.Str <$> _passed_steps m ++ [s]))))
       /\ _CheckpointManager.load_from_file (_file_path m) st'
          = (Return (_CheckpointManager.completed m s), st').
Proof.
  intros Hin.
  assert (Hcount : length (filter (eq s) (_passed_steps m ++ [s]))
                   = S (length (filter (eq s) (_passed_steps m)))).
  { rewrite filter_app, length_app. simpl.
    rewrite filter_cons_True by done. simpl. lia. }
  assert (Hone : 1 <= length (filter (eq s) (_passed_steps m))).
  { destruct (filter (eq s) (_passed_steps m)) as [|x l] eqn:Hf; simpl; [|lia].
    exfalso. eapply (filter_nil_not_elem_of (eq s)); eauto. }
  split_and!; simpl.
  - done.
  - done.
  - rewrite Hcount. lia.
  - destruct m as [p l]. unfold _CheckpointManager.completed. simpl.
    intros Heq. simplify_eq.
    assert (length (l ++ [s]) = length l) as Hlen by congruence.
    rewrite length_app in Hlen. simpl in Hlen. lia.
  - unfold _CheckpointManager.to_be_run. by rewrite bool_decide_eq_true_2.
  - unfold _CheckpointManager.to_be_run. simpl.
    rewrite bool_decide_eq_true_2; [done|]. set_solver.
  - intros st' Hsave. split; [|by apply resume_reads_saved_record in Hsave].
    unfold _CheckpointManager.save in Hsave.
    apply on_fs_Return in Hsave as (f' & Hwrite & ->).
    apply write_Return in Hwrite as ->. simpl.
    by rewrite lookup_insert_eq.
Qed.

Lemma completed_again_duplicates_witness :
  _passed_steps (_CheckpointManager.completed
                   (Manager Demo.checkpoint_file ["tm_cleanup"]) "tm_cleanup")
  = ["tm_cleanup"; "tm_cleanup"].
Proof.
  apply (completed_again_duplicates
           (Manager Demo.checkpoint_file ["tm_cleanup"]) "tm_cleanup" Demo.start).
  vm_compute. constructor.
Defined.

(** ** The builder *)

Lemma not_subset_unknown (steps : list string) :
  ~ (list_to_set steps ⊆@{gset string} dom MMTEngine.training_steps) ->
  0 < length (filter (fun step => ~ is_Some (MMTEngine.training_steps !! step)) steps).
Proof.
  intros Hsub.
  destruct (decide (Forall (fun s => is_Some (MMTEngine.training_steps !! s)) steps))
    as [Hall | Hex].
  - exfalso. apply Hsub. intros s Hs.
    apply elem_of_list_to_set in Hs. apply elem_of_dom.
    rewrite Forall_forall in Hall. by apply Hall.
  - apply not_Forall_Exists in Hex; [|apply _].
    apply Exists_exists in Hex as (s & Hs & Hno).
    assert (s ∈ filter (fun step => ~ is_Some (MMTEngine.training_steps !! step)) steps)
      as Hin by (apply list_elem_of_filter; done).
    destruct (filter _ steps); [by apply not_elem_of_nil in Hin | simpl; lia].
Qed.

(** C5: a requested step set that is not within the engine's
    [training_steps] makes the constructor raise
    [IllegalArgumentException]; the state, the directory tree with it, is
    as it was. *)
Theorem init_rejects_unknown_steps (engine : MMTEngine.t) (roots : list path)
  (debug : bool) (steps : list string) (split_trainingset : bool) (st : state) :
  ~ (list_to_set steps ⊆@{gset string} dom MMTEngine.training_steps) ->
  exists msg,
    _MMTEngineBuilder.__init__ engine roots debug (Some steps) split_trainingset st
    = (Raise (IllegalArgumentException msg), st).
Proof.
  intros Hsub%not_subset_unknown.
  unfold _MMTEngineBuilder.__init__, bind.
  rewrite bool_decide_eq_true_2 by done. simpl. eauto.
Qed.

Lemma init_rejects_unknown_steps_witness :
  exists msg,
    _MMTEngineBuilder.__init__ Demo.engine [["data"; "corpora"]] false
      (Some ["preprocess"; "__db_map"]) true Demo.start
    = (Raise (IllegalArgumentException msg), Demo.start).
Proof.
  apply init_rejects_unknown_steps.
  intros Hsub. specialize (Hsub "__db_map").
  rewrite elem_of_list_to_set, elem_of_dom in Hsub.
  destruct Hsub as [x Hx]; [set_solver|]. vm_compute in Hx. discriminate.
Defined.

(** ** The resource check *)

Ltac in_list := rewrite ?elem_of_cons, ?elem_of_nil; naive_solver.

Lemma set_stdout_nil st : set_stdout (stdout st ++ []) st = st.
Proof. destruct st. unfold set_stdout. simpl. by rewrite app_nil_r. Qed.

Lemma recommended_mem_ratio (size : Z) :
  _MMTEngineBuilder.recommended_mem size = (1024 * size / 350)%Z.
Proof.
  unfold _MMTEngineBuilder.recommended_mem, _MMTEngineBuilder.__GB,
    _MMTEngineBuilder.__MB.
  replace (1024 * 1024 * 1024 * size)%Z with ((1024 * size) * (1024 * 1024))%Z by lia.
  by rewrite Z.div_mul_cancel_r by lia.
Qed.

(** C9, as the code has it: with sizes in bytes, the recommended memory is
    [__GB * size / (350 * __MB)], the floor of [1024 * size / 350] (one
    gigabyte of memory for every 350 megabytes of corpus), and the
    recommended disk space is [10 * size].  The check returns normally
    and changes nothing but the standard output, where it prints a warning
    for each resource that falls short, and only then. *)
Theorem check_constraints_advisory `{External} (b : _MMTEngineBuilder.t) (st : state) :
  _MMTEngineBuilder.recommended_mem
    (_MMTEngineBuilder.corpus_size (fs st) (_MMTEngineBuilder._roots b))
  = (1024 * _MMTEngineBuilder.corpus_size (fs st) (_MMTEngineBuilder._roots b)
     / 350)%Z
  /\ _MMTEngineBuilder.recommended_disk
       (_MMTEngineBuilder.corpus_size (fs st) (_MMTEngineBuilder._roots b))
     = (10 * _MMTEngineBuilder.corpus_size (fs st) (_MMTEngineBuilder._roots b))%Z
  /\ exists warnings,
       _MMTEngineBuilder._check_constraints b st
       = (Return tt, set_stdout (stdout st ++ warnings) st)
       /\ ((exists r a, OutWarnMemory r a ∈ warnings)
           <-> (free (fs st)
                < _MMTEngineBuilder.recommended_mem
                    (_MMTEngineBuilder.corpus_size (fs st) (_MMTEngineBuilder._roots b)))%Z)
       /\ ((exists r a, OutWarnStorage r a ∈ warnings)
           <-> (df_free (fs st) (MMTEngine.path (_MMTEngineBuilder._engine b))
                < _MMTEngineBuilder.recommended_disk
                    (_MMTEngineBuilder.corpus_size (fs st) (_MMTEngineBuilder._roots b)))%Z).
Proof.
  split; [apply recommended_mem_ratio|]. split; [done|].
  unfold _MMTEngineBuilder._check_constraints, bind, read_fs, print, modify.
  simpl.
  set (size := _MMTEngineBuilder.corpus_size (fs st) (_MMTEngineBuilder._roots b)).
  set (mem := _MMTEngineBuilder.recommended_mem size).
  set (disk := _MMTEngineBuilder.recommended_disk size).
  destruct (decide (free (fs st) < mem)%Z) as [Hm|Hm];
    destruct (decide (df_free (fs st) (MMTEngine.path (_MMTEngineBuilder._engine b)) < disk)%Z)
      as [Hd|Hd].
  - rewrite !bool_decide_eq_true_2 by done. simpl.
    eexists [_; _; _]. split.
    { unfold set_stdout. simpl. by rewrite <- !app_assoc. }
    split; (split; [done|]); intros _; do 2 eexists; in_list.
  - rewrite (bool_decide_eq_true_2 _ Hm), (bool_decide_eq_false_2 _ Hd). simpl.
    eexists [_; _]. split.
    { unfold set_stdout. simpl. by rewrite <- !app_assoc. }
    split; split; try done.
    + intros _. do 2 eexists. in_list.
    + intros (r & a & Hin). rewrite !elem_of_cons, elem_of_nil in Hin.
      destruct Hin as [?|[?|[]]]; discriminate.
  - rewrite (bool_decide_eq_false_2 _ Hm), (bool_decide_eq_true_2 _ Hd). simpl.
    eexists [_; _]. split.
    { unfold set_stdout. simpl. by rewrite <- !app_assoc. }
    split; split; try done.
    + intros (r & a & Hin). rewrite !elem_of_cons, elem_of_nil in Hin.
      destruct Hin as [?|[?|[]]]; discriminate.
    + intros _. do 2 eexists. in_list.
  - rewrite (bool_decide_eq_false_2 _ Hm), (bool_decide_eq_false_2 _ Hd). simpl.
    exists []. split; [by rewrite set_stdout_nil|].
    split; split; try done; intros (r & a & Hin); by apply elem_of_nil in Hin.
Qed.

(** C9 as stated fails: for a corpus of 350 bytes the code recommends 1024
    bytes of memory, not 350 / 350 = 1; with 500 bytes free, which is more
    than a 350th of the corpus, the warning is printed. *)
Lemma recommended_mem_counterexample :
  @_MMTEngineBuilder.corpus_size Demo.env (fs Demo.start)
     (_MMTEngineBuilder._roots Demo.all_steps) = 350%Z
  /\ _MMTEngineBuilder.recommended_mem 350 = 1024%Z
  /\ _MMTEngineBuilder.recommended_mem 350 <> (350 / 350)%Z
  /\ (350 / 350 <= @free Demo.env (fs Demo.start))%Z
  /\ stdout (snd (@_MMTEngineBuilder._check_constraints Demo.env
                    Demo.all_steps Demo.start))
     = [OutWarnMemory 0 0; OutBlank].
Proof. vm_compute. repeat split; congruence. Qed.

Lemma bind_Return_inv {A B} (c : M A) (k : A -> M B) st b st' :
  bind c k st = (Return b, st') ->
  exists a st1, c st = (Return a, st1) /\ k a st1 = (Return b, st').
Proof.
  intros [(a & st1 & Hc & Hk) | (e & _ & ?)]%bind_inv; [eauto | done].
Qed.

(** A concrete run that returns, as an equation. *)
Ltac run_returning c Hr :=
  let r := fresh "r" in
  let Hok := fresh "Hok" in
  remember c as r eqn:Hr; symmetry in Hr;
  assert (Hok : is_return (fst r) = true)
    by (rewrite <- Hr; vm_compute; reflexivity);
  destruct r as [[? | ?] ?]; [clear Hok | discriminate Hok].

(** ** The domain map *)

Section domain_map.
Context `{External}.

Lemma domains_from_corpora (i : nat) (cs : list corpus) (inverted : gmap string string) :
  exists inverted',
    BaselineDatabase.domains_from i (VCorpus <$> cs) inverted
    = Return (imap (fun j c =>
                      BaselineDatabase.Domain (pretty (i + j + 1)) (corpus_name c)) cs,
              inverted').
Proof.
  revert i inverted. induction cs as [|c cs IH]; intros i inverted.
  - by exists inverted.
  - rewrite fmap_cons. cbn [BaselineDatabase.domains_from py_name].
    destruct (IH (S i) (<[corpus_name c := pretty (i + 1)]> inverted)) as [inv' ->].
    exists inv'. rewrite imap_cons, Nat.add_0_r. do 3 f_equal.
    apply imap_ext. intros j x _. simpl. do 2 f_equal. lia.
Qed.

Lemma symlink_all_keeps (p : path) (output : path)
  (name_of : corpus -> result (option string)) (items : list value) (st : state) :
  (forall c o n f, (symlink c o n f).2 !! p = f !! p) ->
  fs (BaselineDatabase.symlink_all output name_of items st).2 !! p = fs st !! p.
Proof.
  intros Hkeep. revert st. induction items as [|v items IH]; intros st; [done|].
  destruct v; try done. simpl.
  unfold bind, of_result, external, ret.
  destruct (name_of c) as [name|e]; [|done].
  destruct (symlink c output name (fs st)) as [[c'|e] f'] eqn:Hs; simpl.
  - specialize (IH (set_fs f' st)).
    destruct (BaselineDatabase.symlink_all output name_of items (set_fs f' st))
      as [[rest|e] st1]; simpl in *;
      rewrite IH; specialize (Hkeep c output name (fs st)); by rewrite Hs in Hkeep.
  - specialize (Hkeep c output name (fs st)). by rewrite Hs in Hkeep.
Qed.

(** C7: the i-th bilingual corpus gets the identifier [str(i + 1)] and its
    own name, in input order: the identifiers are 1, 2, ... without gaps or
    repeats.  The domains are a function of the ordered corpora alone, so
    generating again on the same input gives the same pairs; and where the
    links made afterwards leave the map file alone, it is these pairs that
    [generate] has written to it when it returns. *)
Theorem generate_domain_ids (db : BaselineDatabase.t) (cs : list corpus) :
  exists domains inverted,
    BaselineDatabase.domains_from 0 (VCorpus <$> cs) ∅ = Return (domains, inverted)
    /\ length domains = length cs
    /\ (forall i c, cs !! i = Some c ->
          domains !! i
          = Some (BaselineDatabase.Domain (pretty (i + 1)) (corpus_name c)))
    /\ NoDup (BaselineDatabase.id <$> domains)
    /\ ((forall c o n f, (symlink c o n f).2 !! BaselineDatabase._json_path db
                         = f !! BaselineDatabase._json_path db) ->
        forall monolingual_corpora output st v st',
          BaselineDatabase.generate db (corpora cs) monolingual_corpora output st
          = (Return v, st') ->
          fs st' !! BaselineDatabase._json_path db
          = Some (File (json.dumps
                          (json.Arr (BaselineDatabase.domain_json <$> domains))))).
Proof.
  destruct (domains_from_corpora 0 cs ∅) as [inverted Hdom].
  eexists _, inverted. split; [exact Hdom|].
  split; [by rewrite length_imap|].
  split.
  { intros i c Hi. rewrite list_lookup_imap, Hi. done. }
  split.
  { rewrite fmap_imap.
    apply NoDup_alt. intros i j x.
    rewrite !list_lookup_imap.
    destruct (cs !! i) eqn:Hi; [|done]. destruct (cs !! j) eqn:Hj; [|done].
    simpl. intros [= <-] [= Heq]. apply (inj pretty) in Heq. lia. }
  intros Hkeep mono output st v st' Hgen.
  unfold BaselineDatabase.generate in Hgen.
  apply bind_Return_inv in Hgen as (items & st1 & Hitems & Hgen).
  unfold of_result, corpora in Hitems. simpl in Hitems.
  injection Hitems as <- <-.
  apply bind_Return_inv in Hgen as (built & st1 & Hbuilt & Hgen).
  unfold of_result in Hbuilt. rewrite Hdom in Hbuilt.
  injection Hbuilt as <- <-. simpl in Hgen.
  apply bind_Return_inv in Hgen as (u & st1 & _ & Hgen).
  apply bind_Return_inv in Hgen as (u' & st2 & Hwrite & Hgen).
  apply on_fs_Return in Hwrite as (f' & Hwrite & Hst2).
  apply write_Return in Hwrite as ->.
  apply bind_Return_inv in Hgen as (bi & st3 & Hbi & Hgen).
  apply bind_Return_inv in Hgen as (mono_items & st4 & Hmono & Hgen).
  unfold of_result in Hmono. injection Hmono as _ <-.
  apply bind_Return_inv in Hgen as (mono' & st5 & Hmono' & Hgen).
  unfold ret in Hgen. injection Hgen as _ <-.
  pose proof (symlink_all_keeps (BaselineDatabase._json_path db) output
                (fun _ => Return None) mono_items st3 Hkeep) as Hk2.
  rewrite Hmono' in Hk2. simpl in Hk2. rewrite Hk2.
  pose proof (symlink_all_keeps (BaselineDatabase._json_path db) output
                (BaselineDatabase.domain_id_of inverted) (VCorpus <$> cs) st2 Hkeep) as Hk1.
  rewrite Hbi in Hk1. simpl in Hk1. rewrite Hk1, Hst2. simpl.
  by rewrite lookup_insert_eq.
Qed.

End domain_map.

Lemma generate_domain_ids_witness :
  exists domains,
    domains !! 1%nat = Some (BaselineDatabase.Domain "2" "news")
    /\ fs (snd (@BaselineDatabase.generate Demo.env (@MMTEngine.db Demo.env Demo.engine)
                  (corpora [Corpus "europarl" ["en"; "it"] ["data"];
                            Corpus "news" ["en"; "it"] ["data"]])
                  (corpora []) ["data"; "out"] Demo.start))
       !! BaselineDatabase._json_path (@MMTEngine.db Demo.env Demo.engine)
       = Some (File (json.dumps (json.Arr (BaselineDatabase.domain_json <$> domains)))).
Proof.
  destruct (@generate_domain_ids Demo.env (@MMTEngine.db Demo.env Demo.engine)
              [Corpus "europarl" ["en"; "it"] ["data"];
               Corpus "news" ["en"; "it"] ["data"]])
    as (domains & inverted & _ & _ & Hids & _ & Hfile).
  exists domains. split.
  - apply (Hids 1%nat (Corpus "news" ["en"; "it"] ["data"])). reflexivity.
  - run_returning
      (@BaselineDatabase.generate Demo.env (@MMTEngine.db Demo.env Demo.engine)
         (corpora [Corpus "europarl" ["en"; "it"] ["data"];
                   Corpus "news" ["en"; "it"] ["data"]])
         (corpora []) ["data"; "out"] Demo.start) Hrun.
    eapply Hfile; [reflexivity | exact Hrun].
Defined.

(** ** The step runner *)

(** A step that is neither forced nor selected is not run: the runner
    returns the list of values it was given and leaves the state alone. *)
Lemma _run_step_passthrough (b : _MMTEngineBuilder.t) (step_name : string)
  (step_function : _MMTEngineBuilder.step_function) (values : list value)
  (logger : option logger_ref) (st : state) :
  _MMTEngineBuilder.contains (_MMTEngineBuilder._steps b) step_name = false ->
  _MMTEngineBuilder._run_step b step_name step_function values logger false st
  = (Return (VList values), st).
Proof. unfold _MMTEngineBuilder._run_step. by intros ->. Qed.

Lemma mark_completed_Return (step_name : string) (st : state) u st' :
  _MMTEngineBuilder.mark_completed step_name st = (Return u, st') ->
  exists m, _checkpoint_manager st = Some m
    /\ _checkpoint_manager st' = Some (_CheckpointManager.completed m step_name)
    /\ fs st' !! _file_path m
       = Some (File (json.dumps
                       (json.Arr (json.Str <$> _passed_steps m ++ [step_name]))))
    /\ _CheckpointManager.load_from_file (_file_path m) st'
       = (Return (_CheckpointManager.completed m step_name), st').
Proof.
  unfold _MMTEngineBuilder.mark_completed. intros Hrun.
  apply bind_Return_inv in Hrun as (m & st1 & Hm & Hrun).
  unfold _MMTEngineBuilder.checkpoint_manager in Hm.
  destruct (_checkpoint_manager st) as [m0|] eqn:Hst; [|done].
  injection Hm as <- <-.
  apply bind_Return_inv in Hrun as (u' & st2 & Hmod & Hsave).
  unfold modify in Hmod. injection Hmod as _ <-.
  destruct u.
  pose proof (resume_reads_saved_record _ _ _ Hsave) as Hload.
  unfold _CheckpointManager.save in Hsave.
  apply on_fs_Return in Hsave as (f' & Hwrite & ->).
  apply write_Return in Hwrite as ->. simpl.
  exists m0. split_and!; [done..| |done]. by rewrite lookup_insert_eq.
Qed.

(** C3: when a step is run in execute mode (forced or selected, and not
    yet in the record) and the runner returns, the manager's record holds
    the step's name and the checkpoint file holds that very record, which
    a resumed attempt reads back from it.  The write is the last thing the
    runner does before it returns, and if the write fails the runner
    raises instead. *)
Theorem run_step_persists_completion (b : _MMTEngineBuilder.t) (step_name : string)
  (step_function : _MMTEngineBuilder.step_function) (values : list value)
  (logger : option logger_ref) (forced : bool) (st : state) (m : manager)
  (result : value) (st' : state) :
  _checkpoint_manager st = Some m ->
  forced = true
  \/ _MMTEngineBuilder.contains (_MMTEngineBuilder._steps b) step_name = true ->
  _CheckpointManager.to_be_run m step_name = true ->
  _MMTEngineBuilder._run_step b step_name step_function values logger forced st
  = (Return result, st') ->
  exists m',
    _checkpoint_manager st' = Some m'
    /\ step_name ∈ _passed_steps m'
    /\ fs st' !! _file_path m'
       = Some (File (json.dumps (json.Arr (json.Str <$> _passed_steps m'))))
    /\ _CheckpointManager.load_from_file (_file_path m') st' = (Return m', st').
Proof.
  intros Hm Hsel Hrun Hstep.
  unfold _MMTEngineBuilder._run_step in Hstep.
  assert (negb forced
          && negb (_MMTEngineBuilder.contains (_MMTEngineBuilder._steps b) step_name)
          = false) as Hcond.
  { destruct Hsel as [-> | ->]; [done | by rewrite andb_false_r]. }
  rewrite Hcond in Hstep.
  apply bind_Return_inv in Hstep as (m0 & st1 & Hm0 & Hstep).
  unfold _MMTEngineBuilder.checkpoint_manager in Hm0. rewrite Hm in Hm0.
  injection Hm0 as <- <-. rewrite Hrun in Hstep. simpl in Hstep.
  apply bind_Return_inv in Hstep as (r & st1 & _ & Hstep).
  apply bind_Return_inv in Hstep as (u & st2 & Hmark & Hret).
  unfold ret in Hret. injection Hret as _ <-.
  apply mark_completed_Return in Hmark as (m1 & _ & Hm1 & Hfile & Hload).
  exists (_CheckpointManager.completed m1 step_name).
  split_and!; [done | | done | done].
  simpl. apply elem_of_app. right. by apply list_elem_of_singleton.
Qed.


Lemma run_step_persists_completion_witness :
  exists m',
    _checkpoint_manager
      (snd (_MMTEngineBuilder._run_step Demo.all_steps "__db_map"
              (@_MMTEngineBuilder._step_init Demo.env Demo.all_steps)
              [corpora Demo.bilingual_corpora; corpora []] None true Demo.ready))
    = Some m'
    /\ "__db_map" ∈ _passed_steps m'
    /\ fs (snd (_MMTEngineBuilder._run_step Demo.all_steps "__db_map"
                  (@_MMTEngineBuilder._step_init Demo.env Demo.all_steps)
                  [corpora Demo.bilingual_corpora; corpora []] None true Demo.ready))
       !! _file_path m'
       = Some (File (json.dumps (json.Arr (json.Str <$> _passed_steps m')))).
Proof.
  run_returning
    (_MMTEngineBuilder._run_step Demo.all_steps "__db_map"
       (@_MMTEngineBuilder._step_init Demo.env Demo.all_steps)
       [corpora Demo.bilingual_corpora; corpora []] None true Demo.ready) Hrun.
  destruct (run_step_persists_completion Demo.all_steps "__db_map" _ _ _ _
              Demo.ready (Manager Demo.checkpoint_file []) _ _
              ltac:(vm_compute; reflexivity) (or_introl eq_refl) eq_refl Hrun)
    as (m' & Hm' & Hin & Hfile & _).
  exists m'. split; [exact Hm'|]. split; [exact Hin | exact Hfile].
Defined.

(** Given a list that holds the list of corpora, in any installation and
    state, [generate] raises [AttributeError] at the name of its first
    element and changes nothing. *)
Lemma generate_wrapped_corpora `{External} (db : BaselineDatabase.t)
  (cs : list corpus) (monolingual_corpora : value) (output : path) (st : state) :
  BaselineDatabase.generate db (VList [corpora cs]) monolingual_corpora output st
  = (Raise AttributeError, st).
Proof. reflexivity. Qed.

(** C2 on the code: with [tm_cleanup] left out of the operator's steps, the
    runner hands back the list of its arguments, [[bilingual_corpora]], and
    [_build] binds that one-element list where the corpora are expected.
    The domain mapping, given it, raises [AttributeError], and the build
    fails at its second step; with every step selected the same
    installation builds. *)
Theorem deselected_tm_cleanup_breaks_domain_map :
  _MMTEngineBuilder._run_step Demo.preprocess_only "tm_cleanup"
    (@_MMTEngineBuilder._step_tm_cleanup Demo.env Demo.preprocess_only)
    [corpora Demo.bilingual_corpora] (Some TheLogger) false Demo.ready
  = (Return (VList [corpora Demo.bilingual_corpora]), Demo.ready)
  /\ fst (@_MMTEngineBuilder._step_init Demo.env Demo.preprocess_only
            [VList [corpora Demo.bilingual_corpora]; corpora []] false None Demo.ready)
     = Raise AttributeError
  /\ is_return
       (fst (@_MMTEngineBuilder._step_init Demo.env Demo.preprocess_only
               [corpora Demo.bilingual_corpora; corpora []] false None Demo.ready))
     = true
  /\ fst (@_MMTEngineBuilder.build Demo.env Demo.preprocess_only Demo.start)
     = Raise AttributeError
  /\ calls (snd (@_MMTEngineBuilder.build Demo.env Demo.preprocess_only Demo.start))
     = [("__db_map", false)]
  /\ fst (@_MMTEngineBuilder.build Demo.env Demo.all_steps Demo.start) = Return tt.
Proof.
  split; [by apply _run_step_passthrough|].
  repeat split; vm_compute; reflexivity.
Qed.

(** ** Frames *)

#[export] Instance same_calls_frame : Frame same_calls.
Proof. constructor; unfold same_calls; intros; simpl; congruence. Qed.

#[export] Instance same_manager_frame : Frame same_manager.
Proof. constructor; unfold same_manager; intros; simpl; congruence. Qed.

Lemma db_map_calls_app l1 l2 :
  db_map_calls (l1 ++ l2) = db_map_calls l1 ++ db_map_calls l2.
Proof. apply filter_app. Qed.

Lemma quiet_same st st' : calls st' = calls st -> quiet st st'.
Proof. intros Hc. exists []. by rewrite app_nil_r. Qed.

#[export] Instance quiet_frame : Frame quiet.
Proof.
  constructor; try (intros; by apply quiet_same).
  intros st1 st2 st3 (n1 & H1 & Hq1) (n2 & H2 & Hq2).
  exists (n1 ++ n2). rewrite H2, H1, <- app_assoc. split; [done|].
  by rewrite db_map_calls_app, Hq1, Hq2.
Qed.

#[export] Instance logger_alive_frame : Frame (preserves logger_alive).
Proof.
  constructor; unfold preserves, logger_alive; intros; simpl; eauto.
Qed.

#[export] Instance record_without_frame step : Frame (preserves (record_without step)).
Proof.
  constructor; unfold preserves, record_without; intros; simpl; eauto.
Qed.

Section frames.
Context {R : state -> state -> Prop} `{!Frame R}.

Lemma keeps_pure {A} (c : M A) : (forall st, snd (c st) = st) -> keeps R c.
Proof. intros Hc st. rewrite Hc. apply frame_refl. Qed.

Lemma keeps_ret {A} (a : A) : keeps R (ret a).
Proof. by apply keeps_pure. Qed.

Lemma keeps_raise {A} (e : exn) : keeps R (@raise A e).
Proof. by apply keeps_pure. Qed.

Lemma keeps_of_result {A} (r : result A) : keeps R (of_result r).
Proof. by apply keeps_pure. Qed.

Lemma keeps_read_fs {A} (g : filesystem -> result A) : keeps R (read_fs g).
Proof. by apply keeps_pure. Qed.

Lemma keeps_on_fs g : keeps R (on_fs g).
Proof.
  intros st. unfold on_fs. destruct (g (fs st)); simpl;
    [apply frame_fs | apply frame_refl].
Qed.

Lemma keeps_external {A} (g : filesystem -> result A * filesystem) :
  keeps R (external g).
Proof. intros st. unfold external. destruct (g (fs st)). apply frame_fs. Qed.

Lemma keeps_modify (f : state -> state) :
  (forall st, R st (f st)) -> keeps R (modify f).
Proof. intros Hf st. apply Hf. Qed.

Lemma keeps_print o : keeps R (print o).
Proof. apply keeps_modify. intros st. apply frame_stdout. Qed.

Lemma keeps_bind {A B} (c : M A) (k : A -> M B) :
  keeps R c -> (forall a, keeps R (k a)) -> keeps R (bind c k).
Proof.
  intros Hc Hk st. unfold bind. specialize (Hc st).
  destruct (c st) as [[a|e] st1]; simpl in *; [|done].
  eapply frame_trans; [exact Hc | apply Hk].
Qed.

Lemma keeps_with {A} (enter exit_ : M unit) (body : M A) :
  keeps R enter -> keeps R exit_ -> keeps R body ->
  keeps R (with_ enter exit_ body).
Proof.
  intros He Hx Hb. unfold with_. apply keeps_bind; [done|]. intros _ st.
  specialize (Hb st). destruct (body st) as [r st1]. simpl in Hb.
  specialize (Hx st1). destruct (exit_ st1) as [[u|e] st2]; simpl in *;
    eapply frame_trans; eauto.
Qed.

Lemma keeps_try {A} (body : M A) (handler : exn -> M unit) (final : M unit) :
  keeps R body -> (forall e, keeps R (handler e)) -> keeps R final ->
  keeps R (try_except_reraise_finally body handler final).
Proof.
  intros Hb Hh Hf st. unfold try_except_reraise_finally.
  specialize (Hb st). destruct (body st) as [[a|e] st1]; simpl in Hb.
  - specialize (Hf st1). destruct (final st1) as [[u|e] st2]; simpl in *;
      eapply frame_trans; eauto.
  - specialize (Hh e st1). destruct (handler e st1) as [[u|e'] st2]; simpl in Hh;
      specialize (Hf st2); destruct (final st2) as [[u'|e''] st3]; simpl in *;
      (eapply frame_trans; [exact Hb|]); eapply frame_trans; eauto.
Qed.

Lemma keeps_the_logger : keeps R _builder_logger.the_logger.
Proof.
  apply keeps_pure. intros st. unfold _builder_logger.the_logger.
  by destruct (logger_obj st).
Qed.

Lemma keeps_temp_dir : keeps R _MMTEngineBuilder.temp_dir.
Proof.
  apply keeps_pure. intros st. unfold _MMTEngineBuilder.temp_dir.
  by destruct (_temp_dir st).
Qed.

Lemma keeps_checkpoint_manager : keeps R _MMTEngineBuilder.checkpoint_manager.
Proof.
  apply keeps_pure. intros st. unfold _MMTEngineBuilder.checkpoint_manager.
  by destruct (_checkpoint_manager st).
Qed.

Lemma keeps_load_from_file file_path :
  keeps R (_CheckpointManager.load_from_file file_path).
Proof. apply keeps_pure, load_from_file_state. Qed.

Lemma keeps_update f : keeps R (_builder_logger.update f).
Proof.
  unfold _builder_logger.update. apply keeps_bind; [apply keeps_the_logger|].
  intros l. apply keeps_modify. intros st. apply frame_logger.
Qed.

Lemma keeps_log r : keeps R (_builder_logger.log r).
Proof. apply keeps_modify. intros st. apply frame_log. Qed.

End frames.

(** The structure of a computation, taken apart down to its assignments. *)
Ltac frame_step :=
  lazymatch goal with
  | |- keeps _ (bind _ _) => apply keeps_bind; [|intros ?]
  | |- keeps _ (ret _) => apply keeps_ret
  | |- keeps _ (raise _) => apply keeps_raise
  | |- keeps _ (of_result _) => apply keeps_of_result
  | |- keeps _ (read_fs _) => apply keeps_read_fs
  | |- keeps _ (on_fs _) => apply keeps_on_fs
  | |- keeps _ (external _) => apply keeps_external
  | |- keeps _ (print _) => apply keeps_print
  | |- keeps _ (with_ _ _ _) => apply keeps_with
  | |- keeps _ (try_except_reraise_finally _ _ _) => apply keeps_try; [| intros ? |]
  | |- keeps _ _builder_logger.the_logger => apply keeps_the_logger
  | |- keeps _ (_builder_logger.update _) => apply keeps_update
  | |- keeps _ (_builder_logger.log _) => apply keeps_log
  | |- keeps _ _MMTEngineBuilder.temp_dir => apply keeps_temp_dir
  | |- keeps _ _MMTEngineBuilder.checkpoint_manager => apply keeps_checkpoint_manager
  | |- keeps _ (_CheckpointManager.load_from_file _) => apply keeps_load_from_file
  | |- keeps _ (modify (set_temp_dir _)) =>
      apply keeps_modify; intros ?; apply frame_temp_dir
  | |- keeps _ (match ?x with _ => _ end) => destruct x
  end.

Ltac frame := repeat frame_step.

Section composite_frames.
Context `{External} {R : state -> state -> Prop} `{!Frame R}.

Lemma keeps_logger_stream logger : keeps R (_builder_logger.stream logger).
Proof. unfold _builder_logger.stream. frame. Qed.

Lemma keeps_logger_start n s t bi mono : keeps R (_builder_logger.start n s t bi mono).
Proof. unfold _builder_logger.start. frame. Qed.

Lemma keeps_logger_completed : keeps R _builder_logger.completed.
Proof. unfold _builder_logger.completed. frame. Qed.

Lemma keeps_logger_close : keeps R _builder_logger.close.
Proof. unfold _builder_logger.close. frame. Qed.

Lemma keeps_logger_error e : keeps R (_builder_logger.error e).
Proof. unfold _builder_logger.error. frame. Qed.

Lemma keeps_with_step {A} description (body : M A) :
  keeps R body -> keeps R (_builder_logger.with_step description body).
Proof.
  intros Hb. unfold _builder_logger.with_step, _builder_logger.step,
    _builder_logger.__enter__, _builder_logger.__exit__. frame. done.
Qed.

Lemma keeps_logger_init n p : keeps R (_builder_logger.__init__ n p).
Proof.
  unfold _builder_logger.__init__. frame.
  apply keeps_modify. intros st. apply frame_logger.
Qed.

Lemma keeps_get_tempdir name delete_if_exists :
  keeps R (_MMTEngineBuilder._get_tempdir name delete_if_exists).
Proof. unfold _MMTEngineBuilder._get_tempdir. frame. Qed.

Lemma keeps_engine_get_tempdir e name ensure :
  keeps R (MMTEngine.get_tempdir e name ensure).
Proof. unfold MMTEngine.get_tempdir. frame. Qed.

Lemma keeps_get_logfile e name ensure : keeps R (MMTEngine.get_logfile e name ensure).
Proof. unfold MMTEngine.get_logfile. frame. Qed.

Lemma keeps_clear_tempdir e subdir : keeps R (MMTEngine.clear_tempdir e subdir).
Proof. unfold MMTEngine.clear_tempdir. frame. Qed.

Lemma keeps_write_configs e : keeps R (MMTEngine.write_configs e).
Proof. unfold MMTEngine.write_configs. frame. Qed.

Lemma keeps_check_constraints b : keeps R (_MMTEngineBuilder._check_constraints b).
Proof. unfold _MMTEngineBuilder._check_constraints. frame. Qed.

Lemma keeps_symlink_all output name_of items :
  keeps R (BaselineDatabase.symlink_all output name_of items).
Proof.
  induction items as [|v items IH]; simpl; [frame|].
  destruct v; frame. done.
Qed.

Lemma keeps_generate db bi mono output :
  keeps R (BaselineDatabase.generate db bi mono output).
Proof.
  unfold BaselineDatabase.generate. frame; apply keeps_symlink_all.
Qed.

Lemma keeps_save m : keeps R (_CheckpointManager.save m).
Proof. unfold _CheckpointManager.save. frame. Qed.

End composite_frames.

Ltac frame_more :=
  repeat first
    [ frame_step
    | apply keeps_get_tempdir
    | apply keeps_logger_stream
    | apply keeps_generate
    | apply keeps_save
    | apply keeps_write_configs
    | apply keeps_logger_completed
    | apply keeps_logger_start
    | apply keeps_with_step
    | apply keeps_clear_tempdir
    | apply keeps_logger_close
    | apply keeps_logger_error
    | apply keeps_engine_get_tempdir
    | apply keeps_get_logfile
    | apply keeps_check_constraints
    | apply keeps_logger_init ].

Section pipeline_frames.
Context `{External} {R : state -> state -> Prop} `{!Frame R}.

Lemma keeps_step_tm_cleanup b values skip logger :
  keeps R (_MMTEngineBuilder._step_tm_cleanup b values skip logger).
Proof. unfold _MMTEngineBuilder._step_tm_cleanup. frame_more. Qed.

Lemma keeps_step_init b values skip logger :
  keeps R (_MMTEngineBuilder._step_init b values skip logger).
Proof. unfold _MMTEngineBuilder._step_init. frame_more. Qed.

Lemma keeps_step_preprocess b values skip logger :
  keeps R (_MMTEngineBuilder._step_preprocess b values skip logger).
Proof. unfold _MMTEngineBuilder._step_preprocess. frame_more. Qed.

Lemma keeps_step_context_analyzer b values skip logger :
  keeps R (_MMTEngineBuilder._step_context_analyzer b values skip logger).
Proof. unfold _MMTEngineBuilder._step_context_analyzer. frame_more. Qed.

Lemma keeps_step_aligner b values skip logger :
  keeps R (_MMTEngineBuilder._step_aligner b values skip logger).
Proof. unfold _MMTEngineBuilder._step_aligner. frame_more. Qed.

Lemma keeps_step_tm b values skip logger :
  keeps R (_MMTEngineBuilder._step_tm b values skip logger).
Proof. unfold _MMTEngineBuilder._step_tm. frame_more. Qed.

Lemma keeps_step_lm b values skip logger :
  keeps R (_MMTEngineBuilder._step_lm b values skip logger).
Proof. unfold _MMTEngineBuilder._step_lm. frame_more. Qed.

(** The runner keeps what the step function, the note of the call and the
    marking of the step keep. *)
Lemma keeps_run_step b step_name step_function values logger forced :
  (forall skip, keeps R (step_function values skip logger)) ->
  (forall skip st, R st (set_calls (calls st ++ [(step_name, skip)]) st)) ->
  keeps R (_MMTEngineBuilder.mark_completed step_name) ->
  keeps R (_MMTEngineBuilder._run_step b step_name step_function values logger forced).
Proof.
  intros Hf Hcall Hmark.
  unfold _MMTEngineBuilder._run_step, _MMTEngineBuilder.call.
  frame_more; try done; by apply keeps_modify.
Qed.

End pipeline_frames.

(** What a run leaves related, from the frame of the computation. *)
Lemma keeps_run {A} (R : state -> state -> Prop) (c : M A) st r st' :
  keeps R c -> c st = (r, st') -> R st st'.
Proof. intros Hk Hc. specialize (Hk st). by rewrite Hc in Hk. Qed.

Section build_frames.
Context `{External} {R : state -> state -> Prop} `{!Frame R}.

Lemma keeps_mark_completed step_name :
  (forall m st, R st (set_checkpoint_manager (Some m) st)) ->
  keeps R (_MMTEngineBuilder.mark_completed step_name).
Proof.
  intros Hm. unfold _MMTEngineBuilder.mark_completed. frame_more.
  by apply keeps_modify.
Qed.

Lemma keeps_build_workspace b resume :
  (forall m st, R st (set_checkpoint_manager (Some m) st)) ->
  keeps R (_MMTEngineBuilder._build_workspace b resume).
Proof.
  intros Hm.
  unfold _MMTEngineBuilder._build_workspace,
    _MMTEngineBuilder._init_checkpoint_manager,
    _CheckpointManager.create_for_engine.
  frame_more; by apply keeps_modify.
Qed.

(** [_build_setup] after the workspace is there. *)
Lemma build_setup_inv b resume st ready st1 :
  _MMTEngineBuilder._build_setup b resume st = (Return ready, st1) ->
  exists st0,
    _MMTEngineBuilder._build_workspace b resume st = (Return tt, st0)
    /\ R st0 st1 /\ logger_alive st1.
Proof.
  unfold _MMTEngineBuilder._build_setup. intros Hs.
  apply bind_Return_inv in Hs as ([] & st0 & Hw & Hs).
  exists st0. split; [done|]. split.
  - eapply keeps_run; [|exact Hs]. frame_more.
  - do 5 (apply bind_Return_inv in Hs as (? & ? & _ & Hs)).
    apply bind_Return_inv in Hs as (lg & s & Hinit & Hret).
    unfold ret in Hret. simplify_eq.
    unfold _builder_logger.__init__ in Hinit.
    apply bind_Return_inv in Hinit as (? & ? & _ & Hinit).
    apply bind_Return_inv in Hinit as (? & ? & Hmod & Hinit).
    unfold ret in Hinit. unfold modify in Hmod. simplify_eq.
    unfold logger_alive. simpl. eauto.
Qed.

Lemma keeps_run_all_steps b logger bi mono :
  (forall step_name skip st, R st (set_calls (calls st ++ [(step_name, skip)]) st)) ->
  (forall m st, R st (set_checkpoint_manager (Some m) st)) ->
  keeps R (_MMTEngineBuilder._run_all_steps b logger bi mono).
Proof.
  intros Hcall Hm. unfold _MMTEngineBuilder._run_all_steps.
  repeat first
    [ apply keeps_run_step;
      [ intros ?;
        first [ apply keeps_step_tm_cleanup | apply keeps_step_init
              | apply keeps_step_preprocess | apply keeps_step_context_analyzer
              | apply keeps_step_aligner | apply keeps_step_tm | apply keeps_step_lm ]
      | intros; apply Hcall
      | by apply keeps_mark_completed ]
    | frame_step
    | apply keeps_logger_start
    | apply keeps_with_step
    | apply keeps_write_configs
    | apply keeps_logger_completed ].
Qed.

End build_frames.

Lemma rmtree_under f p q :
  os.isdir f p = true -> p `prefix_of` q -> shutil.rmtree f p !! q = None.
Proof.
  intros Hdir Hpre. unfold shutil.rmtree. rewrite Hdir.
  apply map_lookup_filter_None. right. intros x _. simpl. by intros Hn.
Qed.

(** The build from the end of the steps on: what is returned or raised and
    the state that is left, given how the steps ended. *)
Lemma build_outcome `{External} (b : _MMTEngineBuilder.t) (resume : bool)
  (st : state) logger bi mono (st1 : state) (r : result unit) (st2 : state) :
  _MMTEngineBuilder._build_setup b resume st = (Return (logger, bi, mono), st1) ->
  _MMTEngineBuilder._run_all_steps b logger bi mono st1 = (r, st2) ->
  exists l,
    logger_obj st2 = Some l
    /\ _MMTEngineBuilder._build b resume st
       = (match r with Return _ => Return tt | Raise e => Raise e end,
          set_logger_obj
            (Some (BuilderLogger (_steps_count l) (_current_step_num l)
                     (_current_step_name l) (_engine_name l) true))
            (match r with
             | Return _ =>
                 if _MMTEngineBuilder._debug b then st2
                 else set_fs (shutil.rmtree (fs st2)
                                (join (MMTEngine._temp_path (_MMTEngineBuilder._engine b))
                                      "training")) st2
             | Raise e => set_training_log (training_log st2 ++ [LogException e]) st2
             end)).
Proof.
  intros Hsetup Hrun.
  destruct (build_setup_inv (R:=preserves logger_alive) _ _ _ _ _ Hsetup)
    as (st0 & _ & _ & Halive1).
  assert (logger_alive st2) as [l Hl].
  { eapply (keeps_run (preserves logger_alive)); [|exact Hrun|exact Halive1].
    apply keeps_run_all_steps; unfold preserves, logger_alive; intros; simpl; eauto. }
  exists l. split; [done|].
  unfold _MMTEngineBuilder._build.
  rewrite (bind_return _ _ _ _ _ Hsetup). simpl.
  unfold try_except_reraise_finally.
  destruct r as [[]|e].
  - rewrite (bind_return _ _ _ _ _ Hrun).
    destruct (_MMTEngineBuilder._debug b) eqn:Hdebug; simpl.
    + unfold ret, _builder_logger.close, _builder_logger.update, bind,
        _builder_logger.the_logger, modify. by rewrite Hl.
    + unfold MMTEngine.clear_tempdir, on_fs, _builder_logger.close,
        _builder_logger.update, bind, _builder_logger.the_logger, modify.
      simpl. by rewrite Hl.
  - rewrite (bind_raise _ _ _ _ _ Hrun).
    unfold _builder_logger.error, _builder_logger.log, _builder_logger.close,
      _builder_logger.update, bind, _builder_logger.the_logger, modify.
    simpl. by rewrite Hl.
Qed.

(** C8: once the steps are under way, the controller touches the
    temporary workspace in one case only.  If the steps and the final
    configuration succeed, the build returns, and the tree is the one they
    left, minus the [training] workspace unless debug is on.  If any of
    them raises, the build raises the same exception, the tree is exactly
    as the failure left it, debug or not, and the exception is the last
    record of the log.  In every case the log stream is closed by the time
    the build is over. *)
Theorem build_workspace_retention `{External} (b : _MMTEngineBuilder.t)
  (resume : bool) (st : state) (logger : logger_ref)
  (bilingual_corpora monolingual_corpora : list corpus) (st1 : state)
  (r : result unit) (st2 : state) :
  _MMTEngineBuilder._build_setup b resume st
  = (Return (logger, bilingual_corpora, monolingual_corpora), st1) ->
  _MMTEngineBuilder._run_all_steps b logger bilingual_corpora monolingual_corpora st1
  = (r, st2) ->
  (exists l, logger_obj (snd (_MMTEngineBuilder._build b resume st)) = Some l
             /\ stream_closed l = true)
  /\ match r with
     | Return _ =>
         fst (_MMTEngineBuilder._build b resume st) = Return tt
         /\ fs (snd (_MMTEngineBuilder._build b resume st))
            = (if _MMTEngineBuilder._debug b then fs st2
               else shutil.rmtree (fs st2)
                      (join (MMTEngine._temp_path (_MMTEngineBuilder._engine b))
                            "training"))
         /\ training_log (snd (_MMTEngineBuilder._build b resume st)) = training_log st2
         /\ (_MMTEngineBuilder._debug b = false ->
             os.isdir (fs st2)
               (join (MMTEngine._temp_path (_MMTEngineBuilder._engine b)) "training")
             = true ->
             forall q,
               join (MMTEngine._temp_path (_MMTEngineBuilder._engine b)) "training"
                 `prefix_of` q ->
               fs (snd (_MMTEngineBuilder._build b resume st)) !! q = None)
     | Raise e =>
         fst (_MMTEngineBuilder._build b resume st) = Raise e
         /\ fs (snd (_MMTEngineBuilder._build b resume st)) = fs st2
         /\ training_log (snd (_MMTEngineBuilder._build b resume st))
            = training_log st2 ++ [LogException e]
     end.
Proof.
  intros Hsetup Hrun.
  destruct (build_outcome _ _ _ _ _ _ _ _ _ Hsetup Hrun) as (l & Hl & ->).
  simpl. split; [eauto|].
  destruct r as [[]|e]; [|done].
  destruct (_MMTEngineBuilder._debug b); split_and!; try done.
  intros _ Hdir q Hq. by apply rmtree_under.
Qed.

Lemma build_workspace_retention_witness :
  (fst (@_MMTEngineBuilder._build Demo.env Demo.all_steps false Demo.start) = Return tt
   /\ forall q, ["runtime"; "demo"; "tmp"; "training"] `prefix_of` q ->
        fs (snd (@_MMTEngineBuilder._build Demo.env Demo.all_steps false Demo.start)) !! q
        = None)
  /\ (fst (@_MMTEngineBuilder._build Demo.failing_cleaner Demo.all_steps false Demo.start)
      = Raise (ExternalError "cleaner")
      /\ fs (snd (@_MMTEngineBuilder._build Demo.failing_cleaner Demo.all_steps
                    false Demo.start))
         !! ["runtime"; "demo"; "tmp"; "training"; "clean_tms"] = Some Dir).
Proof.
  split.
  - destruct (@build_workspace_retention Demo.env Demo.all_steps false Demo.start
                TheLogger Demo.bilingual_corpora [] _ (Return tt) _
                (run_eq _ _ _ ltac:(vm_compute; reflexivity))
                (run_eq _ _ _ ltac:(vm_compute; reflexivity)))
      as [_ (Hres & _ & _ & Hgone)].
    split; [exact Hres|].
    intros q Hq. apply Hgone; [reflexivity | vm_compute; reflexivity | exact Hq].
  - destruct (@build_workspace_retention Demo.failing_cleaner Demo.all_steps false
                Demo.start TheLogger Demo.bilingual_corpora [] _
                (Raise (ExternalError "cleaner")) _
                (run_eq _ _ _ ltac:(vm_compute; reflexivity))
                (run_eq _ _ _ ltac:(vm_compute; reflexivity)))
      as [_ (Hres & Hfs & _)].
    split; [exact Hres|]. rewrite Hfs. vm_compute. reflexivity.
Defined.

(** ** The forced step *)

Lemma quiet_call step_name skip st :
  db_map_calls [(step_name, skip)] = [] ->
  quiet st (set_calls (calls st ++ [(step_name, skip)]) st).
Proof. intros Hq. by exists [(step_name, skip)]. Qed.

Lemma keeps_record_without_mark (step step_name : string) :
  step <> step_name ->
  keeps (preserves (record_without step)) (_MMTEngineBuilder.mark_completed step_name).
Proof.
  intros Hne st (m & Hm & Hnot).
  unfold _MMTEngineBuilder.mark_completed, bind, _MMTEngineBuilder.checkpoint_manager,
    modify, _CheckpointManager.save, on_fs.
  rewrite Hm. simpl.
  assert (record_without step
            (set_checkpoint_manager
               (Some (_CheckpointManager.completed m step_name)) st)) as Hgoal.
  { eexists. split; [done|]. simpl. rewrite elem_of_app, list_elem_of_singleton.
    intros [?|?]; done. }
  destruct (os.write _ _ _); simpl; [|done].
  destruct Hgoal as (m' & Hm' & Hnot'). by exists m'.
Qed.

Section forced_step.
Context `{External}.

(** A fresh workspace comes with a manager whose record is empty. *)
Lemma build_workspace_fresh b st u st0 :
  _MMTEngineBuilder._build_workspace b false st = (Return u, st0) ->
  exists p, _checkpoint_manager st0 = Some (Manager p []).
Proof.
  unfold _MMTEngineBuilder._build_workspace. intros Hw.
  do 2 (apply bind_Return_inv in Hw as (? & ? & _ & Hw)).
  unfold _MMTEngineBuilder._init_checkpoint_manager in Hw.
  apply bind_Return_inv in Hw as (d & ? & _ & Hw).
  apply bind_Return_inv in Hw as (m & ? & Hm & Hw).
  unfold modify in Hw. simplify_eq. simpl.
  unfold _CheckpointManager.create_for_engine in Hm.
  apply bind_Return_inv in Hm as (? & ? & _ & Hm).
  unfold ret in Hm. simplify_eq. eauto.
Qed.

Lemma keeps_build_setup {R : state -> state -> Prop} `{!Frame R} b resume :
  (forall m st, R st (set_checkpoint_manager (Some m) st)) ->
  keeps R (_MMTEngineBuilder._build_setup b resume).
Proof.
  intros Hm. unfold _MMTEngineBuilder._build_setup.
  apply keeps_bind; [by apply keeps_build_workspace|]. intros _. frame_more.
Qed.

(** The forced call of the domain mapping, on a record that does not hold
    it: the call is noted as an execution and the step function is run
    with [skip] off. *)
Lemma run_db_map b step_function values st m :
  _checkpoint_manager st = Some m ->
  "__db_map" ∉ _passed_steps m ->
  _MMTEngineBuilder._run_step b "__db_map" step_function values None true st
  = bind (step_function values false None)
      (fun result => _MMTEngineBuilder.mark_completed "__db_map" ;; ret result)
      (set_calls (calls st ++ [("__db_map", false)]) st).
Proof.
  intros Hm Hnot.
  unfold _MMTEngineBuilder._run_step, _MMTEngineBuilder.call,
    _MMTEngineBuilder.checkpoint_manager. simpl.
  unfold bind at 1. rewrite Hm.
  unfold _CheckpointManager.to_be_run.
  rewrite bool_decide_eq_false_2 by done. simpl.
  unfold bind at 1. unfold bind at 2. unfold modify. simpl. done.
Qed.

Lemma bind_congr {A B} (c c' : M A) (k : A -> M B) st st' :
  c st = c' st' -> bind c k st = bind c' k st'.
Proof. unfold bind. by intros ->. Qed.

Ltac quiet_steps :=
  repeat first
    [ apply keeps_run_step;
      [ intros ?;
        first [ apply keeps_step_tm_cleanup | apply keeps_step_init
              | apply keeps_step_preprocess | apply keeps_step_context_analyzer
              | apply keeps_step_aligner | apply keeps_step_tm | apply keeps_step_lm ]
      | intros; apply quiet_call; reflexivity
      | apply keeps_mark_completed; intros; by apply quiet_same ]
    | frame_step
    | apply keeps_logger_start
    | apply keeps_with_step
    | apply keeps_write_configs
    | apply keeps_logger_completed ].

(** The calls of the pipeline, from a state whose record does not hold the
    domain mapping: one call of it, in execute mode, if the pipeline gets
    past [tm_cleanup], none if it does not. *)
Lemma run_all_steps_calls b logger bi mono st1 :
  record_without "__db_map" st1 ->
  exists new,
    calls (snd (_MMTEngineBuilder._run_all_steps b logger bi mono st1))
    = calls st1 ++ new
    /\ match fst ((_builder_logger.start
                     (MMTEngine.name (_MMTEngineBuilder._engine b))
                     (MMTEngine.source_lang (_MMTEngineBuilder._engine b))
                     (MMTEngine.target_lang (_MMTEngineBuilder._engine b)) bi mono ;;
                   _MMTEngineBuilder._run_step b "tm_cleanup"
                     (_MMTEngineBuilder._step_tm_cleanup b)
                     [corpora bi] (Some logger) false) st1) with
       | Return _ => db_map_calls new = [("__db_map", false)]
       | Raise _ => db_map_calls new = []
       end.
Proof.
  intros Hrec. unfold _MMTEngineBuilder._run_all_steps.
  set (e := _MMTEngineBuilder._engine b).
  destruct (_builder_logger.start (MMTEngine.name e) (MMTEngine.source_lang e)
              (MMTEngine.target_lang e) bi mono st1) as [[u|ex] sa] eqn:Hstart.
  - rewrite !(bind_return _ _ _ _ _ Hstart).
    assert (quiet st1 sa) as Hq1
      by (eapply keeps_run; [apply keeps_logger_start | exact Hstart]).
    assert (record_without "__db_map" sa) as Hrec1.
    { eapply (keeps_run (preserves (record_without "__db_map")));
        [apply keeps_logger_start | exact Hstart | exact Hrec]. }
    destruct (_MMTEngineBuilder._run_step b "tm_cleanup"
                (_MMTEngineBuilder._step_tm_cleanup b) [corpora bi] (Some logger)
                false sa) as [[cleaned|ex] st2] eqn:Htm.
    + rewrite (bind_return _ _ _ _ _ Htm).
      assert (quiet sa st2) as Hq2.
      { eapply keeps_run; [|exact Htm]. quiet_steps. }
      assert (record_without "__db_map" st2) as (m & Hm & Hnot).
      { eapply (keeps_run (preserves (record_without "__db_map")));
          [|exact Htm|exact Hrec1].
        apply keeps_run_step.
        - intros ?. apply keeps_step_tm_cleanup.
        - intros skip st (m & Hm & Hnot). by exists m.
        - by apply keeps_record_without_mark. }
      rewrite (bind_congr _ _ _ _ _ (run_db_map _ _ _ _ _ Hm Hnot)).
      match goal with
      | |- context [snd (?c ?s)] =>
          assert (quiet s (snd (c s))) as Hq3
      end.
      { eapply (keeps_run quiet); [|apply surjective_pairing].
        apply keeps_bind.
        - apply keeps_bind; [apply keeps_step_init|]. intros ?.
          apply keeps_bind; [|intros ?; apply keeps_ret].
          apply keeps_mark_completed. intros; by apply quiet_same.
        - intros ?. quiet_steps. }
      destruct Hq1 as (n1 & Hn1 & Hd1). destruct Hq2 as (n2 & Hn2 & Hd2).
      destruct Hq3 as (n3 & Hn3 & Hd3).
      exists (n1 ++ n2 ++ [("__db_map", false)] ++ n3). split.
      * rewrite Hn3. simpl. rewrite Hn2, Hn1. by rewrite <- !app_assoc.
      * rewrite !db_map_calls_app, Hd1, Hd2, Hd3. reflexivity.
    + rewrite (bind_raise _ _ _ _ _ Htm). simpl.
      assert (quiet sa st2) as (n2 & Hn2 & Hd2).
      { eapply keeps_run; [|exact Htm]. quiet_steps. }
      destruct Hq1 as (n1 & Hn1 & Hd1).
      exists (n1 ++ n2). split.
      * by rewrite Hn2, Hn1, <- app_assoc.
      * by rewrite db_map_calls_app, Hd1, Hd2.
  - rewrite !(bind_raise _ _ _ _ _ Hstart). simpl.
    assert (quiet st1 sa) as (n1 & Hn1 & Hd1)
      by (eapply keeps_run; [apply keeps_logger_start | exact Hstart]).
    by exists n1.
Qed.

End forced_step.

(** C6, as the code has it: a fresh attempt calls the domain mapping at
    most once and never in skip mode, whatever steps the operator selected
    (the step is forced and the fresh record is empty); and it calls it
    exactly once as soon as the attempt gets that far, that is, when the
    setup succeeded and the [tm_cleanup] step ahead of it returned. *)
Theorem db_map_runs_once `{External} (b : _MMTEngineBuilder.t) (st : state) :
  exists new,
    calls (snd (_MMTEngineBuilder._build b false st)) = calls st ++ new
    /\ (db_map_calls new = [] \/ db_map_calls new = [("__db_map", false)])
    /\ forall logger bilingual_corpora monolingual_corpora st1 cleaned st2,
         _MMTEngineBuilder._build_setup b false st
         = (Return (logger, bilingual_corpora, monolingual_corpora), st1) ->
         (_builder_logger.start
            (MMTEngine.name (_MMTEngineBuilder._engine b))
            (MMTEngine.source_lang (_MMTEngineBuilder._engine b))
            (MMTEngine.target_lang (_MMTEngineBuilder._engine b))
            bilingual_corpora monolingual_corpora ;;
          _MMTEngineBuilder._run_step b "tm_cleanup"
            (_MMTEngineBuilder._step_tm_cleanup b)
            [corpora bilingual_corpora] (Some logger) false) st1
         = (Return cleaned, st2) ->
         db_map_calls new = [("__db_map", false)].
Proof.
  destruct (_MMTEngineBuilder._build_setup b false st)
    as [[[[logger bi] mono]|e] st1] eqn:Hsetup.
  - destruct (build_setup_inv (R:=same_calls) _ _ _ _ _ Hsetup)
      as (st0 & Hw & Hcalls01 & _).
    destruct (build_setup_inv (R:=same_manager) _ _ _ _ _ Hsetup)
      as (st0' & Hw' & Hman & _).
    rewrite Hw in Hw'. injection Hw' as <-.
    assert (calls st0 = calls st) as Hcalls0.
    { eapply (keeps_run same_calls); [|exact Hw].
      apply keeps_build_workspace. by intros. }
    destruct (build_workspace_fresh _ _ _ _ Hw) as [p Hfresh].
    assert (record_without "__db_map" st1) as Hrec.
    { exists (Manager p []). split; [by rewrite Hman|]. apply not_elem_of_nil. }
    destruct (run_all_steps_calls b logger bi mono st1 Hrec) as (new & Hnew & Hdb).
    destruct (_MMTEngineBuilder._run_all_steps b logger bi mono st1)
      as [r st2] eqn:Hrun.
    destruct (build_outcome _ _ _ _ _ _ _ _ _ Hsetup Hrun) as (l & _ & ->).
    exists new. simpl in *. split.
    { rewrite <- Hcalls0, <- Hcalls01, <- Hnew.
      destruct r; [destruct (_MMTEngineBuilder._debug b)|]; done. }
    split.
    + destruct (fst _); eauto.
    + intros logger' bi' mono' st1' cleaned st2' Heq Hpast.
      destruct logger, logger'. simplify_eq. by rewrite Hpast in Hdb.
  - exists []. split_and!; [|by left|done].
    rewrite app_nil_r.
    unfold _MMTEngineBuilder._build. rewrite (bind_raise _ _ _ _ _ Hsetup). simpl.
    eapply (keeps_run same_calls); [|exact Hsetup].
    apply keeps_build_setup. by intros.
Qed.

Lemma db_map_runs_once_witness :
  exists new,
    calls (snd (@_MMTEngineBuilder._build Demo.env Demo.preprocess_only false Demo.start))
    = calls Demo.start ++ new
    /\ db_map_calls new = [("__db_map", false)].
Proof.
  destruct (@db_map_runs_once Demo.env Demo.preprocess_only Demo.start)
    as (new & Hnew & _ & Honce).
  exists new. split; [exact Hnew|].
  apply (Honce TheLogger Demo.bilingual_corpora [] _
           (VList [corpora Demo.bilingual_corpora]) _
           (run_eq _ _ _ ltac:(vm_compute; reflexivity))
           (run_eq _ _ _ ltac:(vm_compute; reflexivity))).
Defined.

(** C6 as stated fails: a fresh attempt whose cleaner fails never gets to
    the domain mapping; the step is executed zero times. *)
Lemma db_map_not_run_counterexample :
  fst (@_MMTEngineBuilder.build Demo.failing_cleaner Demo.all_steps Demo.start)
  = Raise (ExternalError "cleaner")
  /\ calls (snd (@_MMTEngineBuilder.build Demo.failing_cleaner Demo.all_steps
                   Demo.start))
     = [("tm_cleanup", false)]
  /\ db_map_calls
       (calls (snd (@_MMTEngineBuilder.build Demo.failing_cleaner Demo.all_steps
                      Demo.start)))
     = [].
Proof. vm_compute. done. Qed.

(** ** The engine's directory *)

Lemma untouched_under_refl p f : untouched_under p f f.
Proof. by intros q _. Qed.

Lemma untouched_under_trans p f1 f2 f3 :
  untouched_under p f1 f2 -> untouched_under p f2 f3 -> untouched_under p f1 f3.
Proof. intros H12 H23 q Hq. by rewrite H23, H12. Qed.

Lemma chain_prefix p x : x ∈ os.chain p -> x `prefix_of` p.
Proof.
  unfold os.chain. intros (n & -> & _)%list_elem_of_fmap. apply prefix_take.
Qed.

Lemma lookup_foldr_insert_notin (l : list path) (f : filesystem) q :
  q ∉ l -> foldr (fun p m => <[p := Dir]> m) f l !! q = f !! q.
Proof.
  induction l as [|p l IH]; [done|]. intros [Hne Hnot]%not_elem_of_cons.
  simpl. rewrite lookup_insert_ne by done. by apply IH.
Qed.

Lemma makedirs_under P f p f' :
  os.makedirs f p = Return f' -> ~ P `prefix_of` p -> untouched_under P f f'.
Proof.
  unfold os.makedirs. destruct (os.lookup f p); [done|].
  destruct (forallb _ _); [|done]. intros [= <-] Hnot q Hq.
  apply lookup_foldr_insert_notin. intros Hin%chain_prefix.
  apply Hnot. by etrans.
Qed.

Lemma fileutils_makedirs_under P f p exist_ok f' :
  fileutils.makedirs f p exist_ok = Return f' -> ~ P `prefix_of` p ->
  untouched_under P f f'.
Proof.
  unfold fileutils.makedirs. destruct (_ && _).
  - intros [= <-] _. apply untouched_under_refl.
  - apply makedirs_under.
Qed.

Lemma rmtree_apart P f p : apart P p -> untouched_under P f (shutil.rmtree f p).
Proof.
  intros [Hnot1 Hnot2] q Hq. unfold shutil.rmtree.
  destruct (os.isdir f p); [|done].
  assert (~ p `prefix_of` q) as Hpq.
  { intros Hp. destruct (prefix_weak_total _ _ _ Hq Hp); done. }
  destruct (f !! q) as [x|] eqn:Hfq.
  - by apply map_lookup_filter_Some.
  - apply map_lookup_filter_None. by left.
Qed.

Lemma write_under P f p data f' :
  os.write f p data = Return f' -> ~ P `prefix_of` p -> untouched_under P f f'.
Proof.
  intros ->%write_Return Hnot q Hq. apply lookup_insert_ne. by intros ->.
Qed.

Lemma prefix_snoc_inv (l k : path) x :
  l `prefix_of` k ++ [x] -> l `prefix_of` k \/ l = k ++ [x].
Proof.
  intros [t Ht]. destruct t as [|y t _] using rev_ind.
  - right. by rewrite app_nil_r in Ht.
  - left. rewrite app_assoc in Ht. apply app_inj_tail in Ht as [-> _].
    by apply prefix_app_r.
Qed.

Lemma apart_join P p x : apart P p -> ~ P `prefix_of` join p x.
Proof.
  intros [Hnot1 Hnot2] [Hp | ->]%prefix_snoc_inv; [done|].
  apply Hnot2. by apply prefix_app_r.
Qed.

Section engine_directory.
Context `{External}.

Lemma get_tempdir_Return P e name ensure st d st' :
  MMTEngine.get_tempdir e name ensure st = (Return d, st') ->
  apart P (join (MMTEngine._temp_path e) name) ->
  d = join (MMTEngine._temp_path e) name
  /\ untouched_under P (fs st) (fs st').
Proof.
  unfold MMTEngine.get_tempdir. intros Hg Hapart.
  assert (~ P `prefix_of` MMTEngine._temp_path e) as Htemp.
  { intros Hp. apply (proj1 Hapart). by apply prefix_app_r. }
  apply bind_Return_inv in Hg as (u & sa & Ha & Hg).
  apply bind_Return_inv in Hg as (u' & sb & Hb & Hg).
  unfold ret in Hg. injection Hg as <- <-. split; [done|].
  apply (untouched_under_trans _ _ (fs sa)).
  - apply bind_Return_inv in Ha as (is_dir & s0 & Hr & Ha).
    unfold read_fs in Hr. injection Hr as _ <-.
    destruct (ensure && negb is_dir).
    + apply on_fs_Return in Ha as (f' & Hmk & ->).
      by eapply fileutils_makedirs_under.
    + unfold ret in Ha. injection Ha as _ <-. apply untouched_under_refl.
  - destruct ensure.
    + apply bind_Return_inv in Hb as (u1 & s1 & Hrm & Hb).
      apply on_fs_Return in Hrm as (f1 & [= <-] & ->).
      apply on_fs_Return in Hb as (f2 & Hmk & ->). simpl.
      apply (untouched_under_trans _ _ (shutil.rmtree (fs sa)
                                          (join (MMTEngine._temp_path e) name)));
        [by apply rmtree_apart|].
      eapply makedirs_under; [exact Hmk | apply Hapart].
    + unfold ret in Hb. injection Hb as _ <-. apply untouched_under_refl.
Qed.

Lemma build_workspace_under b resume st u st1 :
  apart (MMTEngine.path (_MMTEngineBuilder._engine b))
        (join (MMTEngine._temp_path (_MMTEngineBuilder._engine b)) "training") ->
  _MMTEngineBuilder._build_workspace b resume st = (Return u, st1) ->
  untouched_under (MMTEngine.path (_MMTEngineBuilder._engine b)) (fs st) (fs st1).
Proof.
  intros Hapart Hw. unfold _MMTEngineBuilder._build_workspace in Hw.
  apply bind_Return_inv in Hw as (d & sa & Hd & Hw).
  eapply get_tempdir_Return in Hd as [-> Hsa]; [|exact Hapart].
  apply bind_Return_inv in Hw as (u1 & sb & Hmod & Hw).
  unfold modify in Hmod. injection Hmod as _ <-.
  unfold _MMTEngineBuilder._init_checkpoint_manager in Hw.
  apply bind_Return_inv in Hw as (d & sc & Hd & Hw).
  unfold _MMTEngineBuilder.temp_dir in Hd. simpl in Hd. injection Hd as <- <-.
  apply bind_Return_inv in Hw as (m & sd & Hm & Hw).
  unfold modify in Hw. injection Hw as _ <-. simpl.
  apply (untouched_under_trans _ _ (fs sa)); [exact Hsa|].
  destruct resume.
  - pose proof (load_from_file_state
                  (join (join (MMTEngine._temp_path (_MMTEngineBuilder._engine b))
                              "training") "checkpoint.json")
                  (set_temp_dir
                     (Some (join (MMTEngine._temp_path (_MMTEngineBuilder._engine b))
                                 "training")) sa)) as Hst.
    rewrite Hm in Hst. simpl in Hst. subst sd. apply untouched_under_refl.
  - unfold _CheckpointManager.create_for_engine in Hm.
    apply bind_Return_inv in Hm as (u2 & se & Hsave & Hm).
    unfold ret in Hm. injection Hm as _ <-.
    unfold _CheckpointManager.save in Hsave.
    apply on_fs_Return in Hsave as (f' & Hwrite & ->). simpl in *.
    eapply write_under; [exact Hwrite|]. by apply apart_join.
Qed.

(** C4: an attempt, fresh or resumed, that gets to resolve its corpora
    and finds no bilingual one fails there with
    [IllegalArgumentException], in the state the workspace preparation
    left; and with the engine's directory and the training workspace lying
    apart, nothing at or below the engine's path has changed since the
    attempt began: the directory was neither wiped nor made. *)
Theorem build_without_bilingual_data (b : _MMTEngineBuilder.t) (resume : bool)
  (st st1 : state) (monolingual_corpora : list corpus) :
  apart (MMTEngine.path (_MMTEngineBuilder._engine b))
        (join (MMTEngine._temp_path (_MMTEngineBuilder._engine b)) "training") ->
  _MMTEngineBuilder._build_workspace b resume st = (Return tt, st1) ->
  splitlist (MMTEngine.source_lang (_MMTEngineBuilder._engine b))
            (MMTEngine.target_lang (_MMTEngineBuilder._engine b))
            (_MMTEngineBuilder._roots b) (fs st1)
  = Return ([], monolingual_corpora) ->
  (exists msg,
     _MMTEngineBuilder._build b resume st = (Raise (IllegalArgumentException msg), st1))
  /\ untouched_under (MMTEngine.path (_MMTEngineBuilder._engine b)) (fs st)
       (fs (snd (_MMTEngineBuilder._build b resume st))).
Proof.
  intros Hapart Hw Hsplit.
  assert (exists msg,
            _MMTEngineBuilder._build b resume st
            = (Raise (IllegalArgumentException msg), st1)) as [msg Hbuild].
  { eexists. unfold _MMTEngineBuilder._build.
    apply bind_raise. unfold _MMTEngineBuilder._build_setup.
    rewrite (bind_return _ _ _ _ _ Hw).
    assert (read_fs (splitlist (MMTEngine.source_lang (_MMTEngineBuilder._engine b))
                       (MMTEngine.target_lang (_MMTEngineBuilder._engine b))
                       (_MMTEngineBuilder._roots b)) st1
            = (Return ([], monolingual_corpora), st1)) as Hfound
      by (unfold read_fs; by rewrite Hsplit).
    rewrite (bind_return _ _ _ _ _ Hfound). simpl.
    apply bind_raise. reflexivity. }
  split; [eauto|]. rewrite Hbuild. simpl.
  by eapply build_workspace_under.
Qed.

End engine_directory.

Lemma build_without_bilingual_data_witness :
  (exists msg,
     @_MMTEngineBuilder._build Demo.env Demo.no_data false Demo.start
     = (Raise (IllegalArgumentException msg),
        snd (@_MMTEngineBuilder._build_workspace Demo.env Demo.no_data false
               Demo.start)))
  /\ untouched_under ["engines"; "demo"] (fs Demo.start)
       (fs (snd (@_MMTEngineBuilder._build Demo.env Demo.no_data false Demo.start))).
Proof.
  apply (@build_without_bilingual_data Demo.env Demo.no_data false Demo.start _ []).
  - split; intros [k Hk]; vm_compute in Hk; discriminate.
  - apply run_eq. vm_compute. reflexivity.
  - vm_compute. reflexivity.
Defined.
(** * Further properties of the code *)

(** ** The checkpoint manager: a fresh record *)

(** X1.  A checkpoint store made for a fresh attempt holds no step: the file it
    writes is the empty list, every step is still to be run, and a resume
    that loads the file gets that same empty record. *)
Theorem create_for_engine_starts_empty (file_path : path) (st : state)
  (m : manager) (st' : state) :
  _CheckpointManager.create_for_engine file_path st = (Return m, st') ->
  m = Manager file_path []
  /\ fs st' !! file_path = Some (File "[]")
  /\ (forall step, _CheckpointManager.to_be_run m step = true)
  /\ _CheckpointManager.load_from_file file_path st' = (Return m, st').
Proof.
  unfold _CheckpointManager.create_for_engine. intros Hc.
  apply bind_Return_inv in Hc as ([] & st1 & Hsave & Hret).
  unfold ret in Hret. injection Hret as <- <-.
  split; [done|].
  pose proof (resume_reads_saved_record _ _ _ Hsave) as Hload.
  unfold _CheckpointManager.save in Hsave.
  apply on_fs_Return in Hsave as (f' & Hwrite & ->).
  apply write_Return in Hwrite as ->. simpl in *.
  split; [by rewrite lookup_insert_eq|]. split; [|done].
  intros step. unfold _CheckpointManager.to_be_run.
  apply negb_true_iff, bool_decide_eq_false_2, not_elem_of_nil.
Qed.

Lemma create_for_engine_starts_empty_witness :
  fs (snd (_CheckpointManager.create_for_engine ["data"; "checkpoint.json"] Demo.start))
  !! ["data"; "checkpoint.json"] = Some (File "[]").
Proof.
  apply (create_for_engine_starts_empty ["data"; "checkpoint.json"] Demo.start
           (Manager ["data"; "checkpoint.json"] []) _
           (run_eq _ _ _ ltac:(vm_compute; reflexivity))).
Defined.

Lemma foldl_completed_steps (m : manager) (done : list string) :
  _passed_steps (foldl _CheckpointManager.completed m done) = _passed_steps m ++ done
  /\ _file_path (foldl _CheckpointManager.completed m done) = _file_path m.
Proof.
  revert m. induction done as [|s done IH]; intros m; simpl.
  - by rewrite app_nil_r.
  - destruct (IH (_CheckpointManager.completed m s)) as [-> ->]. simpl.
    by rewrite <- app_assoc.
Qed.

(** X2.  Marking steps and asking: after any sequence of [completed], a step is
    still to be run exactly when it was before and is not among the steps
    marked.  Marking never turns a step back on and never touches another
    step's answer. *)
Theorem to_be_run_after_completed (m : manager) (done : list string) (step : string) :
  _CheckpointManager.to_be_run (foldl _CheckpointManager.completed m done) step
  = _CheckpointManager.to_be_run m step && bool_decide (step ∉ done).
Proof.
  unfold _CheckpointManager.to_be_run.
  destruct (foldl_completed_steps m done) as [-> _].
  repeat case_bool_decide; simpl; try done;
    exfalso; rewrite ?elem_of_app in *; tauto.
Qed.

(** ** The builder's constructor *)

Lemma subset_known (steps : list string) :
  list_to_set steps ⊆@{gset string} dom MMTEngine.training_steps ->
  filter (fun step => ~ is_Some (MMTEngine.training_steps !! step)) steps = [].
Proof.
  intros Hsub. induction steps as [|s steps IH]; [done|].
  rewrite filter_cons_False.
  - apply IH. intros x Hx. apply Hsub. set_solver.
  - intros Hno. apply Hno. apply elem_of_dom. apply Hsub. set_solver.
Qed.

(** X3.  The constructor accepts every list of known steps and keeps it as it
    was given, order and repeats included: the builder selects exactly the
    steps of the list, and counts the list's length.  Given no list, it
    selects the engine's six steps.  In both cases the two fields the
    build assigns later are cleared and nothing else changes. *)
Theorem init_accepts_known_steps (engine : MMTEngine.t) (roots : list path)
  (debug : bool) (steps : list string) (split_trainingset : bool) (st : state) :
  list_to_set steps ⊆@{gset string} dom MMTEngine.training_steps ->
  let b := _MMTEngineBuilder.Make engine roots debug
             (_MMTEngineBuilder.StepsList steps) split_trainingset in
  let b0 := _MMTEngineBuilder.Make engine roots debug
              (_MMTEngineBuilder.StepsDict MMTEngine.training_steps)
              split_trainingset in
  _MMTEngineBuilder.__init__ engine roots debug (Some steps) split_trainingset st
  = (Return b, set_checkpoint_manager None (set_temp_dir None st))
  /\ (forall s, _MMTEngineBuilder.contains (_MMTEngineBuilder._steps b) s
                = bool_decide (s ∈ steps))
  /\ _MMTEngineBuilder.len (_MMTEngineBuilder._steps b) = length steps
  /\ _MMTEngineBuilder.__init__ engine roots debug None split_trainingset st
     = (Return b0, set_checkpoint_manager None (set_temp_dir None st))
  /\ (forall s, _MMTEngineBuilder.contains (_MMTEngineBuilder._steps b0) s
                = bool_decide (s ∈ ["tm_cleanup"; "preprocess"; "context_analyzer";
                                    "aligner"; "tm"; "lm"]))
  /\ _MMTEngineBuilder.len (_MMTEngineBuilder._steps b0) = 6.
Proof.
  intros Hsub b b0. split_and!; try done.
  - unfold _MMTEngineBuilder.__init__, bind.
    rewrite (subset_known _ Hsub). reflexivity.
  - intros s. simpl.
    destruct (decide (s ∈ ["tm_cleanup"; "preprocess"; "context_analyzer";
                           "aligner"; "tm"; "lm"])) as [Hin|Hin].
    + rewrite (bool_decide_eq_true_2 _ Hin).
      rewrite !elem_of_cons, elem_of_nil in Hin.
      destruct Hin as [->|[->|[->|[->|[->|[->|[]]]]]]]; vm_compute; reflexivity.
    + rewrite (bool_decide_eq_false_2 _ Hin).
      apply bool_decide_eq_false_2. intros [d Hd].
      apply Hin. apply elem_of_list_to_map_2 in Hd.
      rewrite !elem_of_cons, elem_of_nil in Hd.
      rewrite !elem_of_cons, elem_of_nil.
      destruct Hd as [Hd|[Hd|[Hd|[Hd|[Hd|[Hd|[]]]]]]]; injection Hd as -> _; auto 10.
Qed.

Lemma init_accepts_known_steps_witness :
  _MMTEngineBuilder.__init__ Demo.engine [["data"; "corpora"]] false
    (Some ["tm"; "preprocess"; "tm"]) true Demo.start
  = (Return (_MMTEngineBuilder.Make Demo.engine [["data"; "corpora"]] false
               (_MMTEngineBuilder.StepsList ["tm"; "preprocess"; "tm"]) true),
     set_checkpoint_manager None (set_temp_dir None Demo.start)).
Proof.
  apply (init_accepts_known_steps Demo.engine [["data"; "corpora"]] false
           ["tm"; "preprocess"; "tm"] true Demo.start).
  intros s Hs. apply elem_of_list_to_set in Hs. apply elem_of_dom.
  rewrite !elem_of_cons, elem_of_nil in Hs.
  destruct Hs as [->|[->|[->|[]]]]; vm_compute; eauto.
Defined.

(** ** The step runner: a step that fails *)

(** X4.  The logger's [__exit__] does not look at the exception it is given.
    When the function of a logged step raises, the runner still writes the
    step's "completed" record to the log and prints its "DONE" line, and
    then lets the exception pass; it marks nothing, so the manager and the
    tree are as the failed step left them. *)
Theorem failed_step_is_logged_as_completed (b : _MMTEngineBuilder.t)
  (step_name : string) (step_function : _MMTEngineBuilder.step_function)
  (values : list value) (lg : logger_ref) (forced : bool) (st : state)
  (m : manager) (l : builder_logger) (e : exn) (st1 : state) (l1 : builder_logger) :
  _checkpoint_manager st = Some m ->
  forced = true
  \/ _MMTEngineBuilder.contains (_MMTEngineBuilder._steps b) step_name = true ->
  logger_obj st = Some l ->
  step_function values (negb (_CheckpointManager.to_be_run m step_name)) (Some lg)
    (set_calls (calls st ++ [(step_name, negb (_CheckpointManager.to_be_run m step_name))])
       (snd ((_builder_logger.step (MMTEngine.training_steps !! step_name) ;;
              _builder_logger.__enter__) st)))
  = (Raise e, st1) ->
  logger_obj st1 = Some l1 ->
  fst (_MMTEngineBuilder._run_step b step_name step_function values (Some lg) forced st)
  = Raise e
  /\ training_log
       (snd (_MMTEngineBuilder._run_step b step_name step_function values
               (Some lg) forced st))
     = training_log st1 ++ [LogStepCompleted (_current_step_name l1)]
  /\ stdout
       (snd (_MMTEngineBuilder._run_step b step_name step_function values
               (Some lg) forced st))
     = stdout st1 ++ [OutStepDone]
  /\ _checkpoint_manager
       (snd (_MMTEngineBuilder._run_step b step_name step_function values
               (Some lg) forced st))
     = _checkpoint_manager st1
  /\ fs (snd (_MMTEngineBuilder._run_step b step_name step_function values
                (Some lg) forced st))
     = fs st1.
Proof.
  intros Hm Hsel Hl Hf Hl1.
  assert (negb forced
          && negb (_MMTEngineBuilder.contains (_MMTEngineBuilder._steps b) step_name)
          = false) as Hcond.
  { destruct Hsel as [-> | ->]; [done | by rewrite andb_false_r]. }
  set (skip := negb (_CheckpointManager.to_be_run m step_name)) in *.
  set (description := MMTEngine.training_steps !! step_name) in *.
  assert (_builder_logger.with_step description
            (_MMTEngineBuilder.call step_name step_function values skip (Some lg)) st
          = (Raise e,
             set_stdout (stdout st1 ++ [OutStepDone])
               (set_training_log
                  (training_log st1 ++ [LogStepCompleted (_current_step_name l1)]) st1)))
    as Hwith.
  { revert Hf.
    unfold _builder_logger.with_step, with_, _MMTEngineBuilder.call,
      _builder_logger.step, _builder_logger.__enter__, _builder_logger.__exit__,
      _builder_logger.update, _builder_logger.the_logger, _builder_logger.log,
      print, modify, bind.
    rewrite Hl. simpl. intros ->. rewrite Hl1. reflexivity. }
  assert (_MMTEngineBuilder._run_step b step_name step_function values (Some lg)
            forced st
          = (Raise e,
             set_stdout (stdout st1 ++ [OutStepDone])
               (set_training_log
                  (training_log st1 ++ [LogStepCompleted (_current_step_name l1)]) st1)))
    as ->.
  { unfold _MMTEngineBuilder._run_step. rewrite Hcond.
    unfold _MMTEngineBuilder.checkpoint_manager, bind at 1. rewrite Hm.
    fold skip description. by rewrite (bind_raise _ _ _ _ _ Hwith). }
  done.
Qed.

Lemma failed_step_is_logged_as_completed_witness :
  fst (_MMTEngineBuilder._run_step Demo.all_steps "tm_cleanup"
         (@_MMTEngineBuilder._step_tm_cleanup Demo.failing_cleaner Demo.all_steps)
         [corpora Demo.bilingual_corpora] (Some TheLogger) false Demo.failing_ready)
  = Raise (ExternalError "cleaner")
  /\ training_log
       (snd (_MMTEngineBuilder._run_step Demo.all_steps "tm_cleanup"
               (@_MMTEngineBuilder._step_tm_cleanup Demo.failing_cleaner Demo.all_steps)
               [corpora Demo.bilingual_corpora] (Some TheLogger) false
               Demo.failing_ready))
     = [LogStepStarted (Some "TMs clean-up") 1 7;
        LogStepCompleted (Some "TMs clean-up")].
Proof.
  destruct (failed_step_is_logged_as_completed Demo.all_steps "tm_cleanup"
              (@_MMTEngineBuilder._step_tm_cleanup Demo.failing_cleaner Demo.all_steps)
              [corpora Demo.bilingual_corpora] TheLogger false Demo.failing_ready
              (Manager Demo.checkpoint_file []) (BuilderLogger 7 0 None None false)
              (ExternalError "cleaner") _
              (BuilderLogger 7 1 (Some "TMs clean-up") None false)
              ltac:(vm_compute; reflexivity) (or_intror eq_refl)
              ltac:(vm_compute; reflexivity)
              (run_eq _ _ _ ltac:(vm_compute; reflexivity))
              ltac:(vm_compute; reflexivity))
    as (Hr & Hlog & _).
  split; [exact Hr|]. rewrite Hlog. vm_compute. reflexivity.
Defined.

(** ** The step runner: what a run notes and marks *)

(** The runner on a step that is forced or selected. *)
Lemma run_step_selected (b : _MMTEngineBuilder.t) (step_name : string)
  (step_function : _MMTEngineBuilder.step_function) (values : list value)
  (logger : option logger_ref) (forced : bool) (st : state) (m : manager) :
  _checkpoint_manager st = Some m ->
  forced = true
  \/ _MMTEngineBuilder.contains (_MMTEngineBuilder._steps b) step_name = true ->
  _MMTEngineBuilder._run_step b step_name step_function values logger forced st
  = bind
      match logger with
      | None =>
          _MMTEngineBuilder.call step_name step_function values
            (negb (_CheckpointManager.to_be_run m step_name)) logger
      | Some _ =>
          _builder_logger.with_step (MMTEngine.training_steps !! step_name)
            (_MMTEngineBuilder.call step_name step_function values
               (negb (_CheckpointManager.to_be_run m step_name)) logger)
      end
      (fun result =>
         (if negb (negb (_CheckpointManager.to_be_run m step_name))
          then _MMTEngineBuilder.mark_completed step_name else ret tt) ;;
         ret result) st.
Proof.
  intros Hm Hsel.
  assert (negb forced
          && negb (_MMTEngineBuilder.contains (_MMTEngineBuilder._steps b) step_name)
          = false) as Hcond.
  { destruct Hsel as [-> | ->]; [done | by rewrite andb_false_r]. }
  unfold _MMTEngineBuilder._run_step. rewrite Hcond.
  unfold _MMTEngineBuilder.checkpoint_manager, bind at 1. by rewrite Hm.
Qed.

Lemma call_effect (step_name : string)
  (step_function : _MMTEngineBuilder.step_function) (values : list value)
  (skip : bool) (logger : option logger_ref) (st : state) :
  keeps same_calls (step_function values skip logger) ->
  keeps same_manager (step_function values skip logger) ->
  calls (snd (_MMTEngineBuilder.call step_name step_function values skip logger st))
  = calls st ++ [(step_name, skip)]
  /\ _checkpoint_manager
       (snd (_MMTEngineBuilder.call step_name step_function values skip logger st))
     = _checkpoint_manager st.
Proof.
  intros Hc Hk. unfold _MMTEngineBuilder.call, bind, modify.
  specialize (Hc (set_calls (calls st ++ [(step_name, skip)]) st)).
  specialize (Hk (set_calls (calls st ++ [(step_name, skip)]) st)).
  by destruct (step_function _ _ _ _) as [[v|e] st1].
Qed.

(** A logged step: either the logger is missing and the body is not run,
    or the body is run once, from a state with the same calls and manager,
    and what it leaves is kept up to the log and the output. *)
Lemma with_step_effect {A} (description : option string) (body : M A) (st : state) :
  (is_return (fst (_builder_logger.with_step description body st)) = false
   /\ calls (snd (_builder_logger.with_step description body st)) = calls st
   /\ _checkpoint_manager (snd (_builder_logger.with_step description body st))
      = _checkpoint_manager st)
  \/ exists sa,
       calls sa = calls st /\ _checkpoint_manager sa = _checkpoint_manager st
       /\ calls (snd (_builder_logger.with_step description body st))
          = calls (snd (body sa))
       /\ _checkpoint_manager (snd (_builder_logger.with_step description body st))
          = _checkpoint_manager (snd (body sa))
       /\ (fst (_builder_logger.with_step description body st) = fst (body sa)
           \/ is_return (fst (_builder_logger.with_step description body st)) = false).
Proof.
  unfold _builder_logger.with_step, with_,
    _builder_logger.step, _builder_logger.__enter__, _builder_logger.__exit__,
    _builder_logger.update, _builder_logger.the_logger, _builder_logger.log,
    print, modify, bind.
  destruct (logger_obj st) as [l|] eqn:Hl; simpl; [|by left].
  right.
  match goal with |- context [body ?s] => exists s end.
  split; [done|]. split; [done|].
  destruct (body _) as [r sb]. simpl.
  destruct (logger_obj sb) as [l1|]; simpl; split_and!; try done; auto.
Qed.

Lemma mark_completed_effect (step_name : string) (st : state) (m : manager) :
  _checkpoint_manager st = Some m ->
  calls (snd (_MMTEngineBuilder.mark_completed step_name st)) = calls st
  /\ _checkpoint_manager (snd (_MMTEngineBuilder.mark_completed step_name st))
     = Some (_CheckpointManager.completed m step_name).
Proof.
  intros Hm.
  unfold _MMTEngineBuilder.mark_completed, _MMTEngineBuilder.checkpoint_manager,
    _CheckpointManager.save, on_fs, modify, bind.
  rewrite Hm. simpl. by destruct (os.write _ _ _).
Qed.

(** The runner on a step that is forced or selected: it notes one call of
    the step function, with [skip] on exactly when the record holds the
    step, and it marks the step when the function returned and [skip] was
    off. *)
Lemma run_step_outcomes (b : _MMTEngineBuilder.t) (step_name : string)
  (step_function : _MMTEngineBuilder.step_function) (values : list value)
  (logger : option logger_ref) (forced : bool) (st : state) (m : manager) :
  _checkpoint_manager st = Some m ->
  forced = true
  \/ _MMTEngineBuilder.contains (_MMTEngineBuilder._steps b) step_name = true ->
  (forall skip, keeps same_calls (step_function values skip logger)) ->
  (forall skip, keeps same_manager (step_function values skip logger)) ->
  match fst (_MMTEngineBuilder._run_step b step_name step_function values logger
               forced st) with
  | Return _ =>
      calls (snd (_MMTEngineBuilder._run_step b step_name step_function values
                    logger forced st))
      = calls st ++ [(step_name, negb (_CheckpointManager.to_be_run m step_name))]
      /\ _checkpoint_manager
           (snd (_MMTEngineBuilder._run_step b step_name step_function values
                   logger forced st))
         = Some (if _CheckpointManager.to_be_run m step_name
                 then _CheckpointManager.completed m step_name else m)
  | Raise _ =>
      (calls (snd (_MMTEngineBuilder._run_step b step_name step_function values
                     logger forced st))
       = calls st
       /\ _checkpoint_manager
            (snd (_MMTEngineBuilder._run_step b step_name step_function values
                    logger forced st))
          = Some m)
      \/ (calls (snd (_MMTEngineBuilder._run_step b step_name step_function values
                        logger forced st))
          = calls st ++ [(step_name, negb (_CheckpointManager.to_be_run m step_name))]
          /\ (_checkpoint_manager
                (snd (_MMTEngineBuilder._run_step b step_name step_function values
                        logger forced st))
              = Some m
              \/ (_CheckpointManager.to_be_run m step_name = true
                  /\ _checkpoint_manager
                       (snd (_MMTEngineBuilder._run_step b step_name step_function
                               values logger forced st))
                     = Some (_CheckpointManager.completed m step_name))))
  end.
Proof.
  intros Hm Hsel Hcalls Hman.
  rewrite (run_step_selected _ _ _ _ _ _ _ _ Hm Hsel).
  set (skip := negb (_CheckpointManager.to_be_run m step_name)).
  set (body := _MMTEngineBuilder.call step_name step_function values skip logger).
  set (first := match logger with
                | None => body
                | Some _ => _builder_logger.with_step
                              (MMTEngine.training_steps !! step_name) body
                end).
  assert ((is_return (fst (first st)) = false
           /\ calls (snd (first st)) = calls st
           /\ _checkpoint_manager (snd (first st)) = Some m)
          \/ (calls (snd (first st)) = calls st ++ [(step_name, skip)]
              /\ _checkpoint_manager (snd (first st)) = Some m)) as Hfirst.
  { subst first. destruct logger as [lg|].
    - destruct (with_step_effect (MMTEngine.training_steps !! step_name) body st)
        as [(Hr & Hc & Hk) | (sa & Hca & Hka & Hc & Hk & _)].
      + left. by rewrite Hc, Hk.
      + right. rewrite Hc, Hk. subst body.
        destruct (call_effect step_name step_function values skip (Some lg) sa
                    (Hcalls skip) (Hman skip)) as [-> ->].
        by rewrite Hca, Hka.
    - right. subst body.
      destruct (call_effect step_name step_function values skip None st
                  (Hcalls skip) (Hman skip)) as [-> ->].
      done. }
  unfold bind. destruct (first st) as [[v|e] st1]; simpl in *.
  - destruct Hfirst as [(? & _) | (Hc & Hk)]; [done|].
    subst skip. destruct (_CheckpointManager.to_be_run m step_name) eqn:Hrun; simpl.
    + destruct (mark_completed_effect step_name st1 m Hk) as [Hc' Hk'].
      destruct (_MMTEngineBuilder.mark_completed step_name st1) as [[u|e] st2];
        simpl in *.
      * by rewrite Hc', Hc, Hk'.
      * right. rewrite Hc', Hc, Hk'. auto.
    + unfold ret. simpl. done.
  - destruct Hfirst as [(_ & Hc & Hk) | (Hc & Hk)]; [left | right]; auto.
Qed.

(** ** The pipeline, step by step *)

Lemma triple_bind {A B} (P Q R E : state -> Prop) (c : M A) (k : A -> M B) :
  triple P c Q E -> (forall a, triple Q (k a) R E) -> triple P (bind c k) R E.
Proof.
  intros Hc Hk st HP. specialize (Hc st HP). unfold bind.
  destruct (c st) as [[a|e] st1]; [|done]. by apply Hk.
Qed.

Section pipeline_progress.
Context `{External} (b : _MMTEngineBuilder.t) (m0 : manager) (st0 : state).

Lemma stage_aborted n st : stage b m0 st0 n st -> aborted b m0 st0 st.
Proof.
  intros Hs. exists (take n pipeline), (take n pipeline).
  split; [done|]. split; [apply prefix_take | done].
Qed.

Lemma triple_keeps {A} (c : M A) n :
  keeps same_calls c -> keeps same_manager c ->
  triple (stage b m0 st0 n) c (stage b m0 st0 n) (aborted b m0 st0).
Proof.
  intros Hc Hk st [Hcalls Hman].
  specialize (Hc st). specialize (Hk st). unfold same_calls, same_manager in *.
  assert (stage b m0 st0 n (snd (c st))) as Hs.
  { split; [by rewrite Hc | by rewrite Hk]. }
  destruct (c st) as [[a|e] st1]; simpl in *; [done|]. by eapply stage_aborted.
Qed.

Lemma trace_snoc passed done s :
  trace b passed (done ++ [s])
  = trace b passed done
    ++ (if runs b s then [(s, bool_decide (s ∈ passed))] else []).
Proof.
  unfold trace. rewrite filter_app, fmap_app. f_equal.
  destruct (runs b s) eqn:Hr.
  - by rewrite filter_cons_True by done.
  - rewrite filter_cons_False; [done|]. by rewrite Hr.
Qed.

Lemma executed_snoc passed done s :
  executed b passed (done ++ [s])
  = executed b passed done
    ++ (if runs b s && negb (bool_decide (s ∈ passed)) then [s] else []).
Proof.
  unfold executed. rewrite filter_app. f_equal.
  destruct (runs b s) eqn:Hr; simpl.
  - case_bool_decide; simpl.
    + rewrite filter_cons_False; [done|]. by intros [_ ?].
    + by rewrite filter_cons_True by done.
  - rewrite filter_cons_False; [done|]. rewrite Hr. by intros [? _].
Qed.

Lemma executed_within passed done s : s ∈ executed b passed done -> s ∈ done.
Proof. unfold executed. by intros [_ ?]%list_elem_of_filter. Qed.

Lemma pipeline_NoDup : NoDup pipeline.
Proof. apply (bool_decide_eq_true_1 (NoDup pipeline)). vm_compute. reflexivity. Qed.

Lemma pipeline_fresh n s : pipeline !! n = Some s -> s ∉ take n pipeline.
Proof.
  intros Hn Hin. apply list_elem_of_lookup in Hin as [i Hi].
  pose proof (lookup_lt_Some _ _ _ Hi) as Hlt. rewrite length_take in Hlt.
  rewrite lookup_take_lt in Hi by lia.
  pose proof (NoDup_lookup _ _ _ _ pipeline_NoDup Hi Hn). lia.
Qed.

(** One step of the pipeline takes the attempt one stage on, or stops it. *)
Lemma triple_run_step n s (step_function : _MMTEngineBuilder.step_function)
  (values : list value) (logger : option logger_ref) (forced : bool) :
  pipeline !! n = Some s ->
  forced = bool_decide (s = "__db_map") ->
  (forall skip, keeps same_calls (step_function values skip logger)) ->
  (forall skip, keeps same_manager (step_function values skip logger)) ->
  triple (stage b m0 st0 n)
    (_MMTEngineBuilder._run_step b s step_function values logger forced)
    (stage b m0 st0 (S n)) (aborted b m0 st0).
Proof.
  intros Hn Hforced Hc Hk st Hst. pose proof Hst as [Hcalls Hman].
  pose proof (take_S_r _ _ _ Hn) as Htake.
  pose proof (pipeline_fresh _ _ Hn) as Hfresh.
  set (passed := _passed_steps m0) in *.
  set (m := Manager (_file_path m0) (passed ++ executed b passed (take n pipeline))) in *.
  assert (_CheckpointManager.to_be_run m s = negb (bool_decide (s ∈ passed))) as Hrun.
  { unfold _CheckpointManager.to_be_run. simpl. f_equal. apply bool_decide_ext.
    rewrite elem_of_app. split; [|by left].
    intros [?|Hin%executed_within]; done. }
  destruct (runs b s) eqn:Hruns.
  - assert (forced = true
            \/ _MMTEngineBuilder.contains (_MMTEngineBuilder._steps b) s = true) as Hsel.
    { unfold runs in Hruns. rewrite <- Hforced in Hruns.
      by apply orb_true_iff in Hruns. }
    pose proof (run_step_outcomes b s step_function values logger forced st m
                  Hman Hsel Hc Hk) as Hout.
    rewrite Hrun in Hout. rewrite negb_involutive in Hout.
    destruct (_MMTEngineBuilder._run_step b s step_function values logger forced st)
      as [[v|e] st1]; simpl in Hout.
    + destruct Hout as [Hc1 Hk1]. unfold stage, progress. rewrite Htake.
      rewrite trace_snoc, executed_snoc, Hruns. fold passed. split.
      * by rewrite Hc1, Hcalls, <- app_assoc.
      * rewrite Hk1. f_equal. simpl.
        destruct (bool_decide (s ∈ passed)); simpl; [by rewrite app_nil_r|].
        unfold _CheckpointManager.completed. simpl. by rewrite <- app_assoc.
    + assert (progress b m0 st0 (take (S n) pipeline) (take n pipeline) st1
              \/ progress b m0 st0 (take (S n) pipeline) (take (S n) pipeline) st1
              \/ progress b m0 st0 (take n pipeline) (take n pipeline) st1) as Hp.
      { destruct Hout as [[Hc1 Hk1] | [Hc1 [Hk1 | [Hto Hk1]]]].
        - right; right. split; [by rewrite Hc1 | by rewrite Hk1].
        - left. unfold progress. rewrite Htake, trace_snoc, Hruns. fold passed.
          split; [by rewrite Hc1, Hcalls, <- app_assoc | by rewrite Hk1].
        - right; left. unfold progress.
          rewrite Htake, trace_snoc, executed_snoc, Hruns. fold passed.
          apply negb_true_iff in Hto. rewrite Hto in Hc1 |- *. simpl.
          split; [by rewrite Hc1, Hcalls, <- app_assoc|].
          rewrite Hk1. unfold _CheckpointManager.completed. simpl.
          by rewrite <- app_assoc. }
      destruct Hp as [Hp | [Hp | Hp]].
      * exists (take (S n) pipeline), (take n pipeline).
        split; [|split; [apply prefix_take | done]].
        rewrite Htake. by apply prefix_app_r.
      * by eapply (stage_aborted (S n)).
      * by eapply (stage_aborted n).
  - assert (forced = false) as ->.
    { unfold runs in Hruns. apply orb_false_iff in Hruns as [Hf _]. by rewrite Hforced. }
    rewrite _run_step_passthrough.
    + unfold stage, progress. rewrite Htake, trace_snoc, executed_snoc, Hruns.
      simpl. by rewrite !app_nil_r.
    + unfold runs in Hruns. by apply orb_false_iff in Hruns as [_ ?].
Qed.

Lemma triple_run_all_steps logger bi mono :
  triple (stage b m0 st0 0)
    (_MMTEngineBuilder._run_all_steps b logger bi mono)
    (stage b m0 st0 7) (aborted b m0 st0).
Proof.
  unfold _MMTEngineBuilder._run_all_steps.
  repeat first
    [ eapply triple_bind;
      [ first
          [ apply triple_run_step;
            [ reflexivity | reflexivity
            | intros ?;
              first [ apply keeps_step_tm_cleanup | apply keeps_step_init
                    | apply keeps_step_preprocess | apply keeps_step_context_analyzer
                    | apply keeps_step_aligner | apply keeps_step_tm | apply keeps_step_lm ]
            | intros ?;
              first [ apply keeps_step_tm_cleanup | apply keeps_step_init
                    | apply keeps_step_preprocess | apply keeps_step_context_analyzer
                    | apply keeps_step_aligner | apply keeps_step_tm | apply keeps_step_lm ] ]
          | apply triple_keeps; frame_more ]
      | intros ? ]
    | apply triple_keeps; frame_more ].
Qed.

End pipeline_progress.

(** ** The build as a whole: which steps it runs, how, and what it marks *)

Lemma progress_same (b : _MMTEngineBuilder.t) m0 st0 called marked st st' :
  calls st' = calls st -> _checkpoint_manager st' = _checkpoint_manager st ->
  progress b m0 st0 called marked st -> progress b m0 st0 called marked st'.
Proof. intros Hc Hk [? ?]. split; congruence. Qed.

Lemma aborted_same (b : _MMTEngineBuilder.t) m0 st0 st st' :
  calls st' = calls st -> _checkpoint_manager st' = _checkpoint_manager st ->
  aborted b m0 st0 st -> aborted b m0 st0 st'.
Proof.
  intros Hc Hk (called & marked & ? & ? & Hp).
  exists called, marked. split_and!; [done..|]. by eapply progress_same.
Qed.

Lemma stage_start (b : _MMTEngineBuilder.t) m0 st0 st :
  calls st = calls st0 -> _checkpoint_manager st = Some m0 -> stage b m0 st0 0 st.
Proof.
  intros Hc Hk. split; simpl.
  - by rewrite app_nil_r.
  - rewrite Hk, app_nil_r. by destruct m0.
Qed.

Section build_progress.
Context `{External}.

(** The workspace comes with a manager; that of a fresh attempt has an
    empty record. *)
Lemma build_workspace_manager b resume st u st0 :
  _MMTEngineBuilder._build_workspace b resume st = (Return u, st0) ->
  exists m0, _checkpoint_manager st0 = Some m0
             /\ (resume = false -> _passed_steps m0 = []).
Proof.
  unfold _MMTEngineBuilder._build_workspace. intros Hw.
  do 2 (apply bind_Return_inv in Hw as (? & ? & _ & Hw)).
  unfold _MMTEngineBuilder._init_checkpoint_manager in Hw.
  apply bind_Return_inv in Hw as (d & ? & _ & Hw).
  apply bind_Return_inv in Hw as (m & ? & Hm & Hw).
  unfold modify in Hw. simplify_eq. simpl.
  exists m. split; [done|]. intros ->.
  unfold _CheckpointManager.create_for_engine in Hm.
  apply bind_Return_inv in Hm as (? & ? & _ & Hm).
  unfold ret in Hm. by simplify_eq.
Qed.

(** Where a build ends: before its workspace is there, with no step
    called; or along the pipeline, at its end when the build returns. *)
Lemma build_progress (b : _MMTEngineBuilder.t) (resume : bool) (st : state) :
  (is_return (fst (_MMTEngineBuilder._build_workspace b resume st)) = false
   /\ is_return (fst (_MMTEngineBuilder._build b resume st)) = false
   /\ calls (snd (_MMTEngineBuilder._build b resume st)) = calls st)
  \/ exists st0 m0,
       _MMTEngineBuilder._build_workspace b resume st = (Return tt, st0)
       /\ _checkpoint_manager st0 = Some m0
       /\ calls st0 = calls st
       /\ match fst (_MMTEngineBuilder._build b resume st) with
          | Return _ => stage b m0 st0 7 (snd (_MMTEngineBuilder._build b resume st))
          | Raise _ => aborted b m0 st0 (snd (_MMTEngineBuilder._build b resume st))
          end.
Proof.
  destruct (_MMTEngineBuilder._build_workspace b resume st) as [[[]|e] st0] eqn:Hw.
  - right. exists st0.
    destruct (build_workspace_manager _ _ _ _ _ Hw) as (m0 & Hm0 & _).
    exists m0. split; [done|]. split; [done|].
    assert (calls st0 = calls st) as Hc0.
    { eapply (keeps_run same_calls); [|exact Hw].
      apply keeps_build_workspace. by intros. }
    split; [done|].
    destruct (_MMTEngineBuilder._build_setup b resume st)
      as [[[[logger bi] mono]|e] st1] eqn:Hsetup.
    + destruct (build_setup_inv (R:=same_calls) _ _ _ _ _ Hsetup)
        as (sa & Hwa & Hc1 & _).
      destruct (build_setup_inv (R:=same_manager) _ _ _ _ _ Hsetup)
        as (sb & Hwb & Hk1 & _).
      rewrite Hw in Hwa, Hwb. injection Hwa as <-. injection Hwb as <-.
      assert (stage b m0 st0 0 st1) as Hs0.
      { apply stage_start; [done|]. by rewrite Hk1. }
      pose proof (triple_run_all_steps b m0 st0 logger bi mono st1 Hs0) as Hrun.
      destruct (_MMTEngineBuilder._run_all_steps b logger bi mono st1)
        as [r st2] eqn:Hsteps.
      destruct (build_outcome _ _ _ _ _ _ _ _ _ Hsetup Hsteps) as (l & _ & ->).
      simpl. destruct r as [[]|ex]; simpl.
      * eapply progress_same; [| |exact Hrun];
          by destruct (_MMTEngineBuilder._debug b).
      * eapply aborted_same; [| |exact Hrun]; done.
    + unfold _MMTEngineBuilder._build. rewrite (bind_raise _ _ _ _ _ Hsetup). simpl.
      unfold _MMTEngineBuilder._build_setup in Hsetup.
      rewrite (bind_return _ _ _ _ _ Hw) in Hsetup.
      apply (stage_aborted b m0 st0 0). apply stage_start.
      * eapply (keeps_run same_calls); [|exact Hsetup]. frame_more.
      * rewrite <- Hm0. eapply (keeps_run same_manager); [|exact Hsetup]. frame_more.
  - left. simpl.
    assert (_MMTEngineBuilder._build b resume st = (Raise e, st0)) as ->.
    { unfold _MMTEngineBuilder._build. apply bind_raise.
      unfold _MMTEngineBuilder._build_setup. by apply bind_raise. }
    simpl. split; [done|]. split; [done|].
    eapply (keeps_run same_calls); [|exact Hw].
    apply keeps_build_workspace. by intros.
Qed.

Lemma trace_names (b : _MMTEngineBuilder.t) passed done :
  (trace b passed done).*1 = filter (fun s => runs b s = true) done.
Proof.
  unfold trace. rewrite <- list_fmap_compose.
  induction (filter _ done) as [|x l IH]; [done|]. simpl. by f_equal.
Qed.

Lemma prefix_filter {A} (P : A -> Prop) `{!forall x, Decision (P x)} (l k : list A) :
  l `prefix_of` k -> filter P l `prefix_of` filter P k.
Proof. intros [t ->]. rewrite filter_app. by apply prefix_app_r. Qed.

End build_progress.

(** X5.  In every attempt, fresh or resumed, the step functions are called in
    the order of the pipeline, each at most once, and only those of the
    steps that are forced or selected: the names of the calls are an
    initial segment of the steps the builder runs, and the whole of them
    when the build returns. *)
Theorem build_runs_steps_in_order `{External} (b : _MMTEngineBuilder.t)
  (resume : bool) (st : state) :
  exists new,
    calls (snd (_MMTEngineBuilder._build b resume st)) = calls st ++ new
    /\ new.*1 `prefix_of` filter (fun s => runs b s = true) pipeline
    /\ (is_return (fst (_MMTEngineBuilder._build b resume st)) = true ->
        new.*1 = filter (fun s => runs b s = true) pipeline).
Proof.
  destruct (build_progress b resume st)
    as [(_ & Hr & Hc) | (st0 & m0 & _ & _ & Hc0 & Hend)].
  - exists []. rewrite app_nil_r. split; [done|].
    split; [apply prefix_nil | by rewrite Hr].
  - destruct (fst (_MMTEngineBuilder._build b resume st)) as [u|e].
    + destruct Hend as [Hc _]. change (take 7 pipeline) with pipeline in Hc.
      exists (trace b (_passed_steps m0) pipeline).
      rewrite trace_names. split; [by rewrite Hc, Hc0|]. done.
    + destruct Hend as (called & marked & _ & Hpre & Hc & _).
      exists (trace b (_passed_steps m0) called).
      rewrite trace_names. split; [by rewrite Hc, Hc0|].
      split; [by apply prefix_filter | done].
Qed.

Lemma build_runs_steps_in_order_witness :
  exists new,
    calls (snd (@_MMTEngineBuilder._build Demo.env Demo.all_steps false Demo.start))
    = calls Demo.start ++ new
    /\ new.*1 = pipeline.
Proof.
  destruct (@build_runs_steps_in_order Demo.env Demo.all_steps false Demo.start)
    as (new & Hnew & _ & Hall).
  exists new. split; [exact Hnew|].
  rewrite Hall; vm_compute; reflexivity.
Defined.

(** X6.  A step function is called in skip mode exactly when the record the
    attempt started from holds its step: the record read from the
    checkpoint file for a resumed attempt, the empty record for a fresh
    one, in which no step is ever skipped. *)
Theorem steps_skipped_iff_recorded `{External} (b : _MMTEngineBuilder.t)
  (resume : bool) (st st0 : state) (m0 : manager) :
  _MMTEngineBuilder._build_workspace b resume st = (Return tt, st0) ->
  _checkpoint_manager st0 = Some m0 ->
  exists new,
    calls (snd (_MMTEngineBuilder._build b resume st)) = calls st ++ new
    /\ (forall s skip, (s, skip) ∈ new -> skip = bool_decide (s ∈ _passed_steps m0))
    /\ (resume = false -> forall s skip, (s, skip) ∈ new -> skip = false).
Proof.
  intros Hw Hm0.
  destruct (build_workspace_manager _ _ _ _ _ Hw) as (m0' & Hm0' & Hfresh).
  rewrite Hm0 in Hm0'. injection Hm0' as <-.
  destruct (build_progress b resume st)
    as [(Hr & _) | (st0' & m0' & Hw' & Hm0' & Hc0 & Hend)].
  { by rewrite Hw in Hr. }
  rewrite Hw in Hw'. injection Hw' as <-.
  rewrite Hm0 in Hm0'. injection Hm0' as <-.
  assert (exists called,
            calls (snd (_MMTEngineBuilder._build b resume st))
            = calls st ++ trace b (_passed_steps m0) called) as [called Hcalls].
  { destruct (fst (_MMTEngineBuilder._build b resume st)) as [u|e].
    - destruct Hend as [Hc _]. eexists. by rewrite Hc, Hc0.
    - destruct Hend as (called & marked & _ & _ & Hc & _).
      exists called. by rewrite Hc, Hc0. }
  exists (trace b (_passed_steps m0) called). split; [done|].
  assert (forall s skip, (s, skip) ∈ trace b (_passed_steps m0) called ->
                         skip = bool_decide (s ∈ _passed_steps m0)) as Hflags.
  { intros s skip (x & [= -> ->] & _)%list_elem_of_fmap. done. }
  split; [done|].
  intros Hres s skip Hin. rewrite (Hflags _ _ Hin), (Hfresh Hres).
  apply bool_decide_eq_false_2, not_elem_of_nil.
Qed.

(** X7.  The builder never marks a step twice.  Whatever way an attempt ends,
    the manager's record is the record it started from followed by those
    steps, along an initial segment of the pipeline, that the builder runs
    and the starting record did not hold; the segment is the whole
    pipeline when the build returns.  A record without repeats stays
    without repeats. *)
Theorem build_marks_each_step_once `{External} (b : _MMTEngineBuilder.t)
  (resume : bool) (st st0 : state) (m0 : manager) :
  _MMTEngineBuilder._build_workspace b resume st = (Return tt, st0) ->
  _checkpoint_manager st0 = Some m0 ->
  exists done,
    done `prefix_of` pipeline
    /\ _checkpoint_manager (snd (_MMTEngineBuilder._build b resume st))
       = Some (Manager (_file_path m0)
                 (_passed_steps m0
                  ++ filter (fun s => runs b s = true /\ s ∉ _passed_steps m0) done))
    /\ (is_return (fst (_MMTEngineBuilder._build b resume st)) = true ->
        done = pipeline)
    /\ (NoDup (_passed_steps m0) ->
        NoDup (_passed_steps m0
               ++ filter (fun s => runs b s = true /\ s ∉ _passed_steps m0) done)).
Proof.
  intros Hw Hm0.
  destruct (build_progress b resume st)
    as [(Hr & _) | (st0' & m0' & Hw' & Hm0' & Hc0 & Hend)].
  { by rewrite Hw in Hr. }
  rewrite Hw in Hw'. injection Hw' as <-.
  rewrite Hm0 in Hm0'. injection Hm0' as <-.
  assert (forall done, done `prefix_of` pipeline ->
            NoDup (_passed_steps m0) ->
            NoDup (_passed_steps m0
                   ++ filter (fun s => runs b s = true /\ s ∉ _passed_steps m0) done))
    as Hnodup.
  { intros done [t Ht] Hnd. apply NoDup_app. split; [done|]. split.
    - intros s Hs [[_ Hnot] _]%list_elem_of_filter. done.
    - apply NoDup_filter. pose proof pipeline_NoDup as Hp. rewrite Ht in Hp.
      by apply NoDup_app in Hp as [? _]. }
  destruct (fst (_MMTEngineBuilder._build b resume st)) as [u|e].
  - destruct Hend as [_ Hk]. change (take 7 pipeline) with pipeline in Hk.
    exists pipeline. split; [done|]. split; [exact Hk|]. split; [done|].
    by apply Hnodup.
  - destruct Hend as (called & marked & Hmc & Hcp & _ & Hk).
    assert (marked `prefix_of` pipeline) as Hmp by (by etrans).
    exists marked. split; [done|]. split; [exact Hk|]. split; [done|].
    by apply Hnodup.
Qed.

Lemma steps_skipped_iff_recorded_witness :
  exists new,
    calls (snd (@_MMTEngineBuilder._build Demo.env Demo.all_steps true Demo.interrupted))
    = calls Demo.interrupted ++ new
    /\ (forall s skip, (s, skip) ∈ new ->
          skip = bool_decide (s ∈ ["tm_cleanup"; "__db_map"])).
Proof.
  destruct (@steps_skipped_iff_recorded Demo.env Demo.all_steps true Demo.interrupted _
              (Manager Demo.checkpoint_file ["tm_cleanup"; "__db_map"])
              (run_eq _ _ _ ltac:(vm_compute; reflexivity))
              ltac:(vm_compute; reflexivity))
    as (new & Hnew & Hflags & _).
  exists new. split; [exact Hnew | exact Hflags].
Defined.

Lemma build_marks_each_step_once_witness :
  _checkpoint_manager
    (snd (@_MMTEngineBuilder._build Demo.env Demo.all_steps true Demo.interrupted))
  = Some (Manager Demo.checkpoint_file
            ["tm_cleanup"; "__db_map"; "preprocess"; "context_analyzer"; "aligner";
             "tm"; "lm"]).
Proof.
  destruct (@build_marks_each_step_once Demo.env Demo.all_steps true Demo.interrupted _
              (Manager Demo.checkpoint_file ["tm_cleanup"; "__db_map"])
              (run_eq _ _ _ ltac:(vm_compute; reflexivity))
              ltac:(vm_compute; reflexivity))
    as (done & _ & Hrecord & Hall & _).
  rewrite Hrecord, Hall; vm_compute; reflexivity.
Defined.

(** ** Lines, fields and the domain file *)

Lemma occurrences_app c s1 s2 :
  occurrences c (s1 +:+ s2) = occurrences c s1 + occurrences c s2.
Proof.
  induction s1 as [|a s1 IH]; [done|].
  rewrite string_app_cons. simpl. rewrite IH. lia.
Qed.

Lemma readlines_one_line s :
  occurrences str.newline s = 0 -> s <> "" -> str.readlines s = [s].
Proof.
  induction s as [|a s IH]; [done|]. simpl. intros Hocc _.
  destruct (Ascii.eqb a str.newline); [done|].
  destruct s as [|a' s']; [done|].
  rewrite IH; [done | done | done].
Qed.

Lemma readlines_terminated s rest :
  occurrences str.newline s = 0 ->
  str.readlines (s +:+ String str.newline rest)
  = (s +:+ String str.newline "") :: str.readlines rest.
Proof.
  induction s as [|a s IH]; intros Hocc.
  - rewrite !string_app_nil_l. simpl. by rewrite ?Ascii.eqb_refl.
  - rewrite !string_app_cons. simpl in *.
    destruct (Ascii.eqb a str.newline); [done|]. by rewrite IH.
Qed.

Lemma rstrip_absent c s : occurrences c s = 0 -> str.rstrip c s = s.
Proof.
  induction s as [|a s IH]; [done|]. simpl. intros Hocc.
  destruct (Ascii.eqb a c) eqn:Ha; [done|].
  rewrite IH by done. by destruct s.
Qed.

Lemma rstrip_terminated c s :
  occurrences c s = 0 -> str.rstrip c (s +:+ String c "") = s.
Proof.
  induction s as [|a s IH]; intros Hocc.
  - rewrite string_app_nil_l. simpl. by rewrite Ascii.eqb_refl.
  - rewrite string_app_cons. simpl in *.
    destruct (Ascii.eqb a c) eqn:Ha; [done|].
    rewrite IH by done. by destruct s.
Qed.

Lemma split_nonempty sep k s : str.split sep k s <> [].
Proof.
  revert k. induction s as [|a s IH]; intros k; [done|]. simpl.
  destruct (Ascii.eqb a sep); [by destruct k|].
  specialize (IH k). by destruct (str.split sep k s).
Qed.

(** The number of pieces of a split: one more than the separators, up to
    the cuts allowed. *)
Lemma split_length sep k s :
  length (str.split sep k s) = S (min k (occurrences sep s)).
Proof.
  revert k. induction s as [|a s IH]; intros k; simpl.
  - by rewrite Nat.min_0_r.
  - destruct (Ascii.eqb a sep); simpl.
    + destruct k as [|k]; simpl; [done|]. by rewrite IH.
    + specialize (IH k). pose proof (split_nonempty sep k s) as Hne.
      destruct (str.split sep k s); [done|]. exact IH.
Qed.

Lemma split_absent sep k s : occurrences sep s = 0 -> str.split sep k s = [s].
Proof.
  revert k. induction s as [|a s IH]; intros k; [done|]. simpl. intros Hocc.
  destruct (Ascii.eqb a sep); [done|]. by rewrite IH.
Qed.

Lemma split_pair sep k d n :
  occurrences sep d = 0 -> occurrences sep n = 0 ->
  str.split sep (S k) (d +:+ String sep n) = [d; n].
Proof.
  induction d as [|a d IH]; intros Hd Hn.
  - rewrite string_app_nil_l. simpl. rewrite Ascii.eqb_refl.
    by rewrite split_absent.
  - rewrite string_app_cons. simpl in *.
    destruct (Ascii.eqb a sep); [done|]. by rewrite IH.
Qed.

Lemma load_rows_odd (rows : list (list string)) domains :
  Exists (fun row => length row <> 2) rows ->
  BaselineDatabase.load_rows rows domains = Raise ValueError.
Proof.
  intros Hex. revert domains.
  induction Hex as [row rows Hrow | row rows Hex IH]; intros domains.
  - simpl. destruct row as [|d [|n [|x row]]]; done.
  - simpl. destruct row as [|d [|n [|x row]]]; done.
Qed.

Lemma load_rows_pairs (rows : list (string * string)) domains :
  BaselineDatabase.load_rows ((fun row => [fst row; snd row]) <$> rows) domains
  = Return (foldl (fun domains row => <[snd row := fst row]> domains) domains rows).
Proof.
  revert domains. induction rows as [|[d n] rows IH]; intros domains; [done|].
  simpl. apply IH.
Qed.

Lemma domain_line_text d n rest :
  domain_line (d, n) +:+ rest = (d +:+ String str.tab n) +:+ String str.newline rest.
Proof.
  unfold domain_line. cbn [fst snd].
  by rewrite !string_app_assoc, !string_app_cons, string_app_nil_l.
Qed.

Lemma readlines_domain_lines (rows : list (string * string)) :
  Forall (fun row => occurrences str.tab (fst row) = 0
                     /\ occurrences str.newline (fst row) = 0
                     /\ occurrences str.tab (snd row) = 0
                     /\ occurrences str.newline (snd row) = 0) rows ->
  (fun line => str.split str.tab 2 (str.rstrip str.newline line))
    <$> str.readlines (foldr (fun row text => domain_line row +:+ text) "" rows)
  = (fun row => [fst row; snd row]) <$> rows.
Proof.
  induction 1 as [|[d n] rows (Hdt & Hdn & Hnt & Hnn) Hrows IH]; [done|].
  simpl in *.
  assert (occurrences str.newline (d +:+ String str.tab n) = 0) as Hline.
  { rewrite occurrences_app. simpl. lia. }
  rewrite domain_line_text, readlines_terminated by done.
  rewrite fmap_cons, IH. by rewrite rstrip_terminated, split_pair.
Qed.

(** X8.  [_load_map] reads back a file of lines [id<TAB>name]: it returns the
    dictionary from each name to the identifier of the last line that has
    it, and leaves the state alone.  The fields may hold anything but a
    tab or a newline. *)
Theorem load_map_reads_domain_lines (filepath : path) (st : state)
  (rows : list (string * string)) :
  Forall (fun row => occurrences str.tab (fst row) = 0
                     /\ occurrences str.newline (fst row) = 0
                     /\ occurrences str.tab (snd row) = 0
                     /\ occurrences str.newline (snd row) = 0) rows ->
  os.read (fs st) filepath
  = Return (foldr (fun row text => domain_line row +:+ text) "" rows) ->
  BaselineDatabase._load_map filepath st = (Return (domains_of rows), st).
Proof.
  intros Hrows Hread.
  unfold BaselineDatabase._load_map, bind, read_fs, of_result.
  rewrite Hread, (readlines_domain_lines _ Hrows).
  by rewrite load_rows_pairs.
Qed.
Lemma load_rows_even (rows : list (list string)) domains :
  Forall (fun row => length row = 2) rows ->
  is_return (BaselineDatabase.load_rows rows domains) = true.
Proof.
  intros Hall. revert domains.
  induction Hall as [|row rows Hrow Hall IH]; intros domains; [done|].
  destruct row as [|d [|n [|x row]]]; try done. simpl. apply IH.
Qed.

Lemma split_two_pieces s :
  length (str.split str.tab 2 s) = 2 <-> occurrences str.tab s = 1.
Proof. rewrite split_length. lia. Qed.

Lemma read_raises_IOError f p e : os.read f p = Raise e -> e = IOError.
Proof. unfold os.read. repeat case_match; congruence. Qed.

(** X9.  How [_load_map] fails.  It never changes the state.  A file that
    cannot be opened gives [IOError].  A file that can is read to the end,
    and the call raises [ValueError] exactly when some line of it, its
    newline taken off, does not hold exactly one tab: a line with no tab,
    a line with two or more, a blank line. *)
Theorem load_map_needs_one_tab_per_line (filepath : path) (st : state) :
  snd (BaselineDatabase._load_map filepath st) = st
  /\ match os.read (fs st) filepath with
     | Raise _ => fst (BaselineDatabase._load_map filepath st) = Raise IOError
     | Return text =>
         (fst (BaselineDatabase._load_map filepath st) = Raise ValueError
          <-> Exists (fun line =>
                        occurrences str.tab (str.rstrip str.newline line) <> 1)
                (str.readlines text))
         /\ (is_return (fst (BaselineDatabase._load_map filepath st)) = true
             <-> Forall (fun line =>
                           occurrences str.tab (str.rstrip str.newline line) = 1)
                   (str.readlines text))
     end.
Proof.
  unfold BaselineDatabase._load_map, bind, read_fs, of_result.
  destruct (os.read (fs st) filepath) as [text|e] eqn:Hread; simpl.
  - split; [done|].
    set (rows := (fun line => str.split str.tab 2 (str.rstrip str.newline line))
                   <$> str.readlines text).
    destruct (decide (Forall (fun line =>
                                occurrences str.tab (str.rstrip str.newline line) = 1)
                        (str.readlines text))) as [Hall | Hex].
    + assert (is_return (BaselineDatabase.load_rows rows ∅) = true) as Hret.
      { apply load_rows_even. subst rows. apply Forall_fmap.
        eapply Forall_impl; [exact Hall|]. intros line Hline. simpl.
        by apply split_two_pieces. }
      split; split; try done.
      * intros Hr. rewrite Hr in Hret. done.
      * intros Hex. apply Exists_not_Forall in Hex. done.
    + assert (Exists (fun line =>
                        occurrences str.tab (str.rstrip str.newline line) <> 1)
                (str.readlines text)) as Hodd.
      { apply not_Forall_Exists in Hex; [done | apply _]. }
      assert (BaselineDatabase.load_rows rows ∅ = Raise ValueError) as ->.
      { apply load_rows_odd. subst rows. apply Exists_fmap.
        eapply Exists_impl; [exact Hodd|]. intros line Hline. simpl.
        by rewrite split_two_pieces. }
      split; split; done.
  - split; [done|]. by apply read_raises_IOError in Hread as ->.
Qed.

(** ** The domain file [generate] writes, given to [_load_map] *)

Lemma escape_plain a :
  occurrences str.tab (json.escape a) = 0
  /\ occurrences str.newline (json.escape a) = 0.
Proof. destruct a as [[] [] [] [] [] [] [] []]; split; reflexivity. Qed.

Lemma escape_all_plain s :
  occurrences str.tab (json.escape_all s) = 0
  /\ occurrences str.newline (json.escape_all s) = 0.
Proof.
  induction s as [|a s [IHt IHn]]; [done|].
  change (json.escape_all (String a s)) with (json.escape a +:+ json.escape_all s).
  rewrite !occurrences_app. destruct (escape_plain a) as [-> ->]. lia.
Qed.

Lemma dumps_string_plain s :
  occurrences str.tab (json.dumps_string s) = 0
  /\ occurrences str.newline (json.dumps_string s) = 0.
Proof.
  unfold json.dumps_string. rewrite !string_app_cons.
  destruct (escape_all_plain s) as [Ht Hn].
  split; simpl; rewrite occurrences_app; simpl; lia.
Qed.

Lemma sep_by_plain c (items : list string) :
  occurrences c ", " = 0 ->
  Forall (fun item => occurrences c item = 0) items ->
  occurrences c (json.sep_by ", " items) = 0.
Proof.
  intros Hsep Hitems. induction Hitems as [|a items Ha Hitems IH]; [done|].
  destruct items as [|a' items]; [done|].
  rewrite sep_by_cons, !occurrences_app. lia.
Qed.

Lemma domains_dump_plain (domains : list BaselineDatabase.domain) :
  occurrences str.tab
    (json.dumps (json.Arr (BaselineDatabase.domain_json <$> domains))) = 0
  /\ occurrences str.newline
       (json.dumps (json.Arr (BaselineDatabase.domain_json <$> domains))) = 0.
Proof.
  assert (forall c, c = str.tab \/ c = str.newline ->
            occurrences c
              (json.dumps (json.Arr (BaselineDatabase.domain_json <$> domains))) = 0)
    as Hc; [|split; apply Hc; auto].
  intros c Hc.
  assert (forall s, occurrences c (json.dumps_string s) = 0) as Hstr.
  { intros s. destruct (dumps_string_plain s). by destruct Hc as [-> | ->]. }
  assert (occurrences c ", " = 0) as Hsep by (by destruct Hc as [-> | ->]).
  assert (occurrences c ": " = 0) as Hcolon by (by destruct Hc as [-> | ->]).
  assert (occurrences c "[" = 0 /\ occurrences c "]" = 0
          /\ occurrences c "{" = 0 /\ occurrences c "}" = 0) as (Ho & Hcl & Hbo & Hbc).
  { by destruct Hc as [-> | ->]. }
  cbn [json.dumps]. rewrite !occurrences_app, Ho, Hcl.
  rewrite sep_by_plain; [done | done |].
  apply Forall_forall. intros text Hin.
  apply list_elem_of_In, in_map_iff in Hin as (j & <- & Hj).
  apply list_elem_of_In, list_elem_of_fmap in Hj as (d & -> & _).
  unfold BaselineDatabase.domain_json. cbn [json.dumps map fst snd].
  rewrite !occurrences_app, Hbo, Hbc. rewrite sep_by_plain; [done | done |].
  repeat constructor; rewrite !occurrences_app, !Hstr, Hcolon; done.
Qed.

(** A text of one line without a tab is no domain file. *)
Lemma load_map_one_plain_line (filepath : path) (st : state) (text : string) :
  os.read (fs st) filepath = Return text ->
  text <> "" ->
  occurrences str.tab text = 0 -> occurrences str.newline text = 0 ->
  BaselineDatabase._load_map filepath st = (Raise ValueError, st).
Proof.
  intros Hread Hne Htab Hnl.
  unfold BaselineDatabase._load_map, bind, read_fs, of_result.
  rewrite Hread, readlines_one_line by done. simpl.
  by rewrite rstrip_absent, split_absent.
Qed.
(** ** The domain map: what [generate] checks, links and writes *)

Section domain_links.
Context `{External}.

Lemma domains_from_not_corpus i (items : list value) inverted :
  Exists (fun v => forall c, v <> VCorpus c) items ->
  BaselineDatabase.domains_from i items inverted = Raise AttributeError.
Proof.
  intros Hex. revert i inverted.
  induction Hex as [v items Hv | v items Hex IH]; intros i inverted; simpl.
  - destruct v as [c| | |]; [by destruct (Hv c) | done..].
  - destruct v as [c| | |]; try done. simpl. by rewrite IH.
Qed.

(** X10.  [generate] goes through the names of all the bilingual corpora before
    it makes a directory or writes the map: given a list with an element
    that is no corpus (a list, a tuple, [None]), it raises
    [AttributeError] and the state, the tree with it, is as it was. *)
Theorem generate_checks_names_first (db : BaselineDatabase.t)
  (bilingual_corpora : value) (items : list value)
  (monolingual_corpora : value) (output : path) (st : state) :
  py_items bilingual_corpora = Return items ->
  Exists (fun v => forall c, v <> VCorpus c) items ->
  BaselineDatabase.generate db bilingual_corpora monolingual_corpora output st
  = (Raise AttributeError, st).
Proof.
  intros Hitems Hex. unfold BaselineDatabase.generate, bind, of_result.
  rewrite Hitems. by rewrite domains_from_not_corpus.
Qed.

(** The inverted dictionary after the loop: the last corpus of a name
    gives the name its identifier. *)
Lemma domains_from_inverted i (cs : list corpus) inverted domains inverted' :
  BaselineDatabase.domains_from i (VCorpus <$> cs) inverted
  = Return (domains, inverted') ->
  forall n,
    (forall j c, cs !! j = Some c -> corpus_name c = n ->
       (forall k c', j < k -> cs !! k = Some c' -> corpus_name c' <> n) ->
       inverted' !! n = Some (pretty (i + j + 1)))
    /\ ((forall c, c ∈ cs -> corpus_name c <> n) -> inverted' !! n = inverted !! n).
Proof.
  revert i inverted domains inverted'.
  induction cs as [|c0 cs IH]; intros i inverted domains inverted' Hdom n.
  - simpl in Hdom. injection Hdom as _ <-. split; [by intros j c Hj | done].
  - rewrite fmap_cons in Hdom. cbn [BaselineDatabase.domains_from py_name] in Hdom.
    destruct (BaselineDatabase.domains_from (S i) (VCorpus <$> cs)
                (<[corpus_name c0 := pretty (i + 1)]> inverted))
      as [[domains1 inverted1]|e] eqn:Hrest; [|done].
    injection Hdom as _ <-.
    destruct (IH _ _ _ _ Hrest n) as [Hlast Hnone]. split.
    + intros [|j] c Hj Hname Hlater.
      * simpl in Hj. injection Hj as ->.
        rewrite Hnone.
        -- rewrite Hname, Nat.add_0_r. apply lookup_insert_eq.
        -- intros c' [k Hk]%list_elem_of_lookup. by apply (Hlater (S k)); [lia|].
      * simpl in Hj. rewrite (Hlast j c Hj Hname).
        -- do 2 f_equal. lia.
        -- intros k c' Hlt Hk. by apply (Hlater (S k)); [lia|].
    + intros Hno. rewrite Hnone.
      * apply lookup_insert_ne. apply Hno. by left.
      * intros c Hc. apply Hno. by right.
Qed.

Lemma last_of_name (cs : list corpus) i c :
  cs !! i = Some c ->
  exists j c', i <= j /\ cs !! j = Some c' /\ corpus_name c' = corpus_name c
    /\ forall k c'', j < k -> cs !! k = Some c'' -> corpus_name c'' <> corpus_name c.
Proof.
  revert i c. induction cs as [|x cs IH] using rev_ind; intros i c Hi; [done|].
  destruct (decide (corpus_name x = corpus_name c)) as [Heq|Hne].
  - exists (length cs), x.
    pose proof (lookup_lt_Some _ _ _ Hi) as Hlt. rewrite length_app in Hlt.
    simpl in Hlt. split; [lia|]. split; [by rewrite lookup_app_r, Nat.sub_diag by lia|].
    split; [done|]. intros k c'' Hk Hc''.
    apply lookup_lt_Some in Hc''. rewrite length_app in Hc''. simpl in Hc''. lia.
  - assert (i < length cs) as Hlt.
    { pose proof (lookup_lt_Some _ _ _ Hi) as Hlt. rewrite length_app in Hlt.
      simpl in Hlt. destruct (decide (i = length cs)) as [->|]; [|lia].
      rewrite lookup_app_r, Nat.sub_diag in Hi by lia. by injection Hi as ->. }
    rewrite lookup_app_l in Hi by done.
    destruct (IH i c Hi) as (j & c' & Hle & Hj & Hname & Hlater).
    exists j, c'. split; [done|].
    split; [rewrite lookup_app_l; [done | by eapply lookup_lt_Some]|].
    split; [done|]. intros k c'' Hk Hc''.
    destruct (decide (k < length cs)) as [Hkl|Hkl].
    + rewrite lookup_app_l in Hc'' by done. by eapply Hlater.
    + assert (k = length cs) as ->.
      { apply lookup_lt_Some in Hc''. rewrite length_app in Hc''. simpl in Hc''. lia. }
      rewrite lookup_app_r, Nat.sub_diag in Hc'' by lia. by injection Hc'' as <-.
Qed.

(** X11.  The name a bilingual corpus is linked under is looked up in the
    inverted dictionary, in which a name keeps the identifier of the last
    corpus that has it.  The lookup never fails; a corpus is linked under
    the identifier of the last corpus of its name, which is its own when
    the names are all different.  With two corpora of one name, both are
    linked under the identifier of the second, while the map file lists
    both identifiers with that name. *)
Theorem generate_links_under_last_id (cs : list corpus) :
  exists domains inverted,
    BaselineDatabase.domains_from 0 (VCorpus <$> cs) ∅ = Return (domains, inverted)
    /\ (forall i c, cs !! i = Some c ->
          exists j c',
            i <= j /\ cs !! j = Some c' /\ corpus_name c' = corpus_name c
            /\ (forall k c'', j < k -> cs !! k = Some c'' ->
                  corpus_name c'' <> corpus_name c)
            /\ BaselineDatabase.domain_id_of inverted c = Return (Some (pretty (j + 1))))
    /\ (NoDup (corpus_name <$> cs) ->
        forall i c, cs !! i = Some c ->
          BaselineDatabase.domain_id_of inverted c = Return (Some (pretty (i + 1)))).
Proof.
  destruct (domains_from_corpora 0 cs ∅) as [inverted Hdom].
  eexists _, inverted. split; [exact Hdom|].
  assert (forall i c, cs !! i = Some c ->
            exists j c',
              i <= j /\ cs !! j = Some c' /\ corpus_name c' = corpus_name c
              /\ (forall k c'', j < k -> cs !! k = Some c'' ->
                    corpus_name c'' <> corpus_name c)
              /\ BaselineDatabase.domain_id_of inverted c
                 = Return (Some (pretty (j + 1)))) as Hlast.
  { intros i c Hi.
    destruct (last_of_name cs i c Hi) as (j & c' & Hle & Hj & Hname & Hlater).
    exists j, c'. split_and!; try done.
    destruct (domains_from_inverted _ _ _ _ _ Hdom (corpus_name c)) as [Hl _].
    unfold BaselineDatabase.domain_id_of. by rewrite (Hl j c' Hj Hname Hlater). }
  split; [exact Hlast|].
  intros Hnd i c Hi.
  destruct (Hlast i c Hi) as (j & c' & _ & Hj & Hname & _ & ->).
  assert (i = j) as ->; [|done].
  eapply NoDup_lookup; [exact Hnd| |]; rewrite list_lookup_fmap.
  - by rewrite Hi.
  - rewrite Hj. simpl. by rewrite Hname.
Qed.

(** What [generate] leaves in the map file when it returns. *)
Lemma generate_writes_domains (db : BaselineDatabase.t)
  (bilingual_corpora monolingual_corpora : value) (output : path)
  (st : state) (v : value) (st' : state) :
  (forall c o n f, (symlink c o n f).2 !! BaselineDatabase._json_path db
                   = f !! BaselineDatabase._json_path db) ->
  BaselineDatabase.generate db bilingual_corpora monolingual_corpora output st
  = (Return v, st') ->
  exists domains,
    fs st' !! BaselineDatabase._json_path db
    = Some (File (json.dumps (json.Arr (BaselineDatabase.domain_json <$> domains)))).
Proof.
  intros Hkeep Hgen. unfold BaselineDatabase.generate in Hgen.
  apply bind_Return_inv in Hgen as (items & st1 & _ & Hgen).
  apply bind_Return_inv in Hgen as (built & st2 & _ & Hgen).
  apply bind_Return_inv in Hgen as (u & st3 & _ & Hgen).
  apply bind_Return_inv in Hgen as (u' & st4 & Hwrite & Hgen).
  apply on_fs_Return in Hwrite as (f' & Hwrite & Hst4).
  apply write_Return in Hwrite as ->.
  apply bind_Return_inv in Hgen as (bi & st5 & Hbi & Hgen).
  apply bind_Return_inv in Hgen as (mono_items & st6 & Hmono & Hgen).
  unfold of_result in Hmono. injection Hmono as _ <-.
  apply bind_Return_inv in Hgen as (mono' & st7 & Hmono' & Hgen).
  unfold ret in Hgen. injection Hgen as _ <-.
  exists (fst built).
  pose proof (symlink_all_keeps (BaselineDatabase._json_path db) output
                (fun _ => Return None) mono_items st5 Hkeep) as Hk2.
  rewrite Hmono' in Hk2. simpl in Hk2. rewrite Hk2.
  pose proof (symlink_all_keeps (BaselineDatabase._json_path db) output
                (BaselineDatabase.domain_id_of (snd built)) items st4 Hkeep) as Hk1.
  rewrite Hbi in Hk1. simpl in Hk1. rewrite Hk1, Hst4. simpl.
  by rewrite lookup_insert_eq.
Qed.

(** X12.  [_load_map] cannot read the map that [generate] writes to
    [baseline_domains.json]: the file is one line of JSON, in which tabs
    and newlines are escaped, and [_load_map] wants lines of two
    tab-separated fields.  Whatever the corpora, once [generate] has
    returned (the links leaving the file alone), [_load_map] on the file
    raises [ValueError]. *)
Theorem load_map_rejects_generated_map (db : BaselineDatabase.t)
  (bilingual_corpora monolingual_corpora : value) (output : path)
  (st : state) (v : value) (st' : state) :
  (forall c o n f, (symlink c o n f).2 !! BaselineDatabase._json_path db
                   = f !! BaselineDatabase._json_path db) ->
  BaselineDatabase.generate db bilingual_corpora monolingual_corpora output st
  = (Return v, st') ->
  BaselineDatabase._load_map (BaselineDatabase._json_path db) st'
  = (Raise ValueError, st').
Proof.
  intros Hkeep Hgen.
  destruct (generate_writes_domains _ _ _ _ _ _ _ Hkeep Hgen) as [domains Hfile].
  destruct (domains_dump_plain domains) as [Htab Hnl].
  apply (load_map_one_plain_line _ _
           (json.dumps (json.Arr (BaselineDatabase.domain_json <$> domains))));
    [|cbn [json.dumps]; by rewrite string_app_cons|done|done].
  unfold os.read, os.lookup, BaselineDatabase._json_path, join.
  destruct (BaselineDatabase.path db ++ [BaselineDatabase.file_name]) eqn:Hp.
  - symmetry in Hp. by apply app_cons_not_nil in Hp.
  - rewrite <- Hp. unfold BaselineDatabase._json_path, join in Hfile.
    by rewrite Hfile.
Qed.

End domain_links.

Lemma generate_links_under_last_id_witness :
  exists domains inverted,
    BaselineDatabase.domains_from 0
      (VCorpus <$> [Corpus "news" ["en"; "it"] ["a"]; Corpus "news" ["en"; "it"] ["b"]])
      ∅ = Return (domains, inverted)
    /\ BaselineDatabase.domain_id_of inverted (Corpus "news" ["en"; "it"] ["a"])
       = Return (Some "2").
Proof.
  destruct (generate_links_under_last_id
              [Corpus "news" ["en"; "it"] ["a"]; Corpus "news" ["en"; "it"] ["b"]])
    as (domains & inverted & Hdom & Hlast & _).
  exists domains, inverted. split; [exact Hdom|].
  destruct (Hlast 0 (Corpus "news" ["en"; "it"] ["a"]) eq_refl)
    as (j & c' & _ & Hj & _ & Hlater & Hid).
  destruct j as [|[|j]]; [|exact Hid|discriminate Hj].
  exfalso. by apply (Hlater 1 (Corpus "news" ["en"; "it"] ["b"])); [lia| |].
Defined.


Lemma load_map_rejects_generated_map_witness :
  BaselineDatabase._load_map
    (BaselineDatabase._json_path (@MMTEngine.db Demo.env Demo.engine))
    (snd (@BaselineDatabase.generate Demo.env (@MMTEngine.db Demo.env Demo.engine)
            (corpora Demo.bilingual_corpora) (corpora []) ["data"; "out"] Demo.start))
  = (Raise ValueError,
     snd (@BaselineDatabase.generate Demo.env (@MMTEngine.db Demo.env Demo.engine)
            (corpora Demo.bilingual_corpora) (corpora []) ["data"; "out"] Demo.start)).
Proof.
  apply (@load_map_rejects_generated_map Demo.env (@MMTEngine.db Demo.env Demo.engine)
           (corpora Demo.bilingual_corpora) (corpora []) ["data"; "out"] Demo.start
           (VTuple [corpora [Corpus "1" ["en"; "it"] ["data"; "out"]]; corpora []])).
  - reflexivity.
  - apply run_eq. vm_compute. reflexivity.
Defined.

Lemma generate_checks_names_first_witness :
  @BaselineDatabase.generate Demo.env (@MMTEngine.db Demo.env Demo.engine)
    (VList [corpora Demo.bilingual_corpora; VNone]) (corpora []) ["data"; "out"]
    Demo.start
  = (Raise AttributeError, Demo.start).
Proof.
  apply (@generate_checks_names_first Demo.env (@MMTEngine.db Demo.env Demo.engine)
           (VList [corpora Demo.bilingual_corpora; VNone])
           [corpora Demo.bilingual_corpora; VNone]).
  - reflexivity.
  - apply Exists_cons_hd. intros c. discriminate.
Defined.

Lemma load_map_reads_domain_lines_witness :
  BaselineDatabase._load_map ["data"; "baseline_domains"]
    (set_fs (<[ ["data"; "baseline_domains"] :=
                  File (domain_line ("1", "news") +:+ domain_line ("2", "europarl")) ]>
               Demo.tree) Demo.start)
  = (Return (<["europarl" := "2"]> (<["news" := "1"]> ∅)),
     set_fs (<[ ["data"; "baseline_domains"] :=
                  File (domain_line ("1", "news") +:+ domain_line ("2", "europarl")) ]>
               Demo.tree) Demo.start).
Proof.
  apply (load_map_reads_domain_lines ["data"; "baseline_domains"] _
           [("1", "news"); ("2", "europarl")]).
  - repeat constructor.
  - reflexivity.
Defined.

(** ** The logger: printed durations *)

Lemma split_unit (e u : Z) :
  (0 < u)%Z -> (e > u)%Z -> (1 <= e / u /\ 0 <= e - e / u * u < u)%Z.
Proof.
  intros Hu He.
  pose proof (Z.div_mod e u ltac:(lia)).
  pose proof (Z.mod_pos_bound e u ltac:(lia)).
  assert (1 <= e / u)%Z by (apply Z.div_le_lower_bound; lia). lia.
Qed.

Lemma split_unit_upper (e u k : Z) :
  (0 < u)%Z -> (e <= u * k)%Z -> (e / u <= k)%Z.
Proof. intros Hu He. apply Z.div_le_upper_bound; lia. Qed.

(** X13.  [_pretty_print_time] cuts the duration to whole seconds and splits it
    into days, hours, minutes and seconds that add up to it exactly; a
    part that is zero is left out, the seconds apart.  The comparisons are
    strict, so the parts are not normalised: the seconds and the minutes
    go up to 60 and the hours up to 24 (a minute is printed [60s], an hour
    [60m 0s], a day [24h 0s]).  A negative duration is printed as its
    seconds. *)
Theorem pretty_print_time_parts (elapsed : QArith_base.Q) :
  let n := _builder_logger.int elapsed in
  _builder_logger._pretty_print_time elapsed
  = str.join " " (_builder_logger.format_part <$> _builder_logger.time_parts n)
  /\ ((n < 0)%Z -> _builder_logger.time_parts n = [(n, "s")])
  /\ ((0 <= n)%Z ->
      exists d h m s : Z,
        (n = d * 86400 + h * 3600 + m * 60 + s)%Z
        /\ (0 <= d)%Z /\ (0 <= h <= 24)%Z /\ (0 <= m <= 60)%Z /\ (0 <= s <= 60)%Z
        /\ _builder_logger.time_parts n
           = part d "d" ++ part h "h" ++ part m "m" ++ [(s, "s")])
  /\ _builder_logger.time_parts 60 = [(60%Z, "s")]
  /\ _builder_logger.time_parts 3600 = [(60%Z, "m"); (0%Z, "s")]
  /\ _builder_logger.time_parts 86400 = [(24%Z, "h"); (0%Z, "s")].
Proof.
  intros n. split; [done|]. split; [|split; [|done]].
  - intros Hneg. unfold _builder_logger.time_parts.
    rewrite (bool_decide_eq_false_2 (n > 86400)%Z) by lia. simpl.
    rewrite (bool_decide_eq_false_2 (n > 3600)%Z) by lia. simpl.
    rewrite (bool_decide_eq_false_2 (n > 60)%Z) by lia. done.
  - intros Hpos. unfold _builder_logger.time_parts, part.
    destruct (decide (n > 86400)%Z) as [H1|H1];
      [rewrite (bool_decide_eq_true_2 _ H1);
       destruct (split_unit n 86400 ltac:(lia) H1) as [Hd He1]
      |rewrite (bool_decide_eq_false_2 _ H1)];
      cbn [fst snd app];
      match goal with
      | |- context [bool_decide (?e1 > 3600)%Z] =>
          destruct (decide (e1 > 3600)%Z) as [H2|H2];
            [rewrite (bool_decide_eq_true_2 _ H2);
             destruct (split_unit e1 3600 ltac:(lia) H2) as [Hh He2];
             pose proof (split_unit_upper e1 3600 24 ltac:(lia) ltac:(lia)) as Hh'
            |rewrite (bool_decide_eq_false_2 _ H2)]
      end;
      cbn [fst snd app];
      match goal with
      | |- context [bool_decide (?e2 > 60)%Z] =>
          destruct (decide (e2 > 60)%Z) as [H3|H3];
            [rewrite (bool_decide_eq_true_2 _ H3);
             destruct (split_unit e2 60 ltac:(lia) H3) as [Hm He3];
             pose proof (split_unit_upper e2 60 60 ltac:(lia) ltac:(lia)) as Hm'
            |rewrite (bool_decide_eq_false_2 _ H3)]
      end;
      cbn [fst snd app];
      match goal with
      | |- context [[(?s, "s")]] =>
          match goal with
          | |- context [(?d, "d")] => exists d
          | _ => exists 0%Z
          end;
          match goal with
          | |- context [(?h, "h")] => exists h
          | _ => exists 0%Z
          end;
          match goal with
          | |- context [(?m, "m")] => exists m
          | _ => exists 0%Z
          end;
          exists s
      end;
      (split; [lia|]); split_and!; try lia;
      repeat first
        [ rewrite bool_decide_eq_true_2 by lia
        | rewrite bool_decide_eq_false_2 by lia ];
      reflexivity.
Qed.

(** ** Directories: made, emptied, left alone *)

Lemma lookup_nonroot (f : filesystem) (p : path) : p <> [] -> os.lookup f p = f !! p.
Proof. by destruct p. Qed.

Lemma join_nonroot (p : path) x : join p x <> [].
Proof. unfold join. intros Hp. symmetry in Hp. by apply app_cons_not_nil in Hp. Qed.

Lemma closed_above (f : filesystem) (p q : path) n :
  closed_tree f -> f !! q = Some n -> p `prefix_of` q -> p <> q ->
  os.isdir f p = true.
Proof.
  intros Hclosed Hq [t ->]. revert n Hq.
  induction t as [|x t IH] using rev_ind; intros n Hq Hne.
  - by rewrite app_nil_r in Hne.
  - rewrite app_assoc in Hq. pose proof (Hclosed _ _ _ Hq) as Hdir.
    destruct t as [|y t]; [by rewrite app_nil_r in Hdir|].
    unfold os.isdir in Hdir. rewrite lookup_nonroot in Hdir.
    + destruct (f !! (p ++ y :: t)) as [[]|] eqn:Hl; [|done..].
      eapply IH; [done|]. intros Heq. apply (f_equal length) in Heq.
      rewrite length_app in Heq. simpl in Heq. lia.
    + intros Heq. apply (f_equal length) in Heq.
      rewrite length_app in Heq. simpl in Heq. lia.
Qed.

Lemma makedirs_Return (f : filesystem) (p : path) f' :
  os.makedirs f p = Return f' ->
  os.lookup f p = None /\ f' = foldr (fun q m => <[q := Dir]> m) f (os.chain p).
Proof.
  unfold os.makedirs. destruct (os.lookup f p); [done|].
  destruct (forallb _ _); [|done]. by intros [= <-].
Qed.

Lemma chain_last (p : path) : p <> [] -> p ∈ os.chain p.
Proof.
  intros Hp. unfold os.chain. apply list_elem_of_fmap.
  exists (length p - 1). split.
  - rewrite take_ge; [done|]. lia.
  - apply elem_of_seq. destruct p; [done|]. simpl. lia.
Qed.

Lemma lookup_foldr_insert_in (l : list path) (f : filesystem) q :
  q ∈ l -> foldr (fun p m => <[p := Dir]> m) f l !! q = Some Dir.
Proof.
  induction l as [|p l IH]; [by intros ?%not_elem_of_nil|].
  intros Hin. simpl. destruct (decide (p = q)) as [->|Hne].
  - apply lookup_insert_eq.
  - rewrite lookup_insert_ne by done. apply IH.
    apply elem_of_cons in Hin as [->|?]; done.
Qed.

Lemma makedirs_isdir (f : filesystem) (p : path) f' :
  os.makedirs f p = Return f' -> os.isdir f' p = true.
Proof.
  intros [Hnone ->]%makedirs_Return.
  assert (p <> []) as Hp by (intros ->; done).
  unfold os.isdir. rewrite lookup_nonroot by done.
  by rewrite lookup_foldr_insert_in by (by apply chain_last).
Qed.

Lemma makedirs_below (f : filesystem) (p : path) f' q :
  os.makedirs f p = Return f' -> p `prefix_of` q -> q <> p -> f' !! q = f !! q.
Proof.
  intros [_ ->]%makedirs_Return Hpre Hne.
  apply lookup_foldr_insert_notin. intros Hin%chain_prefix.
  apply Hne. by apply (anti_symm prefix).
Qed.

(** A directory removed with all it held and made again is empty. *)
Lemma remade_dir_empty (f0 f1 : filesystem) (d : path) f3 :
  closed_tree f0 -> untouched_under d f0 f1 ->
  os.makedirs (shutil.rmtree f1 d) d = Return f3 ->
  empty_dir f3 d.
Proof.
  intros Hclosed Hsame Hmk. split; [by eapply makedirs_isdir|].
  intros q Hpre Hne. rewrite (makedirs_below _ _ _ _ Hmk Hpre Hne).
  destruct (os.isdir f1 d) eqn:Hdir; [by apply rmtree_under|].
  unfold shutil.rmtree. rewrite Hdir. rewrite (Hsame q Hpre).
  destruct (f0 !! q) as [n|] eqn:Hq; [|done]. exfalso.
  assert (d <> []) as Hd.
  { intros ->. apply makedirs_Return in Hmk as [Hnone _]. done. }
  assert (os.isdir f0 d = true) as Hdir0 by (eapply closed_above; eauto).
  unfold os.isdir in Hdir, Hdir0. rewrite lookup_nonroot in Hdir, Hdir0 by done.
  rewrite (Hsame d) in Hdir by done. by rewrite Hdir in Hdir0.
Qed.

Lemma longer_not_prefix (p : path) x : ~ join p x `prefix_of` p.
Proof.
  intros Hpre%prefix_length. unfold join in Hpre. rewrite length_app in Hpre.
  simpl in Hpre. lia.
Qed.

Lemma empty_dir_untouched (f f' : filesystem) (d : path) :
  d <> [] -> untouched_under d f f' -> empty_dir f d -> empty_dir f' d.
Proof.
  intros Hd Hsame [Hdir Hempty]. split.
  - unfold os.isdir in *. rewrite lookup_nonroot in * by done.
    by rewrite (Hsame d).
  - intros q Hpre Hne. rewrite (Hsame q Hpre). by apply Hempty.
Qed.

Section workspace.
Context `{External}.

(** [get_tempdir] with [ensure]: the folder is there and empty when the
    call returns. *)
Lemma get_tempdir_ensure e name st d st' :
  closed_tree (fs st) ->
  MMTEngine.get_tempdir e name true st = (Return d, st') ->
  d = join (MMTEngine._temp_path e) name /\ empty_dir (fs st') d.
Proof.
  unfold MMTEngine.get_tempdir. intros Hclosed Hg.
  apply bind_Return_inv in Hg as (u & sa & Ha & Hg).
  apply bind_Return_inv in Hg as (u' & sb & Hb & Hg).
  unfold ret in Hg. injection Hg as <- <-. split; [done|].
  set (d := join (MMTEngine._temp_path e) name) in *.
  assert (untouched_under d (fs st) (fs sa)) as Hsa.
  { apply bind_Return_inv in Ha as (is_dir & s0 & Hr & Ha).
    unfold read_fs in Hr. injection Hr as _ <-.
    destruct (true && negb is_dir).
    - apply on_fs_Return in Ha as (f' & Hmk & ->).
      eapply fileutils_makedirs_under; [exact Hmk|]. apply longer_not_prefix.
    - unfold ret in Ha. injection Ha as _ <-. apply untouched_under_refl. }
  apply bind_Return_inv in Hb as (u1 & s1 & Hrm & Hb).
  apply on_fs_Return in Hrm as (f1 & [= <-] & ->).
  apply on_fs_Return in Hb as (f2 & Hmk & ->). simpl in *.
  by eapply remade_dir_empty.
Qed.

Lemma workspace_of_resume b st :
  MMTEngine.get_tempdir (_MMTEngineBuilder._engine b) "training" false st
  = (Return (join (MMTEngine._temp_path (_MMTEngineBuilder._engine b)) "training"), st).
Proof. reflexivity. Qed.

(** X14.  The workspace of a fresh attempt: the [training] folder is there and
    holds the checkpoint file, with the empty record in it, and nothing
    else; whatever an attempt before had left in the folder is gone.  The
    manager is the one of that file. *)
Theorem fresh_workspace_holds_only_checkpoint (b : _MMTEngineBuilder.t)
  (st st0 : state) :
  closed_tree (fs st) ->
  _MMTEngineBuilder._build_workspace b false st = (Return tt, st0) ->
  _temp_dir st0
  = Some (join (MMTEngine._temp_path (_MMTEngineBuilder._engine b)) "training")
  /\ os.isdir (fs st0)
       (join (MMTEngine._temp_path (_MMTEngineBuilder._engine b)) "training") = true
  /\ _checkpoint_manager st0
     = Some (Manager
               (join (join (MMTEngine._temp_path (_MMTEngineBuilder._engine b))
                           "training") "checkpoint.json") [])
  /\ forall q,
       join (MMTEngine._temp_path (_MMTEngineBuilder._engine b)) "training"
         `prefix_of` q ->
       q <> join (MMTEngine._temp_path (_MMTEngineBuilder._engine b)) "training" ->
       fs st0 !! q
       = if decide (q = join (join (MMTEngine._temp_path (_MMTEngineBuilder._engine b))
                                   "training") "checkpoint.json")
         then Some (File "[]") else None.
Proof.
  intros Hclosed Hw. unfold _MMTEngineBuilder._build_workspace in Hw.
  apply bind_Return_inv in Hw as (d & sa & Hd & Hw).
  apply (get_tempdir_ensure _ _ _ _ _ Hclosed) in Hd as [-> [Hdir Hempty]].
  set (d := join (MMTEngine._temp_path (_MMTEngineBuilder._engine b)) "training") in *.
  apply bind_Return_inv in Hw as (u1 & sb & Hmod & Hw).
  unfold modify in Hmod. injection Hmod as _ <-.
  unfold _MMTEngineBuilder._init_checkpoint_manager in Hw.
  apply bind_Return_inv in Hw as (d' & sc & Hd' & Hw).
  unfold _MMTEngineBuilder.temp_dir in Hd'. simpl in Hd'. injection Hd' as <- <-.
  apply bind_Return_inv in Hw as (m & sd & Hm & Hw).
  unfold modify in Hw. injection Hw as <-.
  unfold _CheckpointManager.create_for_engine in Hm.
  apply bind_Return_inv in Hm as (u2 & se & Hsave & Hm).
  unfold ret in Hm. injection Hm as <- <-.
  unfold _CheckpointManager.save in Hsave.
  apply on_fs_Return in Hsave as (f' & Hwrite & ->).
  apply write_Return in Hwrite as ->. simpl.
  assert (join d "checkpoint.json" <> d) as Hne.
  { intros Heq. apply (f_equal length) in Heq. unfold join in Heq.
    rewrite length_app in Heq. simpl in Heq. lia. }
  split_and!; try done.
  - unfold os.isdir in *. rewrite lookup_nonroot in * by apply join_nonroot.
    by rewrite lookup_insert_ne.
  - intros q Hpre Hq. destruct (decide (q = join d "checkpoint.json")) as [->|Hc].
    + apply lookup_insert_eq.
    + rewrite lookup_insert_ne by done. by apply Hempty.
Qed.

(** [resume] on a state with no file at the checkpoint's path. *)
Lemma resume_raises_without_checkpoint (b : _MMTEngineBuilder.t) (st : state) :
  os.isfile (fs st)
    (join (join (MMTEngine._temp_path (_MMTEngineBuilder._engine b)) "training")
          "checkpoint.json") = false ->
  _MMTEngineBuilder.resume b st
  = (Raise (IllegalStateException
              ("Engine creation can not be resumed. Checkpoint file "
               +:+ path_str
                     (join (join (MMTEngine._temp_path (_MMTEngineBuilder._engine b))
                                 "training") "checkpoint.json")
               +:+ " not found")),
     set_temp_dir
       (Some (join (MMTEngine._temp_path (_MMTEngineBuilder._engine b)) "training"))
       st).
Proof.
  intros Hfile.
  unfold _MMTEngineBuilder.resume, _MMTEngineBuilder._build.
  apply bind_raise. unfold _MMTEngineBuilder._build_setup. apply bind_raise.
  unfold _MMTEngineBuilder._build_workspace. simpl negb.
  rewrite (bind_return _ _ _ _ _ (workspace_of_resume b st)).
  unfold modify, bind at 1.
  unfold _MMTEngineBuilder._init_checkpoint_manager, _MMTEngineBuilder.temp_dir,
    bind at 1. simpl.
  apply bind_raise.
  unfold _CheckpointManager.load_from_file, bind, read_fs, of_result. simpl.
  assert (os.read (fs st)
            (join (join (MMTEngine._temp_path (_MMTEngineBuilder._engine b)) "training")
                  "checkpoint.json") = Raise IOError) as ->; [|done].
  unfold os.isfile in Hfile. unfold os.read.
  by destruct (os.lookup _ _) as [[]|].
Qed.

(** X15.  Resuming does not touch the tree while it looks for its checkpoint.
    With no file at the checkpoint's path, [resume] raises
    [IllegalStateException], naming the path, and all that has changed is
    the builder's [_temp_dir]: no directory was made or removed, the
    engine's directory and the log of the attempt before are as they
    were. *)
Theorem resume_without_checkpoint (b : _MMTEngineBuilder.t) (st : state) :
  os.isfile (fs st)
    (join (join (MMTEngine._temp_path (_MMTEngineBuilder._engine b)) "training")
          "checkpoint.json") = false ->
  _MMTEngineBuilder.resume b st
  = (Raise (IllegalStateException
              ("Engine creation can not be resumed. Checkpoint file "
               +:+ path_str
                     (join (join (MMTEngine._temp_path (_MMTEngineBuilder._engine b))
                                 "training") "checkpoint.json")
               +:+ " not found")),
     set_temp_dir
       (Some (join (MMTEngine._temp_path (_MMTEngineBuilder._engine b)) "training"))
       st).
Proof. apply resume_raises_without_checkpoint. Qed.

End workspace.

Lemma demo_tree_closed : closed_tree Demo.tree.
Proof.
  intros p x n Hl. unfold Demo.tree in Hl.
  apply lookup_insert_Some in Hl as [[Hp _]|[_ Hl]].
  - change ["data"; "corpora"] with (["data"] ++ ["corpora"]) in Hp.
    apply app_inj_tail in Hp as [<- _]. reflexivity.
  - apply lookup_insert_Some in Hl as [[Hp _]|[_ Hl]]; [|done].
    change ["data"] with ([] ++ ["data"]) in Hp.
    apply app_inj_tail in Hp as [<- _]. reflexivity.
Qed.

Lemma fresh_workspace_holds_only_checkpoint_witness :
  fs Demo.ready !! ["runtime"; "demo"; "tmp"; "training"; "checkpoint.json"]
  = Some (File "[]")
  /\ fs Demo.ready !! ["runtime"; "demo"; "tmp"; "training"; "clean_tms"] = None.
Proof.
  destruct (@fresh_workspace_holds_only_checkpoint Demo.env Demo.all_steps Demo.start
              Demo.ready demo_tree_closed
              (run_eq _ _ _ ltac:(vm_compute; reflexivity)))
    as (_ & _ & _ & Hunder).
  split.
  - apply (Hunder ["runtime"; "demo"; "tmp"; "training"; "checkpoint.json"]).
    + by exists ["checkpoint.json"].
    + discriminate.
  - apply (Hunder ["runtime"; "demo"; "tmp"; "training"; "clean_tms"]).
    + by exists ["clean_tms"].
    + discriminate.
Defined.

Lemma resume_without_checkpoint_witness :
  fst (@_MMTEngineBuilder.resume Demo.env Demo.all_steps Demo.start)
  = Raise (IllegalStateException
             "Engine creation can not be resumed. Checkpoint file /runtime/demo/tmp/training/checkpoint.json not found")
  /\ fs (snd (@_MMTEngineBuilder.resume Demo.env Demo.all_steps Demo.start))
     = fs Demo.start.
Proof.
  rewrite (@resume_without_checkpoint Demo.env Demo.all_steps Demo.start);
    [split; reflexivity | reflexivity].
Defined.

(** ** The set-up of an attempt: the engine's directory and the log file *)

Lemma apart_below (P R q : path) : apart P R -> R `prefix_of` q -> apart P q.
Proof.
  intros [Hnot1 Hnot2] Hq. split.
  - intros Hp. destruct (prefix_weak_total _ _ _ Hp Hq); done.
  - intros Hp. apply Hnot2. by etrans.
Qed.

Lemma remove_under (P : path) (f : filesystem) (p : path) f' :
  os.remove f p = Return f' -> ~ P `prefix_of` p -> untouched_under P f f'.
Proof.
  unfold os.remove. destruct (os.isfile f p); [|done].
  intros [= <-] Hnot q Hq. apply lookup_delete_ne. by intros ->.
Qed.

Section set_up.
Context `{External}.

Lemma check_constraints_state b st :
  fs (snd (_MMTEngineBuilder._check_constraints b st)) = fs st.
Proof.
  unfold _MMTEngineBuilder._check_constraints, bind, read_fs, print, modify, ret.
  simpl. by repeat case_bool_decide.
Qed.

Lemma get_logfile_Return (P : path) e name st l st' :
  ~ P `prefix_of` MMTEngine._logs_path e ->
  ~ P `prefix_of` join (MMTEngine._logs_path e) (name +:+ ".log") ->
  MMTEngine.get_logfile e name true st = (Return l, st') ->
  l = join (MMTEngine._logs_path e) (name +:+ ".log")
  /\ untouched_under P (fs st) (fs st').
Proof.
  unfold MMTEngine.get_logfile. intros Hlogs Hfile Hg.
  apply bind_Return_inv in Hg as (u & sa & Ha & Hg).
  apply bind_Return_inv in Hg as (u' & sb & Hb & Hg).
  unfold ret in Hg. injection Hg as <- <-. split; [done|].
  apply (untouched_under_trans _ _ (fs sa)).
  - apply bind_Return_inv in Ha as (is_dir & s0 & Hr & Ha).
    unfold read_fs in Hr. injection Hr as _ <-.
    destruct (true && negb is_dir).
    + apply on_fs_Return in Ha as (f' & Hmk & ->).
      by eapply fileutils_makedirs_under.
    + unfold ret in Ha. injection Ha as _ <-. apply untouched_under_refl.
  - apply bind_Return_inv in Hb as (is_file & s0 & Hr & Hb).
    unfold read_fs in Hr. injection Hr as _ <-.
    destruct (true && is_file).
    + apply on_fs_Return in Hb as (f' & Hrm & ->). by eapply remove_under.
    + unfold ret in Hb. injection Hb as _ <-. apply untouched_under_refl.
Qed.

(** The set-up taken apart: the workspace, the state in which the engine's
    directory is seen to, the state after that, and the log file made
    last. *)
Lemma build_setup_Return b resume st ready st1 :
  _MMTEngineBuilder._build_setup b resume st = (Return ready, st1) ->
  exists s0 s2 s3 f1,
    _MMTEngineBuilder._build_workspace b resume st = (Return tt, s0)
    /\ (if negb (os.isdir (fs s0) (MMTEngine.path (_MMTEngineBuilder._engine b)))
           || negb resume
        then os.makedirs
               (shutil.rmtree (fs s0) (MMTEngine.path (_MMTEngineBuilder._engine b)))
               (MMTEngine.path (_MMTEngineBuilder._engine b)) = Return (fs s2)
        else fs s2 = fs s0)
    /\ MMTEngine.get_logfile (_MMTEngineBuilder._engine b) "training" true s2
       = (Return (join (MMTEngine._logs_path (_MMTEngineBuilder._engine b))
                       "training.log"), s3)
    /\ os.write (fs s3)
         (join (MMTEngine._logs_path (_MMTEngineBuilder._engine b)) "training.log") ""
       = Return f1
    /\ fs st1 = f1.
Proof.
  unfold _MMTEngineBuilder._build_setup. intros Hs.
  apply bind_Return_inv in Hs as ([] & s0 & Hw & Hs).
  apply bind_Return_inv in Hs as (found & sa & Hfound & Hs).
  unfold read_fs in Hfound. injection Hfound as _ <-.
  apply bind_Return_inv in Hs as (u1 & sb & Hcheck & Hs).
  assert (sb = s0) as ->.
  { destruct (bool_decide _); [done|]. unfold ret in Hcheck. by injection Hcheck. }
  apply bind_Return_inv in Hs as (u2 & s2 & Hdir & Hs).
  apply bind_Return_inv in Hs as (u3 & sc & Hcons & Hs).
  apply bind_Return_inv in Hs as (log_file & s3 & Hlog & Hs).
  apply bind_Return_inv in Hs as (logger & sd & Hinit & Hs).
  unfold ret in Hs. injection Hs as _ <-.
  assert (fs sc = fs s2) as Hsc.
  { pose proof (check_constraints_state b s2) as Hk. by rewrite Hcons in Hk. }
  assert (log_file
          = join (MMTEngine._logs_path (_MMTEngineBuilder._engine b)) "training.log")
    as ->.
  { unfold MMTEngine.get_logfile in Hlog.
    apply bind_Return_inv in Hlog as (? & ? & _ & Hlog).
    apply bind_Return_inv in Hlog as (? & ? & _ & Hlog).
    unfold ret in Hlog. by simplify_eq. }
  unfold _builder_logger.__init__ in Hinit.
  apply bind_Return_inv in Hinit as (u4 & se & Hwrite & Hinit).
  apply bind_Return_inv in Hinit as (u5 & sf & Hmod & Hinit).
  unfold ret in Hinit. unfold modify in Hmod.
  apply on_fs_Return in Hwrite as (f1 & Hwrite & ->).
  assert (fs sd = f1) as Hsd by (by simplify_eq).
  exists s0, (set_fs (fs s2) sc), s3, f1. split; [done|]. split.
  - apply bind_Return_inv in Hdir as (is_dir & sg & Hr & Hdir).
    unfold read_fs in Hr. injection Hr as <- <-.
    destruct (negb (os.isdir (fs s0) _) || negb resume).
    + apply bind_Return_inv in Hdir as (u6 & sh & Hrm & Hmk).
      apply on_fs_Return in Hrm as (f2 & [= <-] & ->).
      apply on_fs_Return in Hmk as (f3 & Hmk & ->). done.
    + unfold ret in Hdir. by injection Hdir as _ <-.
  - split; [|done]. rewrite <- Hlog. f_equal. destruct sc. simpl in *. by subst.
Qed.

(** X16.  Every attempt that gets to its steps starts them on an empty log file:
    the set-up removes the file of the attempt before and the logger opens
    a new one, also when resuming. *)
Theorem setup_starts_empty_log (b : _MMTEngineBuilder.t) (resume : bool)
  (st : state) (ready : logger_ref * list corpus * list corpus) (st1 : state) :
  _MMTEngineBuilder._build_setup b resume st = (Return ready, st1) ->
  fs st1 !! join (MMTEngine._logs_path (_MMTEngineBuilder._engine b)) "training.log"
  = Some (File "")
  /\ os.isdir (fs st1) (MMTEngine._logs_path (_MMTEngineBuilder._engine b)) = true.
Proof.
  intros (s0 & s2 & s3 & f1 & _ & _ & _ & Hwrite & ->)%build_setup_Return.
  pose proof Hwrite as ->%write_Return. split; [apply lookup_insert_eq|].
  unfold os.write in Hwrite.
  destruct (join _ "training.log") eqn:Hj; [done|]. rewrite <- Hj in *.
  destruct (os.isdir (fs s3) (os.dirname _)) eqn:Hdir; [|done].
  assert (os.dirname (join (MMTEngine._logs_path (_MMTEngineBuilder._engine b))
                        "training.log")
          = MMTEngine._logs_path (_MMTEngineBuilder._engine b)) as Hparent.
  { unfold os.dirname, join. rewrite length_app. simpl.
    rewrite Nat.add_sub. by rewrite take_app_length. }
  rewrite Hparent in Hdir. unfold os.isdir in *.
  destruct (MMTEngine._logs_path (_MMTEngineBuilder._engine b)) eqn:Hl; [done|].
  rewrite <- Hl in *. rewrite lookup_nonroot in * by (by rewrite Hl).
  rewrite lookup_insert_ne; [done|].
  intros Heq. apply (f_equal length) in Heq. unfold join in Heq.
  rewrite length_app in Heq. simpl in Heq. lia.
Qed.

(** X17.  The engine's directory at the start of the steps.  A fresh attempt
    starts from an empty engine directory: whatever an engine of that name
    held before is removed.  A resumed attempt leaves an engine directory
    that is there exactly as it is, and makes an empty one when there is
    none.  (The engine's path and its runtime path are taken to lie
    apart.) *)
Theorem setup_engine_directory (b : _MMTEngineBuilder.t) (resume : bool)
  (st : state) (ready : logger_ref * list corpus * list corpus) (st1 : state) :
  apart (MMTEngine.path (_MMTEngineBuilder._engine b))
        (MMTEngine.runtime_path (_MMTEngineBuilder._engine b)) ->
  closed_tree (fs st) ->
  _MMTEngineBuilder._build_setup b resume st = (Return ready, st1) ->
  if resume && os.isdir (fs st) (MMTEngine.path (_MMTEngineBuilder._engine b))
  then untouched_under (MMTEngine.path (_MMTEngineBuilder._engine b)) (fs st) (fs st1)
  else empty_dir (fs st1) (MMTEngine.path (_MMTEngineBuilder._engine b)).
Proof.
  intros Hapart Hclosed Hsetup.
  set (e := _MMTEngineBuilder._engine b) in *.
  set (P := MMTEngine.path e) in *.
  assert (P <> []) as HP by apply join_nonroot.
  assert (MMTEngine.runtime_path e `prefix_of` MMTEngine._logs_path e) as Hlogs
    by (by apply prefix_app_r).
  assert (MMTEngine.runtime_path e
            `prefix_of` join (MMTEngine._temp_path e) "training") as Htemp.
  { unfold MMTEngine._temp_path, join. rewrite <- app_assoc. by apply prefix_app_r. }
  assert (MMTEngine.runtime_path e
            `prefix_of` join (MMTEngine._logs_path e) "training.log") as Hfile.
  { unfold MMTEngine._logs_path, join. rewrite <- app_assoc. by apply prefix_app_r. }
  apply build_setup_Return in Hsetup
    as (s0 & s2 & s3 & f1 & Hw & Hdir & Hlog & Hwrite & ->).
  fold e in Hdir, Hlog, Hwrite. fold P in Hdir.
  pose proof (build_workspace_under b resume st tt s0
                (apart_below _ _ _ Hapart Htemp) Hw) as Hs0.
  assert (untouched_under P (fs s2) f1) as Hrest.
  { apply (untouched_under_trans _ _ (fs s3)).
    - eapply get_logfile_Return; [| |exact Hlog].
      + apply (apart_below _ _ _ Hapart Hlogs).
      + apply (apart_below _ _ _ Hapart Hfile).
    - eapply write_under; [exact Hwrite|]. apply (apart_below _ _ _ Hapart Hfile). }
  assert (os.isdir (fs s0) P = os.isdir (fs st) P) as Hsame.
  { unfold os.isdir. rewrite !lookup_nonroot by done. by rewrite (Hs0 P). }
  rewrite Hsame in Hdir.
  destruct resume; simpl in *.
  - destruct (os.isdir (fs st) P); simpl in *.
    + apply (untouched_under_trans _ _ (fs s0)); [done|]. by rewrite <- Hdir.
    + apply (empty_dir_untouched (fs s2)); [done..|]. by eapply remade_dir_empty.
  - rewrite orb_true_r in Hdir.
    assert (empty_dir (fs s2) P) as Hempty by (by eapply remade_dir_empty).
    destruct (os.isdir (fs st) P); by apply (empty_dir_untouched (fs s2)).
Qed.

End set_up.

Lemma setup_starts_empty_log_witness :
  fs Demo.failing_ready !! ["runtime"; "demo"; "logs"; "training.log"]
  = Some (File "").
Proof.
  unfold Demo.failing_ready.
  apply (@setup_starts_empty_log Demo.failing_cleaner Demo.all_steps false Demo.start
           (TheLogger, Demo.bilingual_corpora, []) _
           (run_eq _ _ _ ltac:(vm_compute; reflexivity))).
Defined.

Lemma setup_engine_directory_witness :
  empty_dir (fs Demo.failing_ready) ["engines"; "demo"].
Proof.
  unfold Demo.failing_ready.
  apply (@setup_engine_directory Demo.failing_cleaner Demo.all_steps false Demo.start
           (TheLogger, Demo.bilingual_corpora, []) _
           ltac:(split; intros [k Hk]; vm_compute in Hk; discriminate)
           demo_tree_closed
           (run_eq _ _ _ ltac:(vm_compute; reflexivity))).
Defined.

(** ** A build that returns leaves the engine in place *)

Lemma with_step_Return {A} (description : option string) (body : M A)
  (st : state) (a : A) (st' : state) :
  _builder_logger.with_step description body st = (Return a, st') ->
  exists sa sb, body sa = (Return a, sb) /\ fs st' = fs sb.
Proof.
  unfold _builder_logger.with_step, with_,
    _builder_logger.step, _builder_logger.__enter__, _builder_logger.__exit__,
    _builder_logger.update, _builder_logger.the_logger, _builder_logger.log,
    print, modify, bind.
  destruct (logger_obj st) as [l|]; simpl; [|done].
  match goal with |- context [body ?s] => destruct (body s) as [r sb] eqn:Hb end.
  destruct (logger_obj sb) as [l1|]; simpl; [|done].
  intros [= -> <-]. eauto.
Qed.

Lemma logger_completed_fs (st : state) :
  fs (snd (_builder_logger.completed st)) = fs st.
Proof.
  unfold _builder_logger.completed, _builder_logger.the_logger,
    _builder_logger.log, print, modify, bind.
  by destruct (logger_obj st).
Qed.

Section engine_in_place.
Context `{External}.

(** When the steps return, the configuration file has just been written. *)
Lemma run_all_steps_Return b logger bi mono st1 u st2 :
  _MMTEngineBuilder._run_all_steps b logger bi mono st1 = (Return u, st2) ->
  fs st2 !! MMTEngine._config_file (_MMTEngineBuilder._engine b)
  = Some (File (MMTEngine.xconf (_MMTEngineBuilder._engine b))).
Proof.
  unfold _MMTEngineBuilder._run_all_steps. cbv zeta. intros Hs.
  repeat match type of Hs with
         | bind (_builder_logger.with_step _ (MMTEngine.write_configs _)) _ _ = _ =>
             fail 1
         | bind _ _ _ = (Return _, _) =>
             apply bind_Return_inv in Hs as (? & ? & _ & Hs)
         end.
  apply bind_Return_inv in Hs as (u1 & sx & Hwith & Hdone).
  apply with_step_Return in Hwith as (sa & sb & Hbody & Hfs).
  pose proof (logger_completed_fs sx) as Hc. rewrite Hdone in Hc. simpl in Hc.
  rewrite Hc, Hfs.
  unfold MMTEngine.write_configs in Hbody.
  apply bind_Return_inv in Hbody as (u2 & sc & _ & Hstore).
  apply on_fs_Return in Hstore as (f' & Hwrite & ->).
  apply write_Return in Hwrite as ->. simpl. apply lookup_insert_eq.
Qed.

(** X18.  A build that returns leaves the engine's configuration file in place,
    with the two languages in it, so that the engine [exists] from then
    on; the removal of the training workspace does not reach it.  (The
    engine's path and its runtime path are taken to lie apart.) *)
Theorem returned_build_leaves_config (b : _MMTEngineBuilder.t) (resume : bool)
  (st : state) :
  apart (MMTEngine.path (_MMTEngineBuilder._engine b))
        (MMTEngine.runtime_path (_MMTEngineBuilder._engine b)) ->
  is_return (fst (_MMTEngineBuilder._build b resume st)) = true ->
  fs (snd (_MMTEngineBuilder._build b resume st))
    !! MMTEngine._config_file (_MMTEngineBuilder._engine b)
  = Some (File (MMTEngine.xconf (_MMTEngineBuilder._engine b)))
  /\ MMTEngine.exists_ (_MMTEngineBuilder._engine b)
       (snd (_MMTEngineBuilder._build b resume st))
     = (Return true, snd (_MMTEngineBuilder._build b resume st)).
Proof.
  intros Hapart Hret.
  set (e := _MMTEngineBuilder._engine b) in *.
  assert (fs (snd (_MMTEngineBuilder._build b resume st)) !! MMTEngine._config_file e
          = Some (File (MMTEngine.xconf e))) as Hfile.
  { destruct (_MMTEngineBuilder._build_setup b resume st)
      as [[[[logger bi] mono]|ex] st1] eqn:Hsetup.
    - destruct (_MMTEngineBuilder._run_all_steps b logger bi mono st1)
        as [r st2] eqn:Hsteps.
      destruct (build_outcome _ _ _ _ _ _ _ _ _ Hsetup Hsteps) as (l & _ & Hb).
      rewrite Hb in Hret |- *. destruct r as [[]|ex]; [|done]. simpl.
      pose proof (run_all_steps_Return _ _ _ _ _ _ _ Hsteps) as Hcfg. fold e in Hcfg.
      destruct (_MMTEngineBuilder._debug b); [done|]. simpl.
      rewrite (rmtree_apart (MMTEngine.path e)); [done| |by apply prefix_app_r].
      apply (apart_below _ _ _ Hapart).
      unfold MMTEngine._temp_path, join. rewrite <- app_assoc. by apply prefix_app_r.
    - unfold _MMTEngineBuilder._build in Hret.
      by rewrite (bind_raise _ _ _ _ _ Hsetup) in Hret. }
  split; [done|].
  unfold MMTEngine.exists_, read_fs, os.isfile.
  rewrite lookup_nonroot by apply join_nonroot. by rewrite Hfile.
Qed.

End engine_in_place.

Lemma returned_build_leaves_config_witness :
  fs (snd (@_MMTEngineBuilder._build Demo.env Demo.all_steps false Demo.start))
    !! ["engines"; "demo"; "engine.xconf"]
  = Some (File (MMTEngine.xconf Demo.engine)).
Proof.
  apply (@returned_build_leaves_config Demo.env Demo.all_steps false Demo.start).
  - split; intros [k Hk]; vm_compute in Hk; discriminate.
  - vm_compute. reflexivity.
Defined.

(** ** The builder's temporary folders *)

Lemma rmtree_outside (f : filesystem) (p q : path) :
  ~ p `prefix_of` q -> shutil.rmtree f p !! q = f !! q.
Proof.
  intros Hnot. unfold shutil.rmtree. destruct (os.isdir f p); [|done].
  destruct (f !! q) as [x|] eqn:Hq.
  - by apply map_lookup_filter_Some.
  - apply map_lookup_filter_None. by left.
Qed.

Lemma makedirs_outside (f : filesystem) (p : path) f' q :
  os.makedirs f p = Return f' -> ~ q `prefix_of` p -> f' !! q = f !! q.
Proof.
  intros [_ ->]%makedirs_Return Hnot.
  apply lookup_foldr_insert_notin. by intros Hin%chain_prefix.
Qed.

Lemma chain_nonroot (p q : path) : q ∈ os.chain p -> q <> [].
Proof.
  unfold os.chain. intros (n & -> & Hn)%list_elem_of_fmap.
  apply elem_of_seq in Hn. destruct p; simpl in *; [lia | done].
Qed.

Lemma makedirs_grows (f : filesystem) (p : path) f' :
  os.makedirs f p = Return f' -> grows f f'.
Proof.
  unfold os.makedirs. destruct (os.lookup f p); [done|].
  destruct (forallb _ _) eqn:Hall; [|done]. intros [= <-] q n Hq.
  destruct (decide (q ∈ os.chain p)) as [Hin|Hnot].
  - rewrite lookup_foldr_insert_in by done.
    rewrite forallb_forall in Hall. apply list_elem_of_In in Hin as Hin'.
    specialize (Hall q Hin'). apply negb_true_iff in Hall.
    unfold os.isfile in Hall. rewrite lookup_nonroot in Hall by (by eapply chain_nonroot).
    rewrite Hq in Hall. by destruct n.
  - by rewrite lookup_foldr_insert_notin.
Qed.

Lemma set_fs_same (st : state) : set_fs (fs st) st = st.
Proof. by destruct st. Qed.

(** X19.  [_get_tempdir] keeps a folder that is there with all it holds, and
    makes one that is not; asked to [delete_if_exists], it hands out an
    empty folder, whatever an attempt before had left in it, and touches
    nothing beside the folder and the directories on the way to it.
    Either way the folder is a directory when the call returns.  Before
    [_build] has set [_temp_dir] the call raises [AttributeError]. *)
Theorem get_tempdir_keeps_or_empties (name : string) (st : state) :
  match _temp_dir st with
  | None =>
      forall delete_if_exists,
        _MMTEngineBuilder._get_tempdir name delete_if_exists st
        = (Raise AttributeError, st)
  | Some d =>
      (os.isdir (fs st) (join d name) = true ->
       _MMTEngineBuilder._get_tempdir name false st = (Return (join d name), st))
      /\ (forall delete_if_exists p st',
            _MMTEngineBuilder._get_tempdir name delete_if_exists st = (Return p, st') ->
            p = join d name /\ os.isdir (fs st') p = true
            /\ (delete_if_exists = false -> grows (fs st) (fs st')))
      /\ (closed_tree (fs st) ->
          forall p st',
            _MMTEngineBuilder._get_tempdir name true st = (Return p, st') ->
            empty_dir (fs st') (join d name)
            /\ forall q, ~ join d name `prefix_of` q -> ~ q `prefix_of` join d name ->
                 fs st' !! q = fs st !! q)
  end.
Proof.
  destruct (_temp_dir st) as [d|] eqn:Hd.
  - split; [|split].
    + intros Hdir.
      unfold _MMTEngineBuilder._get_tempdir, _MMTEngineBuilder.temp_dir, bind, read_fs,
        ret. by rewrite Hd, Hdir.
    + intros delete_if_exists p st' Hg.
      unfold _MMTEngineBuilder._get_tempdir in Hg.
      apply bind_Return_inv in Hg as (d' & s0 & Hd' & Hg).
      unfold _MMTEngineBuilder.temp_dir in Hd'. rewrite Hd in Hd'.
      injection Hd' as <- <-.
      apply bind_Return_inv in Hg as (u & sa & Hrm & Hg).
      apply bind_Return_inv in Hg as (u' & sb & Hmk & Hg).
      unfold ret in Hg. injection Hg as <- <-. split; [done|].
      apply bind_Return_inv in Hmk as (is_dir & sc & Hr & Hmk).
      unfold read_fs in Hr. injection Hr as <- <-.
      assert (os.isdir (fs sb) (join d name) = true /\ grows (fs sa) (fs sb))
        as [Hdir Hgrow].
      { destruct (os.isdir (fs sa) (join d name)) eqn:Hdir.
        - unfold ret in Hmk. injection Hmk as _ <-. split; [done | by intros ? ?].
        - apply on_fs_Return in Hmk as (f' & Hmk & ->). simpl.
          unfold fileutils.makedirs in Hmk. rewrite Hdir in Hmk. simpl in Hmk.
          split; [by eapply makedirs_isdir | by eapply makedirs_grows]. }
      split; [done|]. intros ->. unfold ret in Hrm. simpl in Hrm.
      by injection Hrm as _ <-.
    + intros Hclosed p st' Hg.
      unfold _MMTEngineBuilder._get_tempdir in Hg.
      apply bind_Return_inv in Hg as (d' & s0 & Hd' & Hg).
      unfold _MMTEngineBuilder.temp_dir in Hd'. rewrite Hd in Hd'.
      injection Hd' as <- <-.
      apply bind_Return_inv in Hg as (u & sa & Hrm & Hg).
      apply bind_Return_inv in Hg as (u' & sb & Hmk & Hg).
      unfold ret in Hg. injection Hg as _ <-.
      apply on_fs_Return in Hrm as (f1 & [= <-] & ->).
      apply bind_Return_inv in Hmk as (is_dir & sc & Hr & Hmk).
      unfold read_fs in Hr. injection Hr as <- <-. simpl in Hmk.
      destruct (os.isdir (shutil.rmtree (fs st) (join d name)) (join d name)) eqn:Hdir.
      { exfalso. unfold os.isdir in Hdir.
        rewrite lookup_nonroot in Hdir by apply join_nonroot.
        unfold shutil.rmtree in Hdir.
        destruct (os.isdir (fs st) (join d name)) eqn:Hdir0.
        - rewrite map_lookup_filter_None_2 in Hdir; [done|].
          right. intros x _. simpl. by intros Hn.
        - unfold os.isdir in Hdir0.
          rewrite lookup_nonroot in Hdir0 by apply join_nonroot.
          by rewrite Hdir0 in Hdir. }
      apply on_fs_Return in Hmk as (f' & Hmk & ->). simpl.
      unfold fileutils.makedirs in Hmk. cbn [fs set_fs] in Hmk.
      rewrite Hdir in Hmk. simpl in Hmk.
      split.
      * eapply remade_dir_empty; [exact Hclosed|apply untouched_under_refl|exact Hmk].
      * intros q Hbelow Habove.
        rewrite (makedirs_outside _ _ _ _ Hmk Habove). by apply rmtree_outside.
  - intros delete_if_exists.
    unfold _MMTEngineBuilder._get_tempdir, _MMTEngineBuilder.temp_dir, bind.
    by rewrite Hd.
Qed.

Lemma get_tempdir_keeps_or_empties_witness :
  empty_dir
    (fs (snd (_MMTEngineBuilder._get_tempdir "data" true
                (set_temp_dir (Some []) Demo.start))))
    ["data"]
  /\ fs Demo.start !! ["data"; "corpora"] = Some Dir.
Proof.
  split; [|reflexivity].
  pose proof (get_tempdir_keeps_or_empties "data" (set_temp_dir (Some []) Demo.start))
    as Hg.
  simpl in Hg. destruct Hg as (_ & _ & Hempty).
  eapply Hempty; [exact demo_tree_closed|].
  apply run_eq. vm_compute. reflexivity.
Defined.

(** ** The step functions in skip mode *)

Lemma grows_refl (f : filesystem) : grows f f.
Proof. by intros q n. Qed.

Lemma grows_trans (f1 f2 f3 : filesystem) : grows f1 f2 -> grows f2 f3 -> grows f1 f3.
Proof. intros H12 H23 q n Hq. by apply H23, H12. Qed.

Lemma get_tempdir_grows (name : string) (st : state) :
  grows (fs st) (fs (snd (_MMTEngineBuilder._get_tempdir name false st))).
Proof.
  unfold _MMTEngineBuilder._get_tempdir, _MMTEngineBuilder.temp_dir, bind, read_fs,
    ret, on_fs.
  destruct (_temp_dir st) as [d|]; simpl; [|apply grows_refl].
  destruct (os.isdir (fs st) (join d name)) eqn:Hdir; simpl; [apply grows_refl|].
  unfold fileutils.makedirs. rewrite Hdir. simpl.
  destruct (os.makedirs (fs st) (join d name)) as [f'|e] eqn:Hmk; simpl;
    [by eapply makedirs_grows | apply grows_refl].
Qed.

Section skip_mode.
Context `{External}.

(** X20.  In skip mode no step function trains, cleans or removes anything.
    The four model steps return [None] and leave the whole state as it is:
    the working folders of the aligner, the translation model and the
    language model are not emptied.  The three steps that hand corpora on
    make sure their folders are there and list them; under them the tree
    only grows, and what they return depends neither on the values they
    are given nor on the logger. *)
Theorem skipped_steps_keep_the_tree (b : _MMTEngineBuilder.t)
  (v w x v' w' x' : value) (logger logger' : option logger_ref) (st : state) :
  _MMTEngineBuilder._step_context_analyzer b [v] true logger st = (Return VNone, st)
  /\ _MMTEngineBuilder._step_aligner b [v] true logger st = (Return VNone, st)
  /\ _MMTEngineBuilder._step_tm b [v] true logger st = (Return VNone, st)
  /\ _MMTEngineBuilder._step_lm b [v] true logger st = (Return VNone, st)
  /\ _MMTEngineBuilder._step_tm_cleanup b [v] true logger st
     = _MMTEngineBuilder._step_tm_cleanup b [v'] true logger' st
  /\ _MMTEngineBuilder._step_init b [v; w] true logger st
     = _MMTEngineBuilder._step_init b [v'; w'] true logger' st
  /\ _MMTEngineBuilder._step_preprocess b [v; w; x] true logger st
     = _MMTEngineBuilder._step_preprocess b [v'; w'; x'] true logger' st
  /\ grows (fs st) (fs (snd (_MMTEngineBuilder._step_tm_cleanup b [v] true logger st)))
  /\ grows (fs st) (fs (snd (_MMTEngineBuilder._step_init b [v; w] true logger st)))
  /\ grows (fs st)
       (fs (snd (_MMTEngineBuilder._step_preprocess b [v; w; x] true logger st))).
Proof.
  split_and!; try reflexivity.
  - unfold _MMTEngineBuilder._step_tm_cleanup, bind.
    pose proof (get_tempdir_grows "clean_tms" st) as Hg.
    destruct (_MMTEngineBuilder._get_tempdir "clean_tms" false st) as [[p|e] s1];
      simpl in *; [|done].
    unfold read_fs, ret. by destruct (list_corpora p (fs s1)).
  - unfold _MMTEngineBuilder._step_init, bind.
    pose proof (get_tempdir_grows "training_corpora" st) as Hg.
    destruct (_MMTEngineBuilder._get_tempdir "training_corpora" false st)
      as [[p|e] s1]; simpl in *; [|done].
    unfold read_fs, ret. by destruct (splitlist _ _ _ (fs s1)).
  - unfold _MMTEngineBuilder._step_preprocess, bind.
    pose proof (get_tempdir_grows "preprocessed" st) as Hg1.
    destruct (_MMTEngineBuilder._get_tempdir "preprocessed" false st)
      as [[p|e] s1]; simpl in *; [|done].
    pose proof (get_tempdir_grows "clean_corpora" s1) as Hg2.
    destruct (_MMTEngineBuilder._get_tempdir "clean_corpora" false s1)
      as [[p2|e] s2]; simpl in *; [|by eapply grows_trans].
    unfold read_fs, ret.
    destruct (splitlist _ _ _ (fs s2)); simpl; [|by eapply grows_trans].
    destruct (list_corpora p2 (fs s2)); simpl; by eapply grows_trans.
Qed.

End skip_mode.

(** ** A finished attempt and its checkpoint *)

(** A tree can be checked for closedness entry by entry. *)
Lemma closed_tree_check (f : filesystem) :
  forallb (fun kv => match kv.1 with
                     | [] => true
                     | _ => os.isdir f (os.dirname kv.1)
                     end) (map_to_list f) = true ->
  closed_tree f.
Proof.
  intros Hall p x n Hl. rewrite forallb_forall in Hall.
  apply elem_of_map_to_list, list_elem_of_In in Hl. specialize (Hall _ Hl).
  simpl in Hall. destruct (p ++ [x]) eqn:Hp.
  - symmetry in Hp. by apply app_cons_not_nil in Hp.
  - rewrite <- Hp in Hall. unfold os.dirname in Hall.
    rewrite length_app in Hall. simpl in Hall.
    by rewrite Nat.add_sub, take_app_length in Hall.
Qed.

Section finished.
Context `{External}.

(** X21.  Once a build has returned with debug off, the attempt cannot be
    resumed: the checkpoint file went with the training workspace, and
    [resume] raises [IllegalStateException] without touching the tree. *)
Theorem finished_build_cannot_be_resumed (b : _MMTEngineBuilder.t) (resume : bool)
  (st : state) :
  _MMTEngineBuilder._debug b = false ->
  is_return (fst (_MMTEngineBuilder._build b resume st)) = true ->
  closed_tree (fs (snd (_MMTEngineBuilder._build b resume st))) ->
  exists msg,
    _MMTEngineBuilder.resume b (snd (_MMTEngineBuilder._build b resume st))
    = (Raise (IllegalStateException msg),
       set_temp_dir
         (Some (join (MMTEngine._temp_path (_MMTEngineBuilder._engine b)) "training"))
         (snd (_MMTEngineBuilder._build b resume st))).
Proof.
  intros Hdebug Hret Hclosed. eexists.
  apply resume_raises_without_checkpoint.
  set (training := join (MMTEngine._temp_path (_MMTEngineBuilder._engine b)) "training").
  destruct (_MMTEngineBuilder._build_setup b resume st)
    as [[[[logger bi] mono]|ex] st1] eqn:Hsetup.
  - destruct (_MMTEngineBuilder._run_all_steps b logger bi mono st1)
      as [r st2] eqn:Hsteps.
    destruct (build_outcome _ _ _ _ _ _ _ _ _ Hsetup Hsteps) as (l & _ & Hb).
    rewrite Hb in Hret, Hclosed |- *. destruct r as [[]|ex]; [|done].
    rewrite Hdebug in Hclosed |- *. simpl in *. fold training in Hclosed |- *.
    unfold os.isfile. rewrite lookup_nonroot by apply join_nonroot.
    destruct (os.isdir (fs st2) training) eqn:Hdir.
    + rewrite rmtree_under; [done | done | by apply prefix_app_r].
    + destruct (shutil.rmtree (fs st2) training !! join training "checkpoint.json")
        as [[|data]|] eqn:Hfile; [done| |done].
      apply Hclosed in Hfile. unfold shutil.rmtree in Hfile.
      rewrite Hdir in Hfile. by rewrite Hdir in Hfile.
  - unfold _MMTEngineBuilder._build in Hret.
    by rewrite (bind_raise _ _ _ _ _ Hsetup) in Hret.
Qed.

End finished.

Lemma finished_build_cannot_be_resumed_witness :
  exists msg,
    fst (@_MMTEngineBuilder.resume Demo.env Demo.all_steps
           (snd (@_MMTEngineBuilder._build Demo.env Demo.all_steps false Demo.start)))
    = Raise (IllegalStateException msg).
Proof.
  destruct (@finished_build_cannot_be_resumed Demo.env Demo.all_steps false Demo.start
              eq_refl ltac:(vm_compute; reflexivity)
              ltac:(apply closed_tree_check; vm_compute; reflexivity))
    as [msg Hmsg].
  exists msg. rewrite Hmsg. reflexivity.
Defined.
